(** * Dental-Clinic-V2: the conversation engine of [chatbot_service.py]

    A shallow embedding of [ChatBotService] (validators, intent classifier,
    session store and the conversation state machine) together with the
    properties its specification states about it.

    Conventions of the embedding.
    - Text is a [string] of 8-bit characters.  [str.strip], [str.lower],
      [str.isdigit], [int] and the [re] classes are modelled on the ASCII
      range: characters of code 128 and above are neither blank, digit nor
      upper case.
    - A naive [datetime] is the number of microseconds since
      0001-01-01T00:00:00; a [date] is its proleptic Gregorian ordinal
      (0001-01-01 is day 1), as [date.toordinal] has it.  One call of the
      engine reads the clock once.
    - Python exceptions are values of [exn]; a computation that may raise
      returns [exn + A].
    - [self.sessions] is a [gmap] from user name to session; a session dict
      object is referred to by the key under which the store holds it, so
      that [session["state"] = ...] is an update of the store at that key.
      [session["data"]] is a record of its twelve keys.
    - [get_response] is written in two parts: the sweep and the lookup of the
      session, then [respond], the rest of its body.
    - The Clinic Gateway ([self.clinic]) is an interface: the operations the
      engine calls are the fields of a type class over the gateway's state. *)

From Stdlib Require Import ZArith Ascii List Bool Lia Sorted.
From stdpp Require Import base option list strings pretty gmap fin_maps.

Local Open Scope Z_scope.

(** ** Python text primitives *)

Definition nl : string := String (ascii_of_nat 10) EmptyString.

Definition code (c : ascii) : Z := Z.of_nat (nat_of_ascii c).

(** The characters [str.strip] removes and [\s] matches: TAB, LF, VT, FF, CR,
    FS, GS, RS, US and the space. *)
Definition is_space (c : ascii) : bool :=
  ((9 <=? code c) && (code c <=? 13))
  || ((28 <=? code c) && (code c <=? 31))
  || (code c =? 32).

Definition is_digit (c : ascii) : bool := (48 <=? code c) && (code c <=? 57).

Definition is_upper (c : ascii) : bool := (65 <=? code c) && (code c <=? 90).

Definition lower_char (c : ascii) : ascii :=
  if is_upper c then ascii_of_nat (nat_of_ascii c + 32) else c.

Fixpoint str_map (f : ascii -> ascii) (s : string) : string :=
  match s with
  | EmptyString => EmptyString
  | String c s' => String (f c) (str_map f s')
  end.

Fixpoint str_forallb (p : ascii -> bool) (s : string) : bool :=
  match s with
  | EmptyString => true
  | String c s' => p c && str_forallb p s'
  end.

(** [s.lower()] *)
Definition lower (s : string) : string := str_map lower_char s.

Fixpoint lstrip (s : string) : string :=
  match s with
  | EmptyString => EmptyString
  | String c s' => if is_space c then lstrip s' else s
  end.

Fixpoint rstrip (s : string) : string :=
  match s with
  | EmptyString => EmptyString
  | String c s' =>
      match rstrip s' with
      | EmptyString => if is_space c then EmptyString else String c EmptyString
      | t => String c t
      end
  end.

(** [s.strip()] *)
Definition strip (s : string) : string := rstrip (lstrip s).

(** [sub in s] on strings *)
Fixpoint contains (sub s : string) : bool :=
  String.prefix sub s
  || match s with
     | EmptyString => false
     | String _ s' => contains sub s'
     end.

(** [any(w in s for w in words)] *)
Definition any_in (words : list string) (s : string) : bool :=
  existsb (fun w => contains w s) words.

(** [s.isdigit()] *)
Definition isdigit (s : string) : bool :=
  match s with
  | EmptyString => false
  | _ => str_forallb is_digit s
  end.

Definition digit_val (c : ascii) : Z := code c - 48.

(** Decimal value of a run of digits, most significant first. *)
Fixpoint digits_val (acc : Z) (s : string) : Z :=
  match s with
  | EmptyString => acc
  | String c s' => digits_val (10 * acc + digit_val c) s'
  end.

(** The digit groups of an [int] literal: digits, single underscores allowed
    between two digits only.  [prev] tells whether the previous character
    was a digit. *)
Fixpoint int_body (prev : bool) (acc : Z) (s : string) : option Z :=
  match s with
  | EmptyString => if prev then Some acc else None
  | String c s' =>
      if is_digit c then int_body true (10 * acc + digit_val c) s'
      else if (code c =? 95) && prev then
        match s' with
        | String d _ => if is_digit d then int_body false acc s' else None
        | EmptyString => None
        end
      else None
  end.

(** [int(s)] in base 10: surrounding blanks are dropped, one sign is allowed;
    [None] stands for [ValueError]. *)
Definition py_int (s : string) : option Z :=
  match strip s with
  | String c s' =>
      if Ascii.eqb c "+" then int_body false 0 s'
      else if Ascii.eqb c "-" then option_map Z.opp (int_body false 0 s')
      else int_body false 0 (String c s')
  | EmptyString => None
  end.

(** [x in [a, b, ...]] on a list of strings is [x ∈ l], decided by [decide]. *)

(** ** A backtracking matcher for the regular expressions of [_strptime] *)

Inductive regex : Type :=
  | Cls (p : ascii -> bool)          (* one character of a class *)
  | Seq (r1 r2 : regex)              (* r1 r2 *)
  | Alt (r1 r2 : regex)              (* r1|r2, the left one tried first *)
  | Plus (p : ascii -> bool).        (* [p]+, greedy *)

Fixpoint match_plus {A} (p : ascii -> bool) (s : string)
    (k : string -> option A) : option A :=
  match s with
  | EmptyString => None
  | String c s' =>
      if p c then
        match match_plus p s' k with
        | Some x => Some x
        | None => k s'
        end
      else None
  end.

(** [rmatch r s k]: match [r] at the head of [s] and hand the rest of the text
    to [k]; when [k] fails, the next way of matching [r] is tried. *)
Fixpoint rmatch {A} (r : regex) (s : string) (k : string -> option A) : option A :=
  match r with
  | Cls p =>
      match s with
      | String c s' => if p c then k s' else None
      | EmptyString => None
      end
  | Seq r1 r2 => rmatch r1 s (fun s' => rmatch r2 s' k)
  | Alt r1 r2 =>
      match rmatch r1 s k with
      | Some x => Some x
      | None => rmatch r2 s k
      end
  | Plus p => match_plus p s k
  end.

(** The text between the start of [s] and the start of its suffix [s']. *)
Definition taken (s s' : string) : string :=
  String.substring 0 (String.length s - String.length s') s.

(** [re.match] of a sequence of groups: the text of each group and what is
    left of the subject after the match. *)
Fixpoint match_groups (rs : list regex) (s : string) : option (list string * string) :=
  match rs with
  | [] => Some ([], s)
  | r :: rs' =>
      rmatch r s (fun s' =>
        match match_groups rs' s' with
        | Some (caps, rest) => Some (taken s s' :: caps, rest)
        | None => None
        end)
  end.

Definition chr (c : ascii) : regex := Cls (Ascii.eqb c).
Definition rng (a b : ascii) : regex :=
  Cls (fun c => (code a <=? code c) && (code c <=? code b)).
Definition dig : regex := Cls is_digit.

(** The directive table of [_strptime.TimeRE]. *)
Definition re_Y : regex := Seq dig (Seq dig (Seq dig dig)).
Definition re_m : regex :=
  Alt (Seq (chr "1") (rng "0" "2")) (Alt (Seq (chr "0") (rng "1" "9")) (rng "1" "9")).
Definition re_d : regex :=
  Alt (Seq (chr "3") (rng "0" "1"))
 (Alt (Seq (rng "1" "2") dig)
 (Alt (Seq (chr "0") (rng "1" "9"))
 (Alt (rng "1" "9") (Seq (chr " ") (rng "1" "9"))))).
Definition re_H : regex :=
  Alt (Seq (chr "2") (rng "0" "3")) (Alt (Seq (rng "0" "1") dig) dig).
Definition re_M : regex := Alt (Seq (rng "0" "5") dig) dig.

(** ** Calendar arithmetic of [datetime] *)

Definition MINYEAR : Z := 1.
Definition MAXYEAR : Z := 9999.
(** [date.max.toordinal()] *)
Definition MAXORDINAL : Z := 3652059.

Definition is_leap (y : Z) : bool :=
  (y mod 4 =? 0) && (negb (y mod 100 =? 0) || (y mod 400 =? 0)).

Definition days_in_month (y m : Z) : Z :=
  if (m =? 2) then (if is_leap y then 29 else 28)
  else if (m =? 4) || (m =? 6) || (m =? 9) || (m =? 11) then 30
  else 31.

Definition days_before_year (y : Z) : Z :=
  let y1 := y - 1 in y1 * 365 + y1 / 4 - y1 / 100 + y1 / 400.

(** The table [_DAYS_BEFORE_MONTH] of [datetime]. *)
Definition DAYS_BEFORE_MONTH (m : Z) : Z :=
  match m with
  | 1 => 0 | 2 => 31 | 3 => 59 | 4 => 90 | 5 => 120 | 6 => 151
  | 7 => 181 | 8 => 212 | 9 => 243 | 10 => 273 | 11 => 304 | 12 => 334
  | _ => 0
  end.

Definition days_before_month (y m : Z) : Z :=
  DAYS_BEFORE_MONTH m + (if (2 <? m) && is_leap y then 1 else 0).

Definition ymd2ord (y m d : Z) : Z :=
  days_before_year y + days_before_month y m + d.

(** [date(y, m, d)] raises [ValueError] unless this holds. *)
Definition valid_ymd (y m d : Z) : bool :=
  (MINYEAR <=? y) && (y <=? MAXYEAR) && (1 <=? m) && (m <=? 12)
  && (1 <=? d) && (d <=? days_in_month y m).

Definition MICROS_PER_HOUR : Z := 3600 * 1000000.
Definition MICROS_PER_DAY : Z := 24 * MICROS_PER_HOUR.

(** [t.date()] as an ordinal, and [t.hour]. *)
Definition date_of (t : Z) : Z := t / MICROS_PER_DAY + 1.
Definition hour_of (t : Z) : Z := (t / MICROS_PER_HOUR) mod 24.

(** [int(found_dict[...])] on the text of a group (blanks dropped as [int]
    does). *)
Definition group_int (s : string) : Z := digits_val 0 (strip s).

(** [datetime.strptime(s, "%Y-%m-%d")]: the date as year, month, day; [None]
    stands for [ValueError] (no match, unconverted data, or no such day). *)
Definition strptime_ymd (s : string) : option (Z * Z * Z) :=
  match match_groups [re_Y; chr "-"; re_m; chr "-"; re_d] s with
  | Some ([gy; _; gm; _; gd], EmptyString) =>
      let y := group_int gy in
      let m := group_int gm in
      let d := group_int gd in
      if valid_ymd y m d then Some (y, m, d) else None
  | _ => None
  end.

(** [datetime.strptime(s, "%H:%M")]: hour and minute. *)
Definition strptime_hm (s : string) : option (Z * Z) :=
  match match_groups [re_H; chr ":"; re_M] s with
  | Some ([gh; _; gmin], EmptyString) => Some (group_int gh, group_int gmin)
  | _ => None
  end.

(** [datetime.strptime(s, "%Y-%m-%d %H:%M")] as minutes since the start of
    day 1; blanks in the format stand for [\s+]. *)
Definition strptime_ymd_hm (s : string) : option Z :=
  match match_groups
          [re_Y; chr "-"; re_m; chr "-"; re_d; Plus is_space; re_H; chr ":"; re_M] s with
  | Some ([gy; _; gm; _; gd; _; gh; _; gmin], EmptyString) =>
      let y := group_int gy in
      let m := group_int gm in
      let d := group_int gd in
      if valid_ymd y m d
      then Some ((ymd2ord y m d * 24 + group_int gh) * 60 + group_int gmin)
      else None
  | _ => None
  end.

(** ** Exceptions *)

(** [ValueError] stands for the class and its subclasses (pydantic's
    [ValidationError] is one); [OtherError] for any instance of [Exception]
    that is none of the classes named here. *)
Inductive exn : Type :=
  | ValueError (msg : string)
  | KeyError (key : string)
  | AttributeError (msg : string)
  | OverflowError (msg : string)
  | OtherError (cls msg : string).

Definition is_ValueError (e : exn) : bool :=
  match e with ValueError _ => true | _ => false end.

(** [str(e)] *)
Definition exn_str (e : exn) : string :=
  match e with
  | ValueError m | AttributeError m | OverflowError m | OtherError _ m => m
  | KeyError k => "'" +:+ k +:+ "'"
  end.

(** ** The records of [appointment.py] and [doctor.py] *)

Inductive AppointmentStatus : Type :=
  | SCHEDULED | CONFIRMED | IN_PROGRESS | COMPLETED | CANCELLED | NO_SHOW | RESCHEDULED.

Definition AppointmentStatus_value (s : AppointmentStatus) : string :=
  match s with
  | SCHEDULED => "Scheduled"
  | CONFIRMED => "Confirmed"
  | IN_PROGRESS => "In Progress"
  | COMPLETED => "Completed"
  | CANCELLED => "Cancelled"
  | NO_SHOW => "No Show"
  | RESCHEDULED => "Rescheduled"
  end.

Inductive ServiceType : Type :=
  | CONSULTATION | CLEANING | FILLING | ROOT_CANAL | EXTRACTION | ORTHODONTICS
  | WHITENING | IMPLANT | CROWN | EMERGENCY | OTHER.

Definition ServiceType_value (s : ServiceType) : string :=
  match s with
  | CONSULTATION => "Consultation"
  | CLEANING => "Cleaning"
  | FILLING => "Filling"
  | ROOT_CANAL => "Root Canal"
  | EXTRACTION => "Extraction"
  | ORTHODONTICS => "Orthodontics"
  | WHITENING => "Whitening"
  | IMPLANT => "Implant"
  | CROWN => "Crown"
  | EMERGENCY => "Emergency"
  | OTHER => "Other"
  end.

(** [list(ServiceType)], in definition order. *)
Definition ServiceType_members : list ServiceType :=
  [CONSULTATION; CLEANING; FILLING; ROOT_CANAL; EXTRACTION; ORTHODONTICS;
   WHITENING; IMPLANT; CROWN; EMERGENCY; OTHER].

(** [ServiceType(v)]: the member whose value is [v]. *)
Definition ServiceType_of_value (v : string) : option ServiceType :=
  find (fun m => String.eqb (ServiceType_value m) v) ServiceType_members.

Module Appointment.
(** The fields of [Appointment] the engine reads or sets. *)
Record t : Type := mk {
  id : string;
  patient_name : string;
  patient_phone : string;
  doctor_name : string;
  date : string;
  time : string;
  service_type : ServiceType;
  status : AppointmentStatus;
  notes : option string
}.

(** [get_datetime]: [None] stands for the [ValueError] of [strptime]. *)
Definition get_datetime (a : t) : option Z :=
  strptime_ymd_hm (date a +:+ " " +:+ time a).
End Appointment.

Module Doctor.
(** What the engine prints of a doctor: [full_name], [specialty.value] and
    [patient_rating] as it is rendered in an f-string. *)
Record t : Type := mk {
  full_name : string;
  specialty : string;
  patient_rating : string
}.
End Doctor.

(** ** Sessions *)

Inductive ConversationState : Type :=
  | START | GREETING | PROBLEM_ASSESSMENT | SERVICE_SELECTION | DATE_SELECTION
  | TIME_SELECTION | PHONE_COLLECTION | DOCTOR_SELECTION | CONFIRMATION
  | BOOKING_COMPLETE | INTENT_DETECTION | CANCEL_START | CANCEL_CONFIRMATION
  | RESCHEDULE_START | RESCHEDULE_APPOINTMENT_SELECTION | RESCHEDULE_DATE_SELECTION
  | RESCHEDULE_TIME_SELECTION | RESCHEDULE_CONFIRMATION | VIEW_START | VIEW_RESULTS.

Global Instance ConversationState_eq_dec : EqDecision ConversationState.
Proof. solve_decision. Defined.

(** [session["data"]].  The first eight keys exist from [_create_session] on
    and hold [None] or a string; the last four are added by the cancel and
    reschedule flows, [None] meaning that the key is absent. *)
Module Draft.
Record t : Type := mk {
  patient_name : string;
  problem : option string;
  service_type : option string;
  date : option string;
  time : option string;
  doctor_name : option string;
  phone : option string;
  notes : option string;
  available_appointments : option (list Appointment.t);
  selected_appointment : option Appointment.t;
  new_date : option string;
  new_time : option string
}.

Definition set_problem (v : string) (d : t) : t :=
  let 'mk a _ c e f g h i j k l m := d in mk a (Some v) c e f g h i j k l m.
Definition set_service_type (v : string) (d : t) : t :=
  let 'mk a b _ e f g h i j k l m := d in mk a b (Some v) e f g h i j k l m.
Definition set_date (v : string) (d : t) : t :=
  let 'mk a b c _ f g h i j k l m := d in mk a b c (Some v) f g h i j k l m.
Definition set_time (v : string) (d : t) : t :=
  let 'mk a b c e _ g h i j k l m := d in mk a b c e (Some v) g h i j k l m.
Definition set_doctor_name (v : string) (d : t) : t :=
  let 'mk a b c e f _ h i j k l m := d in mk a b c e f (Some v) h i j k l m.
Definition set_phone (v : string) (d : t) : t :=
  let 'mk a b c e f g _ i j k l m := d in mk a b c e f g (Some v) i j k l m.
Definition set_available_appointments (v : list Appointment.t) (d : t) : t :=
  let 'mk a b c e f g h i _ k l m := d in mk a b c e f g h i (Some v) k l m.
Definition set_selected_appointment (v : Appointment.t) (d : t) : t :=
  let 'mk a b c e f g h i j _ l m := d in mk a b c e f g h i j (Some v) l m.
Definition set_new_date (v : string) (d : t) : t :=
  let 'mk a b c e f g h i j k _ m := d in mk a b c e f g h i j k (Some v) m.
Definition set_new_time (v : string) (d : t) : t :=
  let 'mk a b c e f g h i j k l _ := d in mk a b c e f g h i j k l (Some v).
End Draft.

Record session : Type := Session {
  state : ConversationState;
  user_name : string;
  data : Draft.t;
  validation_errors : list string;
  attempt_count : Z;
  created_at : Z
}.

Definition set_state (st : ConversationState) (s : session) : session :=
  Session st (user_name s) (data s) (validation_errors s) (attempt_count s) (created_at s).

Definition set_data (f : Draft.t -> Draft.t) (s : session) : session :=
  Session (state s) (user_name s) (f (data s)) (validation_errors s) (attempt_count s)
    (created_at s).

(** How an f-string prints a draft field: [None] prints as [None]. *)
Definition fmt (v : option string) : string :=
  match v with Some s => s | None => "None" end.

Definition new_draft (user_name : string) : Draft.t :=
  Draft.mk user_name None None None None None None None None None None None.

(** [_create_session], at clock reading [now]. *)
Definition _create_session (now : Z) (user_name : string) : session :=
  Session START user_name (new_draft user_name) [] 0 now.

(** What one call of the engine takes from its surroundings: the reading of
    [datetime.now()] and the [uuid4().hex[:8]] an [Appointment] built during
    the call receives as its id. *)
Record env : Type := Env { now : Z; uuid : string }.

(** ** The Clinic Gateway *)

(** The keyword arguments of [book_appointment_validated]. *)
Record booking_request : Type := BookingRequest {
  req_patient_name : string;
  req_patient_phone : option string;
  req_doctor_name : option string;
  req_date : option string;
  req_time : option string;
  req_service_type : option string;
  req_notes : string
}.

(** The methods of [self.clinic] the engine calls.  Each one runs on the
    gateway's state, may change it, and returns or raises. *)
Class ClinicGateway (G : Type) : Type := {
  get_patient_appointments : string -> G -> (exn + list Appointment.t) * G;
  book_appointment_validated : booking_request -> G -> (exn + bool * string) * G;
  cancel_appointment : string -> string -> G -> (exn + bool) * G;
  reschedule_appointment : string -> string -> string -> G -> (exn + bool) * G;
  get_all_doctors : G -> (exn + list Doctor.t) * G;
  get_doctor_by_name : string -> G -> (exn + option Doctor.t) * G
}.

(** Text produced by libraries whose wording is theirs: the [str] of
    pydantic's [ValidationError] for the fields that failed, and
    [strftime("%Y-%m-%d")] of a date given by its ordinal. *)
Class Platform : Type := {
  validation_message : list string -> string;
  strftime_ymd : Z -> string
}.

(** ** Validators *)

Definition phone_char (c : ascii) : bool :=
  is_digit c || is_space c
  || Ascii.eqb c "-" || Ascii.eqb c "+" || Ascii.eqb c "(" || Ascii.eqb c ")".

(** [re.match(r'^[\d\s\-\+\(\)]{7,20}$', phone.strip())]: a stripped text
    has no final line feed for [$] to skip. *)
Definition _is_valid_phone (phone : string) : bool :=
  let p := strip phone in
  str_forallb phone_char p
  && (7 <=? Z.of_nat (String.length p)) && (Z.of_nat (String.length p) <=? 20).

Definition msg_date_past : string := "Date must be in the future".
Definition msg_date_far : string :=
  "Cannot book appointments more than 3 months in advance".
Definition msg_date_format : string :=
  "Invalid date format. Please use YYYY-MM-DD (e.g., 2025-12-25)".

(** [_is_valid_date].  [today + timedelta(days=90)] raises [OverflowError]
    past [date.max]; only [ValueError] is caught. *)
Definition _is_valid_date (now : Z) (date_str : string) : exn + bool * option string :=
  match strptime_ymd (strip date_str) with
  | Some (y, m, d) =>
      if ymd2ord y m d <? date_of now then inr (false, Some msg_date_past)
      else if MAXORDINAL <? date_of now + 90
      then inl (OverflowError "date value out of range")
      else if date_of now + 90 <? ymd2ord y m d then inr (false, Some msg_date_far)
      else inr (true, None)
  | None => inr (false, Some msg_date_format)
  end.

Definition msg_time_hours : string := "Clinic hours are 08:00 to 20:00".
Definition msg_time_step : string :=
  "Please select time on 30-minute intervals (e.g., 14:00 or 14:30)".
Definition msg_time_format : string :=
  "Invalid time format. Please use HH:MM (e.g., 14:30)".

(** [_is_valid_time] *)
Definition _is_valid_time (time_str : string) : bool * option string :=
  match strptime_hm (strip time_str) with
  | Some (hour, minute) =>
      if (hour <? 8) || (20 <=? hour) then (false, Some msg_time_hours)
      else if negb ((minute =? 0) || (minute =? 30)) then (false, Some msg_time_step)
      else (true, None)
  | None => (false, Some msg_time_format)
  end.

(** ** Intent classifier *)

Inductive intent : Type := book | cancel | reschedule | view | unknown.

Definition book_keywords : list string :=
  ["book"; "schedule"; "appointment"; "make"; "new"; "create"; "set up"].
Definition cancel_keywords : list string := ["cancel"; "delete"; "remove"; "stop"].
Definition reschedule_keywords : list string :=
  ["reschedule"; "change"; "modify"; "update"; "move"].
Definition view_keywords : list string :=
  ["view"; "see"; "show"; "list"; "check"; "my"; "upcoming"; "appointments"].

(** [_detect_intent] *)
Definition _detect_intent (user_input : string) : intent :=
  let input_lower := strip (lower user_input) in
  if any_in cancel_keywords input_lower then cancel
  else if any_in reschedule_keywords input_lower then reschedule
  else if any_in view_keywords input_lower then view
  else if any_in book_keywords input_lower then book
  else unknown.

(** The classifier as the specification words it: an ordered rule table, the
    first rule with a matching keyword wins. *)
Definition intent_rules : list (intent * list string) :=
  [(cancel, cancel_keywords); (reschedule, reschedule_keywords);
   (view, view_keywords); (book, book_keywords)].

Definition classify_spec (text : string) : intent :=
  match find (fun rule => any_in (snd rule) (strip (lower text))) intent_rules with
  | Some rule => fst rule
  | None => unknown
  end.

(** ** The engine's state and its computations *)

(** The mutable state a call works on: the session store and the gateway. *)
Record world (G : Type) : Type := World {
  sessions : gmap string session;
  clinic : G
}.
Arguments World {G} _ _.
Arguments sessions {G} _.
Arguments clinic {G} _.

(** A computation reads and updates the world and returns or raises; what it
    did to the world before raising stays done. *)
Definition M (G A : Type) : Type := world G -> (exn + A) * world G.

Definition ret {G A} (a : A) : M G A := fun w => (inr a, w).

Definition raise {G A} (e : exn) : M G A := fun w => (inl e, w).

Definition bind {G A B} (c : M G A) (k : A -> M G B) : M G B :=
  fun w =>
    match c w with
    | (inr a, w') => k a w'
    | (inl e, w') => (inl e, w')
    end.

(** [try: c except <class>: h], the class given by the test [caught]. *)
Definition try_except {G A} (c : M G A) (caught : exn -> bool) (h : exn -> M G A)
    : M G A :=
  fun w =>
    match c w with
    | (inl e, w') => if caught e then h e w' else (inl e, w')
    | r => r
    end.

(** A value that was computed without touching the world. *)
Definition lift {G A} (r : exn + A) : M G A := fun w => (r, w).

(** A call of a gateway method. *)
Definition call {G A} (op : G -> (exn + A) * G) : M G A :=
  fun w => let '(r, g) := op (clinic w) in (r, World (sessions w) g).

Definition get_sessions {G} : M G (gmap string session) := fun w => (inr (sessions w), w).

Definition put_sessions {G} (m : gmap string session) : M G unit :=
  fun w => (inr tt, World m (clinic w)).

(** Reading the session object held under [key]. *)
Definition deref {G} (key : string) : M G session :=
  fun w =>
    match sessions w !! key with
    | Some s => (inr s, w)
    | None => (inl (KeyError key), w)
    end.

(** Updating in place the session object held under [key]. *)
Definition update {G} (key : string) (f : session -> session) : M G unit :=
  fun w => (inr tt, World (alter f key (sessions w)) (clinic w)).

Notation "x <- c ;; k" := (bind c (fun x => k))
  (at level 100, c at next level, right associativity).
Notation "c ;;; k" := (bind c (fun _ => k))
  (at level 100, right associativity).

(** [for i, x in enumerate(l, start): text += line(i, x)] *)
Fixpoint enumerate_lines {A} (line : nat -> A -> string) (start : nat) (l : list A)
    : string :=
  match l with
  | [] => ""
  | x :: l' => line start x +:+ enumerate_lines line (S start) l'
  end.

(** [[s.value for s in ServiceType]] *)
Definition available_services : list string := map ServiceType_value ServiceType_members.

Definition affirmative : list string := ["yes"; "y"; "ok"; "correct"; "sure"].

Section Engine.
Context {G : Type} `{!ClinicGateway G} `{!Platform}.

(** [_get_or_create_session]; the session is then found under [user_name]. *)
Definition _get_or_create_session (e : env) (user_name : string) : M G unit :=
  m <- get_sessions ;;
  match m !! user_name with
  | None => put_sessions (<[user_name := _create_session (now e) user_name]> m)
  | Some _ => ret tt
  end.

(** [age > max_age_hours], with [age] the seconds since creation over 3600:
    a session is expired when it is more than [max_age_hours] hours old.
    Both sides are whole numbers of microseconds here. *)
Definition expired (now max_age_hours : Z) (s : session) : bool :=
  max_age_hours * MICROS_PER_HOUR <? now - created_at s.

(** [_cleanup_old_sessions] *)
Definition _cleanup_old_sessions (e : env) (max_age_hours : Z) : M G unit :=
  m <- get_sessions ;;
  put_sessions (filter (fun kv => expired (now e) max_age_hours (snd kv) = false) m).

Definition _greet_user (e : env) (user_name : string) : string :=
  let hour := hour_of (now e) in
  let greeting :=
    if hour <? 12 then "Good morning"
    else if hour <? 18 then "Good afternoon"
    else "Good evening" in
  greeting +:+ ", " +:+ user_name +:+ "!" +:+ nl +:+ nl
  +:+ "Welcome to DentalClinic Pro - Your appointment assistant." +:+ nl
  +:+ "I'm here to help you book an appointment quickly and easily." +:+ nl
  +:+ "(Type 'cancel' anytime to exit)".

Definition _handle_greeting (e : env) (session : string) : M G string :=
  update session (set_state GREETING) ;;;
  s <- deref session ;;
  ret (_greet_user e (user_name s)).

Definition _handle_problem_assessment (session user_input : string) : M G string :=
  update session (set_data (Draft.set_problem user_input)) ;;;
  update session (set_state PROBLEM_ASSESSMENT) ;;;
  let problem_lower := lower user_input in
  let response :=
    if any_in ["emergency"; "urgent"; "severe"; "pain"] problem_lower
    then "[URGENT] I understand this is urgent! We have emergency slots available."
         +:+ nl +:+ nl
    else if any_in ["clean"; "routine"; "checkup"] problem_lower
    then "[ROUTINE] Great! Routine maintenance is important for healthy teeth."
         +:+ nl +:+ nl
    else if any_in ["cosmetic"; "whiten"; "brighten"] problem_lower
    then "[COSMETIC] We offer cosmetic services! Let's get your smile perfect."
         +:+ nl +:+ nl
    else "[INFO] Thank you for sharing that. I'm here to help." +:+ nl +:+ nl in
  let response :=
    response +:+ "What service would you like?" +:+ nl
    +:+ enumerate_lines (fun i service => "  " +:+ pretty i +:+ ". " +:+ service +:+ nl)
          1 (take 6 available_services)
    +:+ "  ... (" +:+ pretty (length available_services) +:+ " services available)" +:+ nl
    +:+ nl +:+ "Or type the service name directly:" in
  update session (set_state SERVICE_SELECTION) ;;;
  ret response.

(** The example date of the date prompt: five days from now. *)
Definition example_date (e : env) : exn + string :=
  if MAXORDINAL <? date_of (now e) + 5
  then inl (OverflowError "date value out of range")
  else inr (strftime_ymd (date_of (now e) + 5)).

Definition _handle_service_selection (e : env) (session user_input : string)
    : M G string :=
  let user_input_lower := strip (lower user_input) in
  let by_number :=
    match py_int (strip user_input) with
    | Some n =>
        let service_index := n - 1 in
        if (0 <=? service_index) && (service_index <? Z.of_nat (length available_services))
        then available_services !! Z.to_nat service_index
        else None
    | None => None
    end in
  let selected_service :=
    match by_number with
    | Some s => Some s
    | None =>
        option_map ServiceType_value
          (find (fun service => contains user_input_lower (lower (ServiceType_value service)))
             ServiceType_members)
    end in
  match selected_service with
  | None =>
      ret ("[ERROR] I don't recognize '" +:+ user_input +:+ "'." +:+ nl +:+ nl
           +:+ "Available services:" +:+ nl
           +:+ String.concat nl (map (fun s => "  - " +:+ s) available_services))
  | Some selected_service =>
      update session (set_data (Draft.set_service_type selected_service)) ;;;
      update session (set_state DATE_SELECTION) ;;;
      example <- lift (example_date e) ;;
      ret ("[OK] Great! You selected: " +:+ selected_service +:+ nl +:+ nl
           +:+ "[DATE] When would you like to come in?" +:+ nl
           +:+ "Please provide a date (YYYY-MM-DD)" +:+ nl
           +:+ "Example: " +:+ example)
  end.

Definition _handle_date_selection (e : env) (session user_input : string)
    : M G string :=
  r <- lift (_is_valid_date (now e) user_input) ;;
  let '(is_valid, error_msg) := r in
  if negb is_valid then
    if isdigit (strip user_input)
    then ret ("[ERROR] That looks like a service number. If you meant to select a different service, type 'restart' to start over."
              +:+ nl +:+ nl +:+ fmt error_msg +:+ nl +:+ nl
              +:+ "Please try again (YYYY-MM-DD)")
    else ret ("[ERROR] " +:+ fmt error_msg +:+ nl +:+ nl
              +:+ "Please try again (YYYY-MM-DD)")
  else
    update session (set_data (Draft.set_date (strip user_input))) ;;;
    update session (set_state TIME_SELECTION) ;;;
    ret ("[OK] Date confirmed: " +:+ strip user_input +:+ nl +:+ nl
         +:+ "[TIME] What time works for you?" +:+ nl
         +:+ "Please provide time in HH:MM format (e.g., 14:30)" +:+ nl
         +:+ "Available: 08:00 - 20:00 (30-minute intervals)").

Definition _handle_time_selection (session user_input : string) : M G string :=
  let '(is_valid, error_msg) := _is_valid_time user_input in
  if negb is_valid then
    ret ("[ERROR] " +:+ fmt error_msg +:+ nl +:+ nl +:+ "Please try again (HH:MM)")
  else
    update session (set_data (Draft.set_time (strip user_input))) ;;;
    update session (set_state PHONE_COLLECTION) ;;;
    ret ("[OK] Time confirmed: " +:+ strip user_input +:+ nl +:+ nl
         +:+ "[PHONE] What's your phone number?" +:+ nl
         +:+ "We need this to confirm your appointment and send reminders.").

Definition _handle_phone_collection (session user_input : string) : M G string :=
  if negb (_is_valid_phone user_input) then
    ret ("[ERROR] Please provide a valid phone number (7-20 digits)" +:+ nl +:+ nl
         +:+ "Example: +1-555-123-4567")
  else
    update session (set_data (Draft.set_phone (strip user_input))) ;;;
    update session (set_state DOCTOR_SELECTION) ;;;
    doctors <- call get_all_doctors ;;
    let doctors_text :=
      match doctors with
      | [] => "  - Any available doctor (automatic assignment)"
      | _ =>
          String.concat nl
            (map (fun d => "  - Dr. " +:+ Doctor.full_name d +:+ " ("
                           +:+ Doctor.specialty d +:+ ") - Rating: "
                           +:+ Doctor.patient_rating d +:+ "/5")
               (take 5 doctors))
          +:+ (if (5 <? Z.of_nat (length doctors))
               then nl +:+ "  ... and " +:+ pretty (length doctors - 5)%nat
                    +:+ " more doctors"
               else "")
      end in
    ret ("[OK] Phone confirmed: " +:+ strip user_input +:+ nl +:+ nl
         +:+ "[DOCTOR] Which doctor would you prefer?" +:+ nl
         +:+ doctors_text +:+ nl +:+ nl
         +:+ "Or type 'any' for next available doctor").

Definition _handle_doctor_selection (session user_input : string) : M G string :=
  let doctor_input := lower (strip user_input) in
  let summary : M G string :=
    update session (set_state CONFIRMATION) ;;;
    s <- deref session ;;
    let data := data s in
    ret ("[REVIEW] Please review your appointment details:" +:+ nl +:+ nl
         +:+ "Name: " +:+ Draft.patient_name data +:+ nl
         +:+ "Phone: " +:+ fmt (Draft.phone data) +:+ nl
         +:+ "Service: " +:+ fmt (Draft.service_type data) +:+ nl
         +:+ "Date: " +:+ fmt (Draft.date data) +:+ nl
         +:+ "Time: " +:+ fmt (Draft.time data) +:+ nl
         +:+ "Doctor: " +:+ fmt (Draft.doctor_name data) +:+ nl +:+ nl
         +:+ "Is this correct? (yes/no)") in
  if String.eqb doctor_input "any" then
    update session (set_data (Draft.set_doctor_name "Any")) ;;;
    summary
  else
    doctor <- call (get_doctor_by_name user_input) ;;
    match doctor with
    | None =>
        ret ("[ERROR] Doctor '" +:+ user_input +:+ "' not found. Please try:" +:+ nl
             +:+ "  - 'any' for automatic assignment" +:+ nl
             +:+ "  - Full doctor name (e.g., 'John Smith')")
    | Some doctor =>
        update session (set_data (Draft.set_doctor_name (Doctor.full_name doctor))) ;;;
        summary
    end.

(** [Appointment(...)] as [_book_appointment] calls it: pydantic checks
    every field and raises one [ValidationError] naming those that fail.
    [date] and [time] go through the validators of the model. *)
Definition len_between (lo hi : Z) (s : string) : bool :=
  (lo <=? Z.of_nat (String.length s)) && (Z.of_nat (String.length s) <=? hi).

Definition validate_date (today : Z) (v : string) : bool :=
  match strptime_ymd v with
  | Some (y, m, d) => negb (ymd2ord y m d <? today)
  | None => false
  end.

Definition validate_time (v : string) : bool :=
  match strptime_hm v with
  | Some (hour, _) => negb ((hour <? 8) || (20 <=? hour))
  | None => false
  end.

Definition field_ok {A} (check : A -> bool) (v : option A) : bool :=
  match v with Some x => check x | None => false end.

Definition Appointment_errors (e : env) (patient_name : string)
    (patient_phone doctor_name date time service_type : option string)
    (notes : string) : list string :=
  (if len_between 1 100 patient_name then [] else ["patient_name"])
  ++ (if field_ok (len_between 7 20) patient_phone then [] else ["patient_phone"])
  ++ (if field_ok (len_between 1 100) doctor_name then [] else ["doctor_name"])
  ++ (if field_ok (validate_date (date_of (now e))) date then [] else ["date"])
  ++ (if field_ok validate_time time then [] else ["time"])
  ++ (if field_ok (fun v => bool_decide (is_Some (ServiceType_of_value v))) service_type
      then [] else ["service_type"])
  ++ (if len_between 0 500 notes then [] else ["notes"]).

Definition new_Appointment (e : env) (patient_name : string)
    (patient_phone doctor_name date time service_type : option string)
    (notes : string) : exn + Appointment.t :=
  match Appointment_errors e patient_name patient_phone doctor_name date time
          service_type notes,
        patient_phone, doctor_name, date, time,
        service_type ≫= ServiceType_of_value with
  | [], Some phone, Some doctor, Some d, Some t, Some service =>
      inr (Appointment.mk (uuid e) patient_name phone doctor d t service SCHEDULED
             (Some notes))
  | errors, _, _, _, _, _ => inl (ValueError (validation_message errors))
  end.

Definition booking_success_reply (appointment : Appointment.t) (data : Draft.t) : string :=
  "[SUCCESS] Appointment booked successfully!" +:+ nl +:+ nl
  +:+ "Confirmation Details:" +:+ nl
  +:+ "Appointment ID: " +:+ Appointment.id appointment +:+ nl
  +:+ "Date: " +:+ fmt (Draft.date data) +:+ " at " +:+ fmt (Draft.time data) +:+ nl
  +:+ "Doctor: Dr. " +:+ fmt (Draft.doctor_name data) +:+ nl
  +:+ "Service: " +:+ fmt (Draft.service_type data) +:+ nl +:+ nl
  +:+ "Confirmation sent to " +:+ fmt (Draft.phone data) +:+ nl
  +:+ "Please call 30 minutes before your appointment." +:+ nl +:+ nl
  +:+ "Thank you!".

Definition booking_failed_reply (message : string) : string :=
  "[ERROR] Booking failed: " +:+ message +:+ nl +:+ nl
  +:+ "Please try again or contact support.".

Definition booking_error_reply (err : exn) : string :=
  "[ERROR] Error booking appointment: " +:+ exn_str err +:+ nl +:+ nl
  +:+ "Please try again later.".

(** The request [_book_appointment] sends to the gateway. *)
Definition booking_request_of (data : Draft.t) : booking_request :=
  BookingRequest (Draft.patient_name data) (Draft.phone data) (Draft.doctor_name data)
    (Draft.date data) (Draft.time data) (Draft.service_type data)
    ("Patient reported: " +:+ fmt (Draft.problem data)).

Definition _book_appointment (e : env) (session : string) : M G string :=
  try_except
    (s <- deref session ;;
     let data := data s in
     appointment <-
       lift (new_Appointment e (Draft.patient_name data) (Draft.phone data)
               (Draft.doctor_name data) (Draft.date data) (Draft.time data)
               (Draft.service_type data) ("Issue: " +:+ fmt (Draft.problem data))) ;;
     r <- call (book_appointment_validated (booking_request_of data)) ;;
     let '(success, message) := r in
     if success then
       update session (set_state BOOKING_COMPLETE) ;;;
       ret (booking_success_reply appointment data)
     else ret (booking_failed_reply message))
    (fun _ => true)
    (fun err => ret (booking_error_reply err)).

Definition _handle_confirmation (e : env) (session user_input : string) : M G string :=
  let response_lower := lower (strip user_input) in
  if decide (response_lower ∈ affirmative) then _book_appointment e session
  else if decide (response_lower ∈ ["no"; "n"; "cancel"; "edit"]) then
    update session (set_state START) ;;;
    ret ("[CANCEL] Appointment cancelled." +:+ nl +:+ nl +:+ "Type anything to start over.")
  else ret "[ERROR] Please answer with 'yes' or 'no'".

Definition _handle_followup (e : env) (session user_input : string) : M G string :=
  if contains "restart" (lower user_input) then
    s <- deref session ;;
    m <- get_sessions ;;
    put_sessions (<[user_name s := _create_session (now e) (user_name s)]> m) ;;;
    ret ("[RESTART] Starting new appointment booking..." +:+ nl
         +:+ _greet_user e (user_name s))
  else if any_in ["thank"; "thanks"; "bye"; "goodbye"] (lower user_input) then
    ret "[END] You're welcome! Have a great day and take care of your smile!"
  else
    ret ("[INFO] Is there anything else I can help you with?" +:+ nl
         +:+ "Type 'restart' to book another appointment or 'bye' to exit.").

Definition _handle_intent_detection (session : string) : M G string :=
  update session (set_state INTENT_DETECTION) ;;;
  ret ("Hello! I'm your dental clinic assistant." +:+ nl +:+ nl
       +:+ "What would you like to do?" +:+ nl +:+ nl
       +:+ "1. 📅 Book a new appointment" +:+ nl
       +:+ "2. ❌ Cancel an existing appointment" +:+ nl
       +:+ "3. 🔄 Reschedule an appointment" +:+ nl
       +:+ "4. 👀 View my appointments" +:+ nl +:+ nl
       +:+ "Please type the number or describe what you need:").

(** *** Cancel flow *)

Definition _handle_cancel_start (session : string) : M G string :=
  update session (set_state CANCEL_START) ;;;
  ret ("[CANCEL] Let's cancel your appointment." +:+ nl +:+ nl
       +:+ "Please provide your name or phone number to find your appointments:").

Definition no_appointments_reply (user_input : string) : string :=
  "[ERROR] No appointments found for '" +:+ user_input +:+ "'." +:+ nl +:+ nl
  +:+ "Please check your name or phone number and try again.".

(** [apt.status in [SCHEDULED, CONFIRMED]] *)
Definition mutable_status (apt : Appointment.t) : bool :=
  match Appointment.status apt with
  | SCHEDULED | CONFIRMED => true
  | _ => false
  end.

Definition appointment_line (i : nat) (apt : Appointment.t) : string :=
  pretty i +:+ ". " +:+ Appointment.date apt +:+ " at " +:+ Appointment.time apt
  +:+ " - Dr. " +:+ Appointment.doctor_name apt
  +:+ " (" +:+ ServiceType_value (Appointment.service_type apt) +:+ ")" +:+ nl.

Definition _handle_cancel_appointment_selection (session user_input : string)
    : M G string :=
  appointments <- call (get_patient_appointments (strip user_input)) ;;
  match appointments with
  | [] => ret (no_appointments_reply user_input)
  | _ =>
      let cancellable := List.filter mutable_status appointments in
      match cancellable with
      | [] =>
          ret ("[INFO] You don't have any upcoming appointments that can be cancelled."
               +:+ nl +:+ nl
               +:+ "All your appointments are either completed or already cancelled.")
      | _ =>
          update session (set_data (Draft.set_available_appointments cancellable)) ;;;
          update session (set_state CANCEL_CONFIRMATION) ;;;
          ret ("[APPOINTMENTS] Here are your upcoming appointments:" +:+ nl +:+ nl
               +:+ enumerate_lines appointment_line 1 cancellable
               +:+ nl +:+ "Which appointment would you like to cancel? (Enter the number)")
      end
  end.

Definition invalid_selection_reply (n : nat) : string :=
  "[ERROR] Invalid selection. Please enter a number between 1 and " +:+ pretty n.

Definition not_a_number_reply : string := "[ERROR] Please enter a valid number.".

Definition cancel_failed_reply : string :=
  "[ERROR] Failed to cancel appointment. Please try again or contact support.".

(** [int(text)] inside a [try]: raises [ValueError] on a malformed number. *)
Definition int_of (text : string) : exn + Z :=
  match py_int text with
  | Some n => inr n
  | None => inl (ValueError ("invalid literal for int() with base 10: '" +:+ text +:+ "'"))
  end.

Definition _handle_cancel_confirmation (session user_input : string) : M G string :=
  try_except
    (n <- lift (int_of (strip user_input)) ;;
     let appointment_index := n - 1 in
     s <- deref session ;;
     let available_appointments := default [] (Draft.available_appointments (data s)) in
     if (appointment_index <? 0)
        || (Z.of_nat (length available_appointments) <=? appointment_index)
     then ret (invalid_selection_reply (length available_appointments))
     else
       match available_appointments !! Z.to_nat appointment_index with
       | None => raise (OtherError "IndexError" "list index out of range")
       | Some appointment =>
           success <- call (cancel_appointment (Appointment.id appointment)
                              "Cancelled via chatbot") ;;
           if success : bool then
             update session (set_state START) ;;;
             ret ("[SUCCESS] Appointment cancelled successfully!" +:+ nl +:+ nl
                  +:+ "Cancelled: " +:+ Appointment.date appointment +:+ " at "
                  +:+ Appointment.time appointment +:+ " with Dr. "
                  +:+ Appointment.doctor_name appointment +:+ nl +:+ nl
                  +:+ "If you need to book a new appointment, just let me know!")
           else ret cancel_failed_reply
       end)
    is_ValueError
    (fun _ => ret not_a_number_reply).

(** *** Reschedule flow *)

Definition _handle_reschedule_start (session : string) : M G string :=
  update session (set_state RESCHEDULE_START) ;;;
  ret ("[RESCHEDULE] Let's reschedule your appointment." +:+ nl +:+ nl
       +:+ "Please provide your name or phone number to find your appointments:").

Definition _handle_reschedule_appointment_selection (session user_input : string)
    : M G string :=
  appointments <- call (get_patient_appointments (strip user_input)) ;;
  match appointments with
  | [] => ret (no_appointments_reply user_input)
  | _ =>
      let reschedulable := List.filter mutable_status appointments in
      match reschedulable with
      | [] =>
          ret ("[INFO] You don't have any upcoming appointments that can be rescheduled."
               +:+ nl +:+ nl
               +:+ "All your appointments are either completed or cancelled.")
      | _ =>
          update session (set_data (Draft.set_available_appointments reschedulable)) ;;;
          update session (set_state RESCHEDULE_APPOINTMENT_SELECTION) ;;;
          ret ("[APPOINTMENTS] Here are your upcoming appointments:" +:+ nl +:+ nl
               +:+ enumerate_lines appointment_line 1 reschedulable
               +:+ nl
               +:+ "Which appointment would you like to reschedule? (Enter the number)")
      end
  end.

Definition _handle_reschedule_appointment_selection_response
    (session user_input : string) : M G string :=
  try_except
    (n <- lift (int_of (strip user_input)) ;;
     let appointment_index := n - 1 in
     s <- deref session ;;
     let available_appointments := default [] (Draft.available_appointments (data s)) in
     if (appointment_index <? 0)
        || (Z.of_nat (length available_appointments) <=? appointment_index)
     then ret (invalid_selection_reply (length available_appointments))
     else
       match available_appointments !! Z.to_nat appointment_index with
       | None => raise (OtherError "IndexError" "list index out of range")
       | Some appointment =>
           update session (set_data (Draft.set_selected_appointment appointment)) ;;;
           update session (set_state RESCHEDULE_DATE_SELECTION) ;;;
           ret ("[OK] Selected appointment: " +:+ Appointment.date appointment +:+ " at "
                +:+ Appointment.time appointment +:+ " with Dr. "
                +:+ Appointment.doctor_name appointment +:+ nl +:+ nl
                +:+ "[NEW DATE] What is your new preferred date?" +:+ nl
                +:+ "Please provide date in YYYY-MM-DD format:")
       end)
    is_ValueError
    (fun _ => ret not_a_number_reply).

Definition _handle_reschedule_date_selection (e : env) (session user_input : string)
    : M G string :=
  r <- lift (_is_valid_date (now e) user_input) ;;
  let '(is_valid, error_msg) := r in
  if negb is_valid then
    ret ("[ERROR] " +:+ fmt error_msg +:+ nl +:+ nl +:+ "Please try again (YYYY-MM-DD)")
  else
    update session (set_data (Draft.set_new_date (strip user_input))) ;;;
    update session (set_state RESCHEDULE_TIME_SELECTION) ;;;
    ret ("[OK] New date confirmed: " +:+ strip user_input +:+ nl +:+ nl
         +:+ "[NEW TIME] What time works for you?" +:+ nl
         +:+ "Please provide time in HH:MM format (e.g., 14:30)" +:+ nl
         +:+ "Available: 08:00 - 20:00 (30-minute intervals)").

(** [d[key]] on a key of the draft that may be absent. *)
Definition getitem {A} (key : string) (v : option A) : exn + A :=
  match v with
  | Some x => inr x
  | None => inl (KeyError key)
  end.

Definition _handle_reschedule_time_selection (session user_input : string)
    : M G string :=
  let '(is_valid, error_msg) := _is_valid_time user_input in
  if negb is_valid then
    ret ("[ERROR] " +:+ fmt error_msg +:+ nl +:+ nl +:+ "Please try again (HH:MM)")
  else
    update session (set_data (Draft.set_new_time (strip user_input))) ;;;
    update session (set_state RESCHEDULE_CONFIRMATION) ;;;
    s <- deref session ;;
    appointment <- lift (getitem "selected_appointment"
                           (Draft.selected_appointment (data s))) ;;
    new_date <- lift (getitem "new_date" (Draft.new_date (data s))) ;;
    new_time <- lift (getitem "new_time" (Draft.new_time (data s))) ;;
    ret ("[REVIEW] Please confirm the rescheduling:" +:+ nl +:+ nl
         +:+ "Current: " +:+ Appointment.date appointment +:+ " at "
         +:+ Appointment.time appointment +:+ " with Dr. "
         +:+ Appointment.doctor_name appointment +:+ nl
         +:+ "New: " +:+ new_date +:+ " at " +:+ new_time +:+ " with Dr. "
         +:+ Appointment.doctor_name appointment +:+ nl +:+ nl
         +:+ "Is this correct? (yes/no)").

Definition reschedule_failed_reply : string :=
  "[ERROR] Failed to reschedule appointment. Please try again or contact support.".

(** The affirmative branch of [_handle_reschedule_confirmation]: the
    reschedule commit. *)
Definition reschedule_commit (session : string) : M G string :=
  s <- deref session ;;
  appointment <- lift (getitem "selected_appointment"
                         (Draft.selected_appointment (data s))) ;;
  new_date <- lift (getitem "new_date" (Draft.new_date (data s))) ;;
  new_time <- lift (getitem "new_time" (Draft.new_time (data s))) ;;
  success <- call (reschedule_appointment (Appointment.id appointment) new_date new_time) ;;
  if success : bool then
    update session (set_state START) ;;;
    ret ("[SUCCESS] Appointment rescheduled successfully!" +:+ nl +:+ nl
         +:+ "New appointment: " +:+ new_date +:+ " at " +:+ new_time +:+ " with Dr. "
         +:+ Appointment.doctor_name appointment +:+ nl
         +:+ "Service: " +:+ ServiceType_value (Appointment.service_type appointment)
         +:+ nl +:+ nl
         +:+ "Thank you!")
  else ret reschedule_failed_reply.

Definition yes_or_no_reply : string := "[ERROR] Please answer with 'yes' or 'no'".

Definition _handle_reschedule_confirmation (session user_input : string) : M G string :=
  let response_lower := lower (strip user_input) in
  if decide (response_lower ∈ affirmative) then reschedule_commit session
  else if decide (response_lower ∈ ["no"; "n"; "cancel"]) then
    update session (set_state START) ;;;
    ret ("[CANCEL] Rescheduling cancelled." +:+ nl +:+ nl +:+ "Type anything to start over.")
  else ret yes_or_no_reply.

(** *** View flow *)

Definition _handle_view_start (session : string) : M G string :=
  update session (set_state VIEW_START) ;;;
  ret ("[VIEW] Let's check your appointments." +:+ nl +:+ nl
       +:+ "Please provide your name or phone number:").

(** [list.sort(key=...)]: the keys are computed first, one per element, and
    the sort is stable. *)
Fixpoint insert_by_key {A} (x : Z * A) (l : list (Z * A)) : list (Z * A) :=
  match l with
  | [] => [x]
  | y :: l' => if fst x <=? fst y then x :: l else y :: insert_by_key x l'
  end.

Definition sort_by_key {A} (l : list (Z * A)) : list (Z * A) :=
  fold_right insert_by_key [] l.

Fixpoint datetime_keys (l : list Appointment.t) : exn + list (Z * Appointment.t) :=
  match l with
  | [] => inr []
  | apt :: l' =>
      match Appointment.get_datetime apt with
      | None => inl (ValueError "time data does not match format '%Y-%m-%d %H:%M'")
      | Some k =>
          match datetime_keys l' with
          | inr ks => inr ((k, apt) :: ks)
          | inl err => inl err
          end
      end
  end.

Definition status_emoji (st : AppointmentStatus) : string :=
  match st with
  | SCHEDULED => "📅"
  | CONFIRMED => "✅"
  | COMPLETED => "✔️"
  | CANCELLED => "❌"
  | NO_SHOW => "🚫"
  | RESCHEDULED => "🔄"
  | IN_PROGRESS => "❓"
  end.

Definition view_entry (apt : Appointment.t) : string :=
  status_emoji (Appointment.status apt) +:+ " " +:+ Appointment.date apt +:+ " at "
  +:+ Appointment.time apt +:+ " - Dr. " +:+ Appointment.doctor_name apt +:+ nl
  +:+ "   Service: " +:+ ServiceType_value (Appointment.service_type apt)
  +:+ " | Status: " +:+ AppointmentStatus_value (Appointment.status apt) +:+ nl
  +:+ match Appointment.notes apt with
      | Some (String c n) => "   Notes: " +:+ String c n +:+ nl
      | _ => ""
      end
  +:+ nl.

Definition _handle_view_appointments (session user_input : string) : M G string :=
  appointments <- call (get_patient_appointments (strip user_input)) ;;
  match appointments with
  | [] =>
      update session (set_state START) ;;;
      ret ("[INFO] No appointments found for '" +:+ user_input +:+ "'." +:+ nl +:+ nl
           +:+ "If you'd like to book an appointment, just let me know!")
  | _ =>
      update session (set_state VIEW_RESULTS) ;;;
      keyed <- lift (datetime_keys appointments) ;;
      ret ("[APPOINTMENTS] Here are your appointments:" +:+ nl +:+ nl
           +:+ String.concat "" (map (fun ka => view_entry (snd ka)) (sort_by_key keyed))
           +:+ "Would you like to book a new appointment, cancel, or reschedule any of these? (book/cancel/reschedule/no)")
  end.

Definition _handle_view_followup (e : env) (session user_input : string) : M G string :=
  let input_lower := strip (lower user_input) in
  if decide (input_lower ∈ ["book"; "booking"; "new"; "schedule"]) then
    _handle_greeting e session
  else if decide (input_lower ∈ ["cancel"; "cancellation"]) then
    _handle_cancel_start session
  else if decide (input_lower ∈ ["reschedule"; "change"]) then
    _handle_reschedule_start session
  else if decide (input_lower ∈ ["no"; "nothing"; "thanks"; "bye"]) then
    update session (set_state START) ;;;
    ret "[END] You're welcome! Have a great day and take care of your smile!"
  else
    ret ("[INFO] What would you like to do next?" +:+ nl
         +:+ "Type 'book' for new appointment, 'cancel' to cancel, 'reschedule' to change, or 'no' to exit.").

Definition _handle_intent_detection_response (e : env) (session user_input : string)
    : M G string :=
  let input_lower := strip (lower user_input) in
  if decide (input_lower ∈ ["1"; "book"; "booking"; "schedule"; "appointment"]) then
    _handle_greeting e session
  else if decide (input_lower ∈ ["2"; "cancel"; "cancellation"]) then
    _handle_cancel_start session
  else if decide (input_lower ∈ ["3"; "reschedule"; "change"]) then
    _handle_reschedule_start session
  else if decide (input_lower ∈ ["4"; "view"; "see"; "show"]) then
    _handle_view_start session
  else
    ret ("[ERROR] I didn't understand that option." +:+ nl +:+ nl
         +:+ "Please choose:" +:+ nl
         +:+ "1. Book appointment" +:+ nl
         +:+ "2. Cancel appointment" +:+ nl
         +:+ "3. Reschedule appointment" +:+ nl
         +:+ "4. View appointments").

(** *** The entry point *)

Definition abort_reply : string := "Conversation cancelled. Type anything to start over!".

(** [len(self.sessions) % 10 == 0], the test that lets the sweep run. *)
Definition sweep_due (m : gmap string session) : bool :=
  Z.of_nat (size m) mod 10 =? 0.

(** [get_response] from the global commands on: [session] is the session
    the call works on, [state] the state read from it and [user_input] the
    trimmed input.  The states are the twenty constants of
    [ConversationState], each with its branch, so the final [else] of the
    source has no counterpart.  [_handle_booking_confirmation], which the
    branch of [CONFIRMATION] calls, is not a method of the class. *)
Definition respond (e : env) (session : string) (state : ConversationState)
    (user_input : string) : M G string :=
  let user_name := session in
  if decide (lower user_input ∈ ["cancel"; "exit"; "quit"]) then
    update session (set_state START) ;;;
    ret abort_reply
  else if String.eqb (lower user_input) "restart" then
    m <- get_sessions ;;
    put_sessions (<[user_name := _create_session (now e) user_name]> m) ;;;
    _handle_greeting e user_name
  else
    match state with
    | START =>
        match _detect_intent user_input with
        | book => _handle_greeting e session
        | cancel => _handle_cancel_start session
        | reschedule => _handle_reschedule_start session
        | view => _handle_view_start session
        | unknown => _handle_intent_detection session
        end
    | INTENT_DETECTION => _handle_intent_detection_response e session user_input
    | GREETING => _handle_problem_assessment session user_input
    | PROBLEM_ASSESSMENT => _handle_service_selection e session user_input
    | SERVICE_SELECTION => _handle_date_selection e session user_input
    | DATE_SELECTION => _handle_time_selection session user_input
    | TIME_SELECTION => _handle_phone_collection session user_input
    | PHONE_COLLECTION => _handle_doctor_selection session user_input
    | DOCTOR_SELECTION => _handle_confirmation e session user_input
    | CONFIRMATION =>
        raise (AttributeError
                 "'ChatBotService' object has no attribute '_handle_booking_confirmation'")
    | BOOKING_COMPLETE => _handle_followup e session user_input
    | CANCEL_START => _handle_cancel_appointment_selection session user_input
    | CANCEL_CONFIRMATION => _handle_cancel_confirmation session user_input
    | RESCHEDULE_START => _handle_reschedule_appointment_selection session user_input
    | RESCHEDULE_APPOINTMENT_SELECTION =>
        _handle_reschedule_appointment_selection_response session user_input
    | RESCHEDULE_DATE_SELECTION => _handle_reschedule_date_selection e session user_input
    | RESCHEDULE_TIME_SELECTION => _handle_reschedule_time_selection session user_input
    | RESCHEDULE_CONFIRMATION => _handle_reschedule_confirmation session user_input
    | VIEW_START => _handle_view_appointments session user_input
    | VIEW_RESULTS => _handle_view_followup e session user_input
    end.

(** [get_response]: the sweep when it is due, the session of the user, then
    the rest of the body on the trimmed input. *)
Definition get_response (e : env) (user_input user_name : string) : M G string :=
  m <- get_sessions ;;
  (if sweep_due m then _cleanup_old_sessions e 1 else ret tt) ;;;
  _get_or_create_session e user_name ;;;
  s <- deref user_name ;;
  respond e user_name (state s) (strip user_input).

End Engine.

(** The engine run over a sequence of calls, each with its clock reading,
    input and user; the replies (or exceptions) in order, and the world the
    last call leaves. *)
Fixpoint run_calls {G} `{!ClinicGateway G} `{!Platform}
    (calls : list (env * string * string)) (w : world G)
    : list (exn + string) * world G :=
  match calls with
  | [] => ([], w)
  | (e, user_input, user_name) :: rest =>
      let '(r, w') := get_response e user_input user_name w in
      let '(rs, w'') := run_calls rest w' in
      (r :: rs, w'')
  end.

(** Whether each call of a sequence finds the sweep due when it starts. *)
Fixpoint sweeps {G} `{!ClinicGateway G} `{!Platform}
    (calls : list (env * string * string)) (w : world G) : list bool :=
  match calls with
  | [] => []
  | (e, user_input, user_name) :: rest =>
      sweep_due (sessions w) :: sweeps rest (snd (get_response e user_input user_name w))
  end.

(** ** The store the call works on *)

(** What [get_response] has made of the store when it reads the session of
    [user_name]: the sweep has run if it was due, and the session has been
    created if the user had none. *)
Definition swept (e : env) (m : gmap string session) : gmap string session :=
  if sweep_due m
  then filter (fun kv => expired (now e) 1 (snd kv) = false) m
  else m.

Definition entered (e : env) (user_name : string) (m : gmap string session)
    : gmap string session :=
  match swept e m !! user_name with
  | None => <[user_name := _create_session (now e) user_name]> (swept e m)
  | Some _ => swept e m
  end.

(** ** An in-memory gateway, for closed examples *)

Module MemoryClinic.
Record db : Type := Db {
  appointments : list Appointment.t;
  doctors : list Doctor.t;
  online : bool
}.

Definition unreachable : exn := OtherError "ConnectionFailure" "database unreachable".

Definition guarded {A} (d : db) (r : A * db) : (exn + A) * db :=
  if online d then (inr (fst r), snd r) else (inl unreachable, d).

Definition owned_by (key : string) (a : Appointment.t) : bool :=
  String.eqb (Appointment.patient_name a) key || String.eqb (Appointment.patient_phone a) key.

Definition same_slot (doctor date time : string) (a : Appointment.t) : bool :=
  mutable_status a && String.eqb (Appointment.doctor_name a) doctor
  && String.eqb (Appointment.date a) date && String.eqb (Appointment.time a) time.

Definition with_status (st : AppointmentStatus) (a : Appointment.t) : Appointment.t :=
  Appointment.mk (Appointment.id a) (Appointment.patient_name a)
    (Appointment.patient_phone a) (Appointment.doctor_name a) (Appointment.date a)
    (Appointment.time a) (Appointment.service_type a) st (Appointment.notes a).

Definition moved_to (date time : string) (a : Appointment.t) : Appointment.t :=
  Appointment.mk (Appointment.id a) (Appointment.patient_name a)
    (Appointment.patient_phone a) (Appointment.doctor_name a) date time
    (Appointment.service_type a) (Appointment.status a) (Appointment.notes a).

Definition open_with_id (id : string) (a : Appointment.t) : bool :=
  String.eqb (Appointment.id a) id && mutable_status a.

Definition change (id : string) (f : Appointment.t -> Appointment.t) (d : db)
    : bool * db :=
  if existsb (open_with_id id) (appointments d)
  then (true,
        Db (map (fun a => if open_with_id id a then f a else a) (appointments d))
           (doctors d) (online d))
  else (false, d).

Definition book (req : booking_request) (d : db) : (bool * string) * db :=
  match req_patient_phone req, req_doctor_name req, req_date req, req_time req,
        req_service_type req ≫= ServiceType_of_value with
  | Some phone, Some doctor, Some date, Some time, Some service =>
      if existsb (same_slot doctor date time) (appointments d)
      then ((false, "That time slot is already booked"), d)
      else ((true, "Appointment booked"),
            Db (appointments d
                ++ [Appointment.mk ("n" +:+ pretty (length (appointments d)))
                      (req_patient_name req) phone doctor date time service SCHEDULED
                      (Some (req_notes req))])
               (doctors d) (online d))
  | _, _, _, _, _ => ((false, "Incomplete booking request"), d)
  end.

Global Instance gateway : ClinicGateway db := {
  get_patient_appointments key d :=
    guarded d (List.filter (owned_by key) (appointments d), d);
  book_appointment_validated req d := guarded d (book req d);
  cancel_appointment id reason d := guarded d (change id (with_status CANCELLED) d);
  reschedule_appointment id date time d := guarded d (change id (moved_to date time) d);
  get_all_doctors d := guarded d (doctors d, d);
  get_doctor_by_name name d :=
    guarded d (find (fun doc => String.eqb (Doctor.full_name doc) name) (doctors d), d)
}.

Global Instance platform : Platform := {
  validation_message fields :=
    pretty (length fields) +:+ " validation errors for Appointment: "
    +:+ String.concat ", " fields;
  strftime_ymd ordinal := "day " +:+ pretty ordinal
}.

(** 2026-11-04, at 10:00 and at 10:05. *)
Definition at_10_00 : env := Env ((739923 * 24 + 10) * MICROS_PER_HOUR) "0f3a9c1e".
Definition at_10_05 : env :=
  Env ((739923 * 24 + 10) * MICROS_PER_HOUR + 300000000) "7b22d4f0".

Definition alice_cleaning : Appointment.t :=
  Appointment.mk "a1" "Alice" "+1-555-0100" "Jane Roe" "2026-11-10" "14:00" CLEANING
    SCHEDULED None.

Definition clinic0 : db := Db [alice_cleaning] [] true.

Definition fresh : world db := World ∅ clinic0.

(** A draft with every field of a booking filled in. *)
Definition full_draft (doctor : string) : Draft.t :=
  Draft.mk "Alice" (Some "toothache") (Some "Cleaning") (Some "2026-11-10")
    (Some "14:00") (Some doctor) (Some "+1-555-0100") None None None None None.

Definition ready (doctor : string) (d : db) : world db :=
  World {[ "Alice" := Session DOCTOR_SELECTION "Alice" (full_draft doctor) [] 0
                        (now at_10_00) ]} d.

(** Conversations: calls made at 10:00, each an input and the user who
    sends it, run from the empty store. *)
Definition script (turns : list (string * string)) : list (env * string * string) :=
  map (fun turn => (at_10_00, fst turn, snd turn)) turns.

Definition after (turns : list (string * string)) : world db :=
  snd (run_calls (script turns) fresh).

(** Alice has asked to cancel and is shown her appointments. *)
Definition asked_which_to_cancel : world db :=
  after [("cancel my appointment", "Alice"); ("Alice", "Alice")].

Definition choosing (user : string) : session :=
  Session CANCEL_CONFIRMATION user
    (Draft.set_available_appointments [alice_cleaning] (new_draft user)) [] 0
    (now at_10_00).

(** Bob, who has no appointment, has asked to cancel. *)
Definition bob_asked_to_cancel : world db := after [("cancel my appointment", "Bob")].

Definition searching (user : string) : session :=
  Session CANCEL_START user (new_draft user) [] 0 (now at_10_00).

(** Alice on two devices: both are shown the appointment, the laptop
    cancels it, the phone has yet to choose. *)
Definition cancelled_elsewhere : world db :=
  after [("cancel my appointment", "alice-phone"); ("Alice", "alice-phone");
         ("cancel my appointment", "alice-laptop"); ("Alice", "alice-laptop");
         ("1", "alice-laptop")].

(** The phone is about to confirm a new date and time for the appointment
    that the laptop has cancelled meanwhile. *)
Definition moved_after_cancel : world db :=
  after [("reschedule my appointment", "alice-phone"); ("Alice", "alice-phone");
         ("1", "alice-phone"); ("2026-11-12", "alice-phone"); ("15:00", "alice-phone");
         ("cancel my appointment", "alice-laptop"); ("Alice", "alice-laptop");
         ("1", "alice-laptop")].

Definition confirming_move (user : string) : session :=
  Session RESCHEDULE_CONFIRMATION user
    (Draft.set_new_time "15:00"
       (Draft.set_new_date "2026-11-12"
          (Draft.set_selected_appointment alice_cleaning
             (Draft.set_available_appointments [alice_cleaning] (new_draft user)))))
    [] 0 (now at_10_00).

Definition ten_users : list string :=
  ["u0"; "u1"; "u2"; "u3"; "u4"; "u5"; "u6"; "u7"; "u8"; "u9"].

(** One user greets the engine twenty-one times. *)
Definition one_user_calls : list (env * string * string) :=
  script (repeat ("hello", "Alice") 21).

(** Ten users greet the engine once each, then the first of them three
    times more. *)
Definition ten_user_calls : list (env * string * string) :=
  script (map (fun u => ("hello", u)) ten_users ++ repeat ("hello", "u0") 3).
End MemoryClinic.

(** ** Canonical texts of times and dates *)

Definition digit_char (n : Z) : ascii := ascii_of_nat (Z.to_nat (48 + n)).

(** [f"{n:02d}"] for [0 <= n < 100] *)
Definition two_digits (n : Z) : string :=
  String (digit_char (n / 10)) (String (digit_char (n mod 10)) EmptyString).

(** [f"{hour:02d}:{minute:02d}"] *)
Definition clock_text (hour minute : Z) : string :=
  two_digits hour +:+ ":" +:+ two_digits minute.

(** The hours and minutes of a day. *)
Definition all_clock_times : list (Z * Z) :=
  flat_map (fun h => map (fun m => (Z.of_nat h, Z.of_nat m)) (seq 0 60)) (seq 0 24).

Definition four_digits (n : Z) : string :=
  String (digit_char (n / 1000))
    (String (digit_char (n / 100 mod 10)) (two_digits (n mod 100))).

(** [f"{y:04d}-{m:02d}-{d:02d}"] *)
Definition iso_date (y m d : Z) : string :=
  four_digits y +:+ "-" +:+ two_digits m +:+ "-" +:+ two_digits d.

Definition all_month_days : list (Z * Z) :=
  flat_map (fun m => map (fun d => (Z.of_nat m, Z.of_nat d)) (seq 1 31)) (seq 1 12).

(** What [_strptime] makes of the text after the year. *)
Definition month_day_parsed (m d : Z) : bool :=
  match match_groups [chr "-"; re_m; chr "-"; re_d]
          ("-" +:+ two_digits m +:+ "-" +:+ two_digits d) with
  | Some ([_; gm; _; gd], EmptyString) => (group_int gm =? m) && (group_int gd =? d)
  | _ => false
  end.

(** A text that is empty or starts with a character that is not blank. *)
Definition starts_clean (s : string) : Prop :=
  match s with
  | EmptyString => True
  | String c _ => is_space c = false
  end.

(** A text without a blank. *)
Definition no_blank (s : string) : bool := str_forallb (fun c => negb (is_space c)) s.

(** The order of dates: by year, then month, then day. *)
Definition date_before (a b : Z * Z * Z) : Prop :=
  let '(y, m, d) := a in
  let '(y', m', d') := b in
  y < y' \/ (y = y' /\ (m < m' \/ (m = m' /\ d < d'))).

Definition days_in_year (y : Z) : Z := if is_leap y then 366 else 365.

(** ** Invariants of the session store *)

(** Every session is stored under its own user name. *)
Definition keyed (m : gmap string session) : Prop :=
  forall k s, m !! k = Some s -> user_name s = k.

(** [m'] differs from [m] at [key] at most, where it still has a session if
    it had one. *)
Definition only_at (key : string) (m m' : gmap string session) : Prop :=
  (forall k, k <> key -> m' !! k = m !! k) /\ (is_Some (m !! key) -> is_Some (m' !! key)).

(** A step of the engine that keeps the store keyed and changes it at [key]
    only. *)
Definition local_to {G} (key : string) (w w' : world G) : Prop :=
  keyed (sessions w) -> keyed (sessions w') /\ only_at key (sessions w) (sessions w').

(** The states a session is left in between two calls. *)
Definition resting (st : ConversationState) : bool :=
  match st with
  | PROBLEM_ASSESSMENT | DATE_SELECTION | PHONE_COLLECTION | CONFIRMATION
  | BOOKING_COMPLETE => false
  | _ => true
  end.

(** A session in which no booking can have been completed: it rests in one
    of the states above and its draft has no service, time or doctor. *)
Definition unbooked (s : session) : Prop :=
  resting (state s) = true
  /\ Draft.service_type (data s) = None
  /\ Draft.time (data s) = None
  /\ Draft.doctor_name (data s) = None.

Definition all_unbooked (m : gmap string session) : Prop :=
  forall k s, m !! k = Some s -> unbooked s.


(** ** What a call needs in order to reply *)

Definition given {A} (v : option A) : bool :=
  match v with Some _ => true | None => false end.

(** The keys of the draft the reschedule flow reads with [data[...]] are
    there in the states that read them. *)
Definition staged (s : session) : bool :=
  match state s with
  | RESCHEDULE_DATE_SELECTION => given (Draft.selected_appointment (data s))
  | RESCHEDULE_TIME_SELECTION =>
      given (Draft.selected_appointment (data s)) && given (Draft.new_date (data s))
  | RESCHEDULE_CONFIRMATION =>
      given (Draft.selected_appointment (data s)) && given (Draft.new_date (data s))
      && given (Draft.new_time (data s))
  | _ => true
  end.

Definition all_staged (m : gmap string session) : Prop :=
  forall k s, m !! k = Some s -> staged s = true.

(** A gateway that, from the states [healthy] holds of, answers the lookup
    of appointments, the list of doctors and the cancel and reschedule
    requests without raising, stays in such a state, and lists only
    appointments whose date and time read back. *)
Definition dependable {G} `{!ClinicGateway G} (healthy : G -> Prop) : Prop :=
  (forall query g, healthy g ->
     exists appointments g',
       get_patient_appointments query g = (inr appointments, g') /\ healthy g'
       /\ Forall (fun apt => is_Some (Appointment.get_datetime apt)) appointments)
  /\ (forall g, healthy g ->
        exists doctors g', get_all_doctors g = (inr doctors, g') /\ healthy g')
  /\ (forall id reason g, healthy g ->
        exists done g', cancel_appointment id reason g = (inr done, g') /\ healthy g')
  /\ (forall id new_date new_time g, healthy g ->
        exists done g',
          reschedule_appointment id new_date new_time g = (inr done, g') /\ healthy g').

(** The clock leaves room for the 90 days of the booking window. *)
Definition clock_in_range (e : env) : Prop := date_of (now e) + 90 <= MAXORDINAL.

Definition replied {A} (r : exn + A) : Prop :=
  match r with inr _ => True | inl _ => False end.

(** ** The methods of [Appointment] *)

(** An [Appointment] object with the field [cancellation_reason], which
    [cancel] sets and the engine never reads.  [now] is the reading of
    [datetime.now()]. *)
Module AppointmentMethods.
Record t : Type := mk {
  fields : Appointment.t;
  cancellation_reason : option string
}.

Definition status (a : t) : AppointmentStatus := Appointment.status (fields a).

Definition set_status (st : AppointmentStatus) (a : t) : t :=
  let f := fields a in
  mk (Appointment.mk (Appointment.id f) (Appointment.patient_name f)
        (Appointment.patient_phone f) (Appointment.doctor_name f) (Appointment.date f)
        (Appointment.time f) (Appointment.service_type f) st (Appointment.notes f))
     (cancellation_reason a).

Definition set_cancellation_reason (reason : string) (a : t) : t :=
  mk (fields a) (Some reason).

Definition status_eqb (a b : AppointmentStatus) : bool :=
  match a, b with
  | SCHEDULED, SCHEDULED | CONFIRMED, CONFIRMED | IN_PROGRESS, IN_PROGRESS
  | COMPLETED, COMPLETED | CANCELLED, CANCELLED | NO_SHOW, NO_SHOW
  | RESCHEDULED, RESCHEDULED => true
  | _, _ => false
  end.

(** [get_datetime], on the scale of [now]: microseconds since the start of
    day 1. *)
Definition get_datetime (a : t) : exn + Z :=
  match Appointment.get_datetime (fields a) with
  | Some minutes => inr ((minutes - 24 * 60) * 60000000)
  | None => inl (ValueError "time data does not match format '%Y-%m-%d %H:%M'")
  end.

(** [is_upcoming] *)
Definition is_upcoming (now : Z) (a : t) : exn + bool :=
  match get_datetime a with
  | inr t => inr (now <? t)
  | inl err => inl err
  end.

(** [is_overdue] *)
Definition is_overdue (now : Z) (a : t) : exn + bool :=
  if status_eqb (status a) COMPLETED then inr false
  else
    match get_datetime a with
    | inr t => inr (t <? now)
    | inl err => inl err
    end.

(** [remind_soon] *)
Definition remind_soon (now : Z) (a : t) : exn + bool :=
  match get_datetime a with
  | inr appointment_time =>
      let time_until_appointment := appointment_time - now in
      inr ((0 <? time_until_appointment)
           && (time_until_appointment <=? 24 * MICROS_PER_HOUR))
  | inl err => inl err
  end.

(** [confirm] *)
Definition confirm (a : t) : t :=
  if status_eqb (status a) SCHEDULED then set_status CONFIRMED a else a.

(** [cancel] *)
Definition cancel (reason : string) (a : t) : t :=
  if negb (status_eqb (status a) COMPLETED || status_eqb (status a) CANCELLED)
  then set_cancellation_reason reason (set_status CANCELLED a)
  else a.

(** [mark_completed] *)
Definition mark_completed (now : Z) (a : t) : exn + t :=
  match is_overdue now a with
  | inr true => inr (set_status COMPLETED a)
  | inr false => inr a
  | inl err => inl err
  end.
End AppointmentMethods.

(** ** The registry of doctors and patients *)

Module ClinicService.
Inductive MedicalSpecialty : Type := GENERAL | ORTHODONTIST | PEDIATRIC | SURGEON.

Inductive Gender : Type := MALE | FEMALE | OTHER.

(** [Person], the base of [Doctor] and [Patient]. *)
Record Person : Type := {
  id : string;
  first_name : string;
  last_name : string;
  phone : string;
  email : option string
}.

Definition full_name (p : Person) : string := first_name p +:+ " " +:+ last_name p.

Record Doctor : Type := {
  doctor_person : Person;
  license_number : string;
  specialty : MedicalSpecialty
}.

(** [Patient], without its [emergency_contact], which the service does not
    read. *)
Record Patient : Type := {
  patient_person : Person;
  age : Z;
  gender : Gender;
  blood_type : option string;
  medical_history : list string
}.

Record t : Type := mk {
  _doctors : list Doctor;
  _patients : list Patient
}.

(** [__init__] *)
Definition init : t := mk [] [].

(** [add_doctor] *)
Definition add_doctor (doctor : Doctor) (c : t) : bool * t :=
  if existsb (fun d => String.eqb (license_number d) (license_number doctor)) (_doctors c)
  then (false, c)
  else (true, mk (_doctors c ++ [doctor]) (_patients c)).

(** [find_doctor] *)
Definition find_doctor (search_term : string) (c : t) : list Doctor :=
  let term := lower search_term in
  List.filter
    (fun d => contains term (lower (first_name (doctor_person d)))
              || contains term (lower (last_name (doctor_person d)))
              || contains term (lower (license_number d)))
    (_doctors c).

(** [add_patient] *)
Definition add_patient (patient : Patient) (c : t) : bool * t :=
  if existsb (fun p => String.eqb (full_name (patient_person p))
                         (full_name (patient_person patient))
                       && (age p =? age patient))
       (_patients c)
  then (false, c)
  else (true, mk (_doctors c) (_patients c ++ [patient])).

(** [find_patient] *)
Definition find_patient (search_term : string) (c : t) : list Patient :=
  let term := lower search_term in
  List.filter
    (fun p => contains term (lower (first_name (patient_person p)))
              || contains term (lower (last_name (patient_person p)))
              || contains term (match phone (patient_person p) with
                                | EmptyString => ""
                                | ph => lower ph
                                end))
    (_patients c).

(** [get_clinic_stats]: the values of "total_doctors" and "total_patients". *)
Definition get_clinic_stats (c : t) : nat * nat :=
  (length (_doctors c), length (_patients c)).

(** The registrations of a session of the clinic desk, in order. *)
Inductive registration : Type :=
| NewDoctor (doctor : Doctor)
| NewPatient (patient : Patient).

Definition register (c : t) (r : registration) : t :=
  match r with
  | NewDoctor doctor => snd (add_doctor doctor c)
  | NewPatient patient => snd (add_patient patient c)
  end.
End ClinicService.

(** ** More of the in-memory clinic *)

Module Samples.
Import MemoryClinic.

Definition alice_checkup : Appointment.t :=
  Appointment.mk "a2" "Alice" "+1-555-0100" "John Doe" "2026-11-05" "09:30" CONSULTATION
    CONFIRMED None.

(** Alice has two appointments, the later one first. *)
Definition two_visits : db := Db [alice_cleaning; alice_checkup] [] true.

(** The clinic after Alice's appointment was cancelled. *)
Definition closed_books : db := Db [MemoryClinic.with_status CANCELLED alice_cleaning] [] true.

(** Alice has answered every prompt the engine gave her for a booking. *)
Definition booking_attempt : world db :=
  after [("book an appointment", "Alice"); ("toothache", "Alice");
         ("2026-11-10", "Alice"); ("+1-555-0100", "Alice")].

Definition about_to_confirm : session :=
  Session DOCTOR_SELECTION "Alice"
    (Draft.set_phone "+1-555-0100"
       (Draft.set_date "2026-11-10" (Draft.set_problem "toothache" (new_draft "Alice"))))
    [] 0 (now at_10_00).

(** Alice is about to confirm a new date and time for her appointment. *)
Definition moving : world db :=
  World {[ "alice-phone" := confirming_move "alice-phone" ]} clinic0.

(** A clinic that is reachable and has only appointments that are closed and
    whose date and time read back. *)
Definition settled (d : db) : Prop :=
  online d = true
  /\ Forall (fun a => mutable_status a = false /\ is_Some (Appointment.get_datetime a))
       (appointments d).

Definition past_cleaning : AppointmentMethods.t :=
  AppointmentMethods.mk (MemoryClinic.with_status COMPLETED alice_cleaning) None.

Definition dr_roe : ClinicService.Doctor :=
  {| ClinicService.doctor_person :=
       {| ClinicService.id := "d1"; ClinicService.first_name := "Jane";
          ClinicService.last_name := "Roe"; ClinicService.phone := "+1-555-0101";
          ClinicService.email := None |};
     ClinicService.license_number := "L-100";
     ClinicService.specialty := ClinicService.GENERAL |}.
End Samples.

(** * Properties *)

(** ** Text lemmas *)

Lemma rstrip_cons (c : ascii) (s : string) :
  rstrip (String c s) =
    match rstrip s with
    | EmptyString => if is_space c then EmptyString else String c EmptyString
    | t => String c t
    end.
Proof. reflexivity. Qed.

Lemma rstrip_idemp (s : string) : rstrip (rstrip s) = rstrip s.
Proof.
  induction s as [|c s IH]; [reflexivity|].
  rewrite rstrip_cons. destruct (rstrip s) as [|d t] eqn:Hr.
  - destruct (is_space c) eqn:Hc; [reflexivity|].
    rewrite rstrip_cons. cbn [rstrip]. rewrite Hc. reflexivity.
  - rewrite rstrip_cons, IH. reflexivity.
Qed.

Lemma lstrip_starts_clean (s : string) : starts_clean (lstrip s).
Proof.
  induction s as [|c s IH]; [exact I|].
  cbn [lstrip]. destruct (is_space c) eqn:Hc; [exact IH | exact Hc].
Qed.

Lemma rstrip_starts_clean (s : string) : starts_clean s -> starts_clean (rstrip s).
Proof.
  destruct s as [|c s]; [intros _; exact I|].
  rewrite rstrip_cons. cbn [starts_clean]. intros Hc.
  destruct (rstrip s); [rewrite Hc|]; exact Hc.
Qed.

Lemma lstrip_clean (s : string) : starts_clean s -> lstrip s = s.
Proof.
  destruct s as [|c s]; [reflexivity|].
  cbn [starts_clean lstrip]. intros ->. reflexivity.
Qed.

Lemma strip_idemp (s : string) : strip (strip s) = strip s.
Proof.
  unfold strip.
  rewrite (lstrip_clean (rstrip (lstrip s))).
  - apply rstrip_idemp.
  - apply rstrip_starts_clean, lstrip_starts_clean.
Qed.

Lemma prefix_append (x s : string) : String.prefix x (x +:+ s) = true.
Proof.
  induction x as [|c x IH]; simpl.
  - destruct s; reflexivity.
  - destruct (ascii_dec c c); [exact IH | congruence].
Qed.

Lemma contains_prefix (x s : string) : String.prefix x s = true -> contains x s = true.
Proof. intros Hp. destruct s; cbn [contains]; rewrite Hp; reflexivity. Qed.

Lemma contains_append (x a s : string) : contains x s = true -> contains x (a +:+ s) = true.
Proof.
  intros Hs. induction a as [|c a IH]; [exact Hs|].
  change (String c a +:+ s) with (String c (a +:+ s)).
  change (contains x (String c (a +:+ s)))
    with (String.prefix x (String c (a +:+ s)) || contains x (a +:+ s)).
  rewrite IH. apply orb_true_r.
Qed.

(** A text occurs in every text built around it. *)
Lemma contains_middle (x a b : string) : contains x (a +:+ x +:+ b) = true.
Proof. apply contains_append, contains_prefix, prefix_append. Qed.

Lemma prefix_append_l (x a s : string) :
  String.prefix x a = true -> String.prefix x (a +:+ s) = true.
Proof.
  revert a. induction x as [|c x IH]; intros a Hp.
  - destruct (a +:+ s); reflexivity.
  - destruct a as [|d a]; [discriminate|]. simpl in *.
    destruct (ascii_dec c d); [apply IH, Hp | discriminate].
Qed.

(** A text that occurs in the head of a text occurs in the text. *)
Lemma contains_append_l (x a s : string) :
  contains x a = true -> contains x (a +:+ s) = true.
Proof.
  induction a as [|c a IH].
  - cbn [contains]. rewrite orb_false_r. intros Hp.
    apply contains_prefix, (prefix_append_l x EmptyString s Hp).
  - change (String c a +:+ s) with (String c (a +:+ s)).
    change (contains x (String c a))
      with (String.prefix x (String c a) || contains x a).
    change (contains x (String c (a +:+ s)))
      with (String.prefix x (String c (a +:+ s)) || contains x (a +:+ s)).
    intros [Hp|Hc]%orb_true_iff.
    + pose proof (prefix_append_l x (String c a) s Hp) as Hp'.
      change (String c a +:+ s) with (String c (a +:+ s)) in Hp'.
      rewrite Hp'. reflexivity.
    + rewrite (IH Hc). apply orb_true_r.
Qed.

(** *** Words are not numbers *)

Lemma lower_cons (c : ascii) (s : string) :
  lower (String c s) = String (lower_char c) (lower s).
Proof. reflexivity. Qed.

Lemma upper_not_digit (c : ascii) : is_upper c = true -> is_digit c = false.
Proof. unfold is_upper, is_digit. lia. Qed.

(** A text whose lower-case form starts with a character that is neither a
    digit nor a sign is not a number for [int]. *)
Lemma py_int_word (t : string) (l : ascii) (rest : string) :
  strip t = t ->
  lower t = String l rest ->
  is_digit l = false -> is_upper l = false ->
  Ascii.eqb l "+" = false -> Ascii.eqb l "-" = false ->
  py_int t = None.
Proof.
  intros Hstrip Hlow Hdigit Hupper Hplus Hminus.
  destruct t as [|c t']; [discriminate|].
  rewrite lower_cons in Hlow. injection Hlow as Hc _.
  unfold py_int. rewrite Hstrip.
  assert (Hfacts : is_digit c = false /\ Ascii.eqb c "+" = false
                   /\ Ascii.eqb c "-" = false).
  { unfold lower_char in Hc. destruct (is_upper c) eqn:Hup.
    - split; [apply upper_not_digit, Hup|].
      split; apply Ascii.eqb_neq; intros ->; discriminate.
    - subst c. auto. }
  destruct Hfacts as (Hd & Hp & Hm). rewrite Hp, Hm.
  cbn [int_body]. rewrite Hd, andb_false_r. reflexivity.
Qed.

Lemma yes_no_not_a_number (user_input : string) :
  lower (strip user_input) ∈ affirmative ++ ["no"; "n"; "cancel"; "edit"] ->
  py_int (strip user_input) = None.
Proof.
  intros Hin. unfold affirmative in Hin. cbn [app] in Hin.
  repeat (apply elem_of_cons in Hin as [Hw|Hin];
          [eapply py_int_word; [apply strip_idemp | exact Hw | reflexivity..]|]).
  inversion Hin.
Qed.

Lemma rstrip_no_blank (s : string) : no_blank s = true -> rstrip s = s.
Proof.
  induction s as [|c s IH]; [reflexivity|].
  unfold no_blank. cbn [str_forallb]. intros [Hc Hs]%andb_true_iff.
  rewrite rstrip_cons, (IH Hs). apply negb_true_iff in Hc. rewrite Hc.
  destruct s; reflexivity.
Qed.

Lemma strip_no_blank (s : string) : no_blank s = true -> strip s = s.
Proof.
  intros Hs. unfold strip.
  destruct s as [|c s]; [reflexivity|].
  cbn [lstrip]. pose proof Hs as Hs'. unfold no_blank in Hs'. cbn [str_forallb] in Hs'.
  apply andb_true_iff in Hs' as [Hc _]. apply negb_true_iff in Hc. rewrite Hc.
  apply rstrip_no_blank, Hs.
Qed.

Lemma digit_char_not_blank (n : Z) : 0 <= n <= 9 -> is_space (digit_char n) = false.
Proof.
  intros Hn. unfold is_space.
  assert (Hcode : 48 <= code (digit_char n) <= 57).
  { unfold code, digit_char.
    rewrite nat_ascii_embedding; lia. }
  lia.
Qed.

Lemma iso_date_no_blank (y m d : Z) :
  0 <= y <= 9999 -> 0 <= m <= 99 -> 0 <= d <= 99 -> no_blank (iso_date y m d) = true.
Proof.
  intros Hy Hm Hd. unfold no_blank, iso_date, four_digits, two_digits.
  cbv [String.append str_forallb].
  rewrite !digit_char_not_blank by (Z.div_mod_to_equations; lia). reflexivity.
Qed.

(** ** Calendar *)

Lemma days_before_next_year (y : Z) :
  days_before_year (y + 1) = days_before_year y + days_in_year y.
Proof.
  unfold days_before_year, days_in_year, is_leap.
  replace (y + 1 - 1) with y by lia.
  destruct (Z.eqb_spec (y mod 4) 0), (Z.eqb_spec (y mod 100) 0),
    (Z.eqb_spec (y mod 400) 0); cbn [andb orb negb];
    Z.div_mod_to_equations; lia.
Qed.

Lemma days_before_year_mono (y y' : Z) :
  y <= y' -> days_before_year y <= days_before_year y'.
Proof. unfold days_before_year. intros Hle. Z.div_mod_to_equations. lia. Qed.

Lemma month_cases (m : Z) :
  1 <= m <= 12 ->
  m = 1 \/ m = 2 \/ m = 3 \/ m = 4 \/ m = 5 \/ m = 6 \/ m = 7 \/ m = 8 \/ m = 9
  \/ m = 10 \/ m = 11 \/ m = 12.
Proof. lia. Qed.

Lemma valid_ymd_bounds (y m d : Z) :
  valid_ymd y m d = true ->
  1 <= y <= 9999 /\ 1 <= m <= 12 /\ 1 <= d <= days_in_month y m.
Proof. unfold valid_ymd, MINYEAR, MAXYEAR. lia. Qed.

Ltac each_month H :=
  apply month_cases in H;
  repeat (destruct H as [->|H]); try subst.

(** The day of the year of a date lies within its year. *)
Lemma day_of_year_bounds (y m d : Z) :
  valid_ymd y m d = true ->
  1 <= days_before_month y m + d <= days_in_year y.
Proof.
  intros (_ & Hm & Hd)%valid_ymd_bounds. revert Hd.
  unfold days_in_year. each_month Hm;
    cbv [days_before_month days_in_month DAYS_BEFORE_MONTH]; cbn;
    destruct (is_leap y); cbn; lia.
Qed.

Lemma day_of_year_order (y m d m' d' : Z) :
  valid_ymd y m d = true -> valid_ymd y m' d' = true ->
  (m < m' \/ (m = m' /\ d < d')
   <-> days_before_month y m + d < days_before_month y m' + d').
Proof.
  intros (_ & Hm & Hd)%valid_ymd_bounds (_ & Hm' & Hd')%valid_ymd_bounds.
  revert Hd Hd'.
  each_month Hm; each_month Hm';
    cbv [days_before_month days_in_month DAYS_BEFORE_MONTH]; cbn;
    destruct (is_leap y); cbn; lia.
Qed.

(** Ordinals order dates as the calendar does. *)
Lemma ymd2ord_order (y m d y' m' d' : Z) :
  valid_ymd y m d = true -> valid_ymd y' m' d' = true ->
  (date_before (y, m, d) (y', m', d') <-> ymd2ord y m d < ymd2ord y' m' d').
Proof.
  intros Hv Hv'. unfold date_before, ymd2ord.
  pose proof (day_of_year_bounds _ _ _ Hv) as Hb.
  pose proof (day_of_year_bounds _ _ _ Hv') as Hb'.
  destruct (Z.lt_trichotomy y y') as [Hlt|[<-|Hgt]].
  - pose proof (days_before_next_year y) as Hn.
    pose proof (days_before_year_mono (y + 1) y' ltac:(lia)) as Hmono. lia.
  - pose proof (day_of_year_order y m d m' d' Hv Hv') as Ho. lia.
  - pose proof (days_before_next_year y') as Hn.
    pose proof (days_before_year_mono (y' + 1) y ltac:(lia)) as Hmono. lia.
Qed.

(** ** Canonical dates *)

Lemma month_day_table :
  forallb (fun md => month_day_parsed (fst md) (snd md)) all_month_days = true.
Proof. vm_compute. reflexivity. Qed.

Lemma year_table :
  forallb (fun y => group_int (four_digits (Z.of_nat y)) =? Z.of_nat y) (seq 0 (Z.to_nat 10000)) = true.
Proof. vm_compute. reflexivity. Qed.

Lemma code_digit_char (n : Z) : 0 <= n <= 9 -> code (digit_char n) = 48 + n.
Proof.
  intros Hn. unfold code, digit_char.
  rewrite nat_ascii_embedding by lia. lia.
Qed.

Lemma digit_char_is_digit (n : Z) : 0 <= n <= 9 -> is_digit (digit_char n) = true.
Proof. intros Hn. unfold is_digit. rewrite (code_digit_char n Hn). lia. Qed.

Lemma match_year (c1 c2 c3 c4 : ascii) (s : string) (rs : list regex) :
  is_digit c1 = true -> is_digit c2 = true -> is_digit c3 = true -> is_digit c4 = true ->
  match_groups (re_Y :: rs) (String c1 (String c2 (String c3 (String c4 s))))
  = match match_groups rs s with
    | Some (caps, rest) =>
        Some (String c1 (String c2 (String c3 (String c4 EmptyString))) :: caps, rest)
    | None => None
    end.
Proof.
  intros H1 H2 H3 H4. cbn [match_groups re_Y dig rmatch]. rewrite H1, H2, H3, H4.
  destruct (match_groups rs s) as [[caps rest]|]; [|reflexivity].
  unfold taken. cbn [String.length].
  replace (S (S (S (S (String.length s)))) - String.length s)%nat with 4%nat by lia.
  destruct s; reflexivity.
Qed.

Lemma strptime_iso_date (y m d : Z) :
  0 <= y <= 9999 -> 1 <= m <= 12 -> 1 <= d <= 31 ->
  strptime_ymd (iso_date y m d) = if valid_ymd y m d then Some (y, m, d) else None.
Proof.
  intros Hy Hm Hd.
  assert (Hyear : group_int (four_digits y) = y).
  { pose proof year_table as Ht. rewrite forallb_forall in Ht.
    specialize (Ht (Z.to_nat y)). rewrite Z2Nat.id in Ht by lia.
    apply Z.eqb_eq, Ht, in_seq. lia. }
  assert (Htail : month_day_parsed m d = true).
  { pose proof month_day_table as Ht. rewrite forallb_forall in Ht.
    apply (Ht (m, d)). unfold all_month_days. apply in_flat_map.
    exists (Z.to_nat m). split; [apply in_seq; lia|].
    apply in_map_iff. exists (Z.to_nat d). split; [f_equal; lia | apply in_seq; lia]. }
  unfold strptime_ymd, iso_date.
  change ((four_digits y +:+ "-" +:+ two_digits m +:+ "-" +:+ two_digits d))
    with (String (digit_char (y / 1000)) (String (digit_char (y / 100 mod 10))
           (String (digit_char (y mod 100 / 10)) (String (digit_char (y mod 100 mod 10))
              ("-" +:+ two_digits m +:+ "-" +:+ two_digits d))))).
  rewrite match_year; try (apply digit_char_is_digit; Z.div_mod_to_equations; lia).
  unfold month_day_parsed in Htail.
  destruct (match_groups _ _) as [[caps rest]|]; [|discriminate].
  destruct caps as [|g1 [|gm [|g3 [|gd [|? ?]]]]]; try discriminate.
  destruct rest; [|discriminate].
  apply andb_true_iff in Htail as [->%Z.eqb_eq ->%Z.eqb_eq].
  change (String (digit_char (y / 1000)) _) with (four_digits y).
  rewrite Hyear. reflexivity.
Qed.


(** ** Validators *)

Lemma valid_date_cases (now : Z) (date_str : string) :
  date_of now + 90 <= MAXORDINAL ->
  _is_valid_date now date_str =
    match strptime_ymd (strip date_str) with
    | None => inr (false, Some msg_date_format)
    | Some (y, m, d) =>
        if ymd2ord y m d <? date_of now then inr (false, Some msg_date_past)
        else if date_of now + 90 <? ymd2ord y m d then inr (false, Some msg_date_far)
        else inr (true, None)
    end.
Proof.
  intros Hclock. unfold _is_valid_date.
  destruct (strptime_ymd (strip date_str)) as [[[y m] d]|]; [|reflexivity].
  destruct (Z.ltb_spec (ymd2ord y m d) (date_of now)); [reflexivity|].
  destruct (Z.ltb_spec MAXORDINAL (date_of now + 90)); [lia|reflexivity].
Qed.

Lemma days_in_month_max (y m : Z) : days_in_month y m <= 31.
Proof.
  unfold days_in_month.
  destruct (m =? 2); [destruct (is_leap y); lia|].
  destruct ((m =? 4) || (m =? 6) || (m =? 9) || (m =? 11)); lia.
Qed.

(** A calendar date written YYYY-MM-DD is accepted exactly when it lies in
    the window. *)
Lemma valid_date_iso (now y m d : Z) :
  date_of now + 90 <= MAXORDINAL ->
  valid_ymd y m d = true ->
  (_is_valid_date now (iso_date y m d) = inr (true, None) <->
     date_of now <= ymd2ord y m d <= date_of now + 90).
Proof.
  intros Hclock Hv.
  pose proof (valid_ymd_bounds y m d Hv) as (Hy & Hm & Hd).
  pose proof (days_in_month_max y m) as Hmax.
  rewrite (valid_date_cases now _ Hclock).
  rewrite strip_no_blank by (apply iso_date_no_blank; lia).
  rewrite strptime_iso_date, Hv by lia.
  destruct (Z.ltb_spec (ymd2ord y m d) (date_of now)); [split; [discriminate|lia]|].
  destruct (Z.ltb_spec (date_of now + 90) (ymd2ord y m d));
    [split; [discriminate|lia]|].
  split; [lia|reflexivity].
Qed.

(** What [strptime] takes for a date and a time: months, days, hours and
    minutes may come without their leading zero. *)
Example strptime_leniency :
  strptime_ymd "2026-11-04" = Some (2026, 11, 4)
  /\ strptime_ymd "2026-11-4" = Some (2026, 11, 4)
  /\ strptime_ymd "2026-02-30" = None
  /\ strptime_ymd "04/11/2026" = None
  /\ strptime_hm "08:00" = Some (8, 0)
  /\ strptime_hm "8:0" = Some (8, 0)
  /\ strptime_hm "24:00" = None
  /\ strptime_hm "8.30" = None.
Proof. repeat split; reflexivity. Qed.

(** C6.  As long as the day ninety days from today exists in the calendar, the
    date validator accepts a text exactly when, trimmed, it parses with
    [%Y-%m-%d] to a day from today to today + 90, both included; a text that
    does not parse, a day before today and a day after today + 90 are each
    rejected with a reason of their own, and the three reasons differ.  In
    particular a calendar date written YYYY-MM-DD is accepted exactly when it
    is one of the days from today to today + 90. *)
Theorem date_validator_window (now : Z) (date_str : string) :
  date_of now + 90 <= MAXORDINAL ->
  (_is_valid_date now date_str = inr (true, None) <->
     exists y m d,
       strptime_ymd (strip date_str) = Some (y, m, d)
       /\ date_of now <= ymd2ord y m d <= date_of now + 90)
  /\ (strptime_ymd (strip date_str) = None ->
      _is_valid_date now date_str = inr (false, Some msg_date_format))
  /\ (forall y m d,
        strptime_ymd (strip date_str) = Some (y, m, d) ->
        ymd2ord y m d < date_of now ->
        _is_valid_date now date_str = inr (false, Some msg_date_past))
  /\ (forall y m d,
        strptime_ymd (strip date_str) = Some (y, m, d) ->
        date_of now + 90 < ymd2ord y m d ->
        _is_valid_date now date_str = inr (false, Some msg_date_far))
  /\ msg_date_format <> msg_date_past
  /\ msg_date_format <> msg_date_far
  /\ msg_date_past <> msg_date_far
  /\ (forall y m d,
        valid_ymd y m d = true ->
        (_is_valid_date now (iso_date y m d) = inr (true, None) <->
           date_of now <= ymd2ord y m d <= date_of now + 90)).
Proof.
  intros Hclock.
  assert (Hiso : forall y m d,
             valid_ymd y m d = true ->
             (_is_valid_date now (iso_date y m d) = inr (true, None) <->
                date_of now <= ymd2ord y m d <= date_of now + 90))
    by (intros y m d; apply valid_date_iso, Hclock).
  rewrite (valid_date_cases now date_str Hclock).
  split; [|split; [|split; [|split; [|split; [|split; [|split; [|exact Hiso]]]]]]];
    try discriminate; [split|..].
  - destruct (strptime_ymd (strip date_str)) as [[[y m] d]|]; [|discriminate].
    intros Hok. exists y, m, d. split; [reflexivity|].
    destruct (Z.ltb_spec (ymd2ord y m d) (date_of now)); [discriminate|].
    destruct (Z.ltb_spec (date_of now + 90) (ymd2ord y m d)); [discriminate|lia].
  - intros (y & m & d & -> & Hlo & Hhi).
    destruct (Z.ltb_spec (ymd2ord y m d) (date_of now)); [lia|].
    destruct (Z.ltb_spec (date_of now + 90) (ymd2ord y m d)); [lia|reflexivity].
  - intros ->. reflexivity.
  - intros y m d -> Hlt.
    destruct (Z.ltb_spec (ymd2ord y m d) (date_of now)); [reflexivity|lia].
  - intros y m d -> Hgt.
    destruct (Z.ltb_spec (ymd2ord y m d) (date_of now)); [lia|].
    destruct (Z.ltb_spec (date_of now + 90) (ymd2ord y m d)); [reflexivity|lia].
Qed.

(** On 2026-11-04 the window runs from 2026-11-04 to 2027-02-02. *)
Lemma date_validator_window_witness :
  date_of (now MemoryClinic.at_10_00) + 90 <= MAXORDINAL
  /\ _is_valid_date (now MemoryClinic.at_10_00) " 2026-11-04 " = inr (true, None)
  /\ _is_valid_date (now MemoryClinic.at_10_00) "2027-02-02" = inr (true, None)
  /\ _is_valid_date (now MemoryClinic.at_10_00) "2026-11-03"
     = inr (false, Some msg_date_past)
  /\ _is_valid_date (now MemoryClinic.at_10_00) "2027-02-03"
     = inr (false, Some msg_date_far)
  /\ _is_valid_date (now MemoryClinic.at_10_00) "2026-02-30"
     = inr (false, Some msg_date_format).
Proof.
  assert (Hclock : date_of (now MemoryClinic.at_10_00) + 90 <= MAXORDINAL)
    by (vm_compute; discriminate).
  split; [exact Hclock|].
  split.
  { apply (proj1 (date_validator_window _ " 2026-11-04 " Hclock)).
    exists 2026, 11, 4. split; [reflexivity | vm_compute; split; discriminate]. }
  split.
  { apply (proj1 (date_validator_window _ "2027-02-02" Hclock)).
    exists 2027, 2, 2. split; [reflexivity | vm_compute; split; discriminate]. }
  split.
  { apply (proj1 (proj2 (proj2 (date_validator_window _ "2026-11-03" Hclock))) 2026 11 3);
      [reflexivity | vm_compute; reflexivity]. }
  split.
  { apply (proj1 (proj2 (proj2 (proj2 (date_validator_window _ "2027-02-03" Hclock))))
             2027 2 3); [reflexivity | vm_compute; reflexivity]. }
  apply (proj1 (proj2 (date_validator_window _ "2026-02-30" Hclock))). reflexivity.
Defined.

Lemma valid_time_accepts (time_str : string) :
  fst (_is_valid_time time_str) = true <-> _is_valid_time time_str = (true, None).
Proof.
  unfold _is_valid_time.
  destruct (strptime_hm (strip time_str)) as [[hour minute]|]; simpl.
  - destruct ((hour <? 8) || (20 <=? hour)); simpl; [split; discriminate|].
    destruct ((minute =? 0) || (minute =? 30)); simpl; split; (reflexivity || discriminate).
  - split; discriminate.
Qed.

(** Every time of day written [HH:MM] is accepted or rejected by its hour and
    minute alone. *)
Lemma valid_time_table :
  forallb (fun hm =>
             Bool.eqb (fst (_is_valid_time (clock_text (fst hm) (snd hm))))
               ((8 <=? fst hm) && (fst hm <? 20) && ((snd hm =? 0) || (snd hm =? 30))))
    all_clock_times = true.
Proof. vm_compute. reflexivity. Qed.

(** C7.  The time validator accepts a text exactly when, trimmed, it parses
    with [%H:%M] to an hour from 8 to 19 and a minute that is 0 or 30; so of
    the times of day written HH:MM it accepts those and no other, and 07:30,
    20:00 and 14:15 are rejected while 08:00 and 19:30 are accepted. *)
Theorem time_validator_hours_and_half_hours (time_str : string) :
  (fst (_is_valid_time time_str) = true <->
     exists hour minute,
       strptime_hm (strip time_str) = Some (hour, minute)
       /\ 8 <= hour < 20 /\ (minute = 0 \/ minute = 30))
  /\ (forall hour minute,
        0 <= hour < 24 -> 0 <= minute < 60 ->
        (fst (_is_valid_time (clock_text hour minute)) = true <->
           8 <= hour < 20 /\ (minute = 0 \/ minute = 30)))
  /\ fst (_is_valid_time "07:30") = false
  /\ fst (_is_valid_time "08:00") = true
  /\ fst (_is_valid_time "19:30") = true
  /\ fst (_is_valid_time "20:00") = false
  /\ fst (_is_valid_time "14:15") = false.
Proof.
  split; [|split; [|repeat split; reflexivity]].
  - unfold _is_valid_time.
    destruct (strptime_hm (strip time_str)) as [[hour minute]|]; simpl.
    + destruct (Z.ltb_spec hour 8); simpl.
      { split; [discriminate|]. intros (h & m & [= <- <-] & ? & ?). lia. }
      destruct (Z.leb_spec 20 hour); simpl.
      { split; [discriminate|]. intros (h & m & [= <- <-] & ? & ?). lia. }
      destruct (Z.eqb_spec minute 0); simpl.
      { split; [|reflexivity]. intros _. exists hour, minute. repeat split; lia. }
      destruct (Z.eqb_spec minute 30); simpl.
      { split; [|reflexivity]. intros _. exists hour, minute. repeat split; lia. }
      split; [discriminate|]. intros (h & m & [= <- <-] & ? & ?). lia.
    + split; [discriminate|]. intros (h & m & [=] & _).
  - intros hour minute Hh Hm.
    pose proof valid_time_table as Htable.
    rewrite forallb_forall in Htable.
    specialize (Htable (hour, minute)). simpl in Htable.
    assert (Hin : In (hour, minute) all_clock_times).
    { unfold all_clock_times. apply in_flat_map. exists (Z.to_nat hour).
      split; [apply in_seq; lia|].
      apply in_map_iff. exists (Z.to_nat minute).
      split; [f_equal; lia | apply in_seq; lia]. }
    specialize (Htable Hin). apply Bool.eqb_prop in Htable. rewrite Htable.
    rewrite !andb_true_iff, orb_true_iff, Z.leb_le, Z.ltb_lt, !Z.eqb_eq. tauto.
Qed.

(** ** Intent classifier *)

(** C8.  The classifier lower-cases and trims the text and tries the keyword
    sets in the order cancel, reschedule, view, book: it returns the first
    category one of whose keywords occurs in the text and [unknown] when none
    does, which is what the ordered rule table of the specification computes;
    "cancel my reschedule" is a cancel. *)
Theorem intent_priority_order (text : string) :
  _detect_intent text = classify_spec text
  /\ (any_in cancel_keywords (strip (lower text)) = true -> _detect_intent text = cancel)
  /\ (any_in cancel_keywords (strip (lower text)) = false ->
      any_in reschedule_keywords (strip (lower text)) = true ->
      _detect_intent text = reschedule)
  /\ (any_in cancel_keywords (strip (lower text)) = false ->
      any_in reschedule_keywords (strip (lower text)) = false ->
      any_in view_keywords (strip (lower text)) = true ->
      _detect_intent text = view)
  /\ (any_in cancel_keywords (strip (lower text)) = false ->
      any_in reschedule_keywords (strip (lower text)) = false ->
      any_in view_keywords (strip (lower text)) = false ->
      any_in book_keywords (strip (lower text)) = true ->
      _detect_intent text = book)
  /\ (any_in cancel_keywords (strip (lower text)) = false ->
      any_in reschedule_keywords (strip (lower text)) = false ->
      any_in view_keywords (strip (lower text)) = false ->
      any_in book_keywords (strip (lower text)) = false ->
      _detect_intent text = unknown)
  /\ _detect_intent "cancel my reschedule" = cancel
  /\ any_in reschedule_keywords (strip (lower "cancel my reschedule")) = true.
Proof.
  split.
  { unfold _detect_intent, classify_spec, intent_rules. cbn [find fst snd].
    destruct (any_in cancel_keywords _); [reflexivity|].
    destruct (any_in reschedule_keywords _); [reflexivity|].
    destruct (any_in view_keywords _); [reflexivity|].
    destruct (any_in book_keywords _); reflexivity. }
  unfold _detect_intent.
  repeat split; try reflexivity.
  - intros ->. reflexivity.
  - intros -> ->. reflexivity.
  - intros -> -> ->. reflexivity.
  - intros -> -> -> ->. reflexivity.
  - intros -> -> -> ->. reflexivity.
Qed.

Lemma intent_priority_order_witness :
  any_in cancel_keywords (strip (lower "  Please CHANGE my appointment ")) = false
  /\ any_in reschedule_keywords (strip (lower "  Please CHANGE my appointment ")) = true
  /\ _detect_intent "  Please CHANGE my appointment " = reschedule.
Proof.
  split; [reflexivity|]. split; [reflexivity|].
  apply (proj1 (proj2 (proj2 (intent_priority_order "  Please CHANGE my appointment "))));
    reflexivity.
Defined.

Lemma time_validator_witness :
  0 <= 9 < 24 /\ 0 <= 30 < 60
  /\ fst (_is_valid_time (clock_text 9 30)) = true.
Proof.
  split; [lia|]. split; [lia|].
  apply (proj1 (proj2 (time_validator_hours_and_half_hours "")) 9 30); lia.
Defined.

(** ** The engine *)

Ltac run :=
  cbv beta iota zeta delta
    [bind ret raise lift call update deref try_except get_sessions put_sessions];
  cbn [sessions clinic].

Section EngineProperties.
Context {G : Type} `{!ClinicGateway G} `{!Platform}.

Lemma entered_user (e : env) (user_name : string) (m : gmap string session) :
  is_Some (entered e user_name m !! user_name).
Proof.
  unfold entered. destruct (swept e m !! user_name) as [s|] eqn:Hs.
  - rewrite Hs. eauto.
  - rewrite lookup_insert_eq. eauto.
Qed.

(** A session the sweep leaves in place is the one the call works on. *)
Lemma entered_survivor (e : env) (user_name : string) (m : gmap string session)
    (s : session) :
  swept e m !! user_name = Some s -> entered e user_name m !! user_name = Some s.
Proof. intros Hs. unfold entered. rewrite Hs. exact Hs. Qed.

Lemma entered_newcomer (e : env) (user_name : string) (m : gmap string session) :
  swept e m !! user_name = None ->
  entered e user_name m !! user_name = Some (_create_session (now e) user_name).
Proof. intros Hs. unfold entered. rewrite Hs. apply lookup_insert_eq. Qed.

(** The sweep keeps a session exactly when it is at most an hour old. *)
Lemma swept_lookup (e : env) (m : gmap string session) (k : string) (s : session) :
  swept e m !! k = Some s <->
  m !! k = Some s /\ (sweep_due m = true -> expired (now e) 1 s = false).
Proof.
  unfold swept. destruct (sweep_due m).
  - rewrite map_lookup_filter_Some. cbn. tauto.
  - split; [intros Hs; split; [exact Hs | discriminate] | tauto].
Qed.

Lemma get_response_respond (e : env) (user_input user_name : string) (w : world G)
    (s : session) :
  entered e user_name (sessions w) !! user_name = Some s ->
  get_response e user_input user_name w
  = respond e user_name (state s) (strip user_input)
      (World (entered e user_name (sessions w)) (clinic w)).
Proof.
  intros Hs. destruct w as [m g].
  unfold entered, swept in Hs |- *. cbn [sessions clinic] in *.
  cbv beta iota zeta delta
    [get_response bind get_sessions _cleanup_old_sessions _get_or_create_session
     put_sessions ret deref sessions clinic].
  destruct (sweep_due m); cbv beta iota zeta.
  - destruct (filter _ m !! user_name) eqn:Hl; cbv beta iota zeta.
    + rewrite Hl. congruence.
    + rewrite lookup_insert_eq in Hs |- *. congruence.
  - destruct (m !! user_name) eqn:Hl; cbv beta iota zeta.
    + rewrite Hl. congruence.
    + rewrite lookup_insert_eq in Hs |- *. congruence.
Qed.

(** The abort command, whatever the state: the state of the session becomes
    [START], nothing else in it changes, and the gateway is not called. *)
Lemma get_response_abort (e : env) (user_input user_name : string) (w : world G) :
  lower (strip user_input) ∈ ["cancel"; "exit"; "quit"] ->
  get_response e user_input user_name w
  = (inr abort_reply,
     World (alter (set_state START) user_name (entered e user_name (sessions w)))
       (clinic w)).
Proof.
  intros Hcmd.
  destruct (entered_user e user_name (sessions w)) as [s Hs].
  rewrite (get_response_respond e user_input user_name w s Hs).
  unfold respond. destruct (decide _) as [_|Hn]; [|contradiction].
  run. reflexivity.
Qed.

Lemma abort_state (e : env) (user_name : string) (m : gmap string session) :
  exists s',
    alter (set_state START) user_name (entered e user_name m) !! user_name = Some s'
    /\ state s' = START.
Proof.
  destruct (entered_user e user_name m) as [s Hs].
  exists (set_state START s). split; [|reflexivity].
  rewrite lookup_alter_eq, Hs. reflexivity.
Qed.

(** C2.  Whatever state other than [START] the session of the user is in
    and whatever its draft holds, an input that, trimmed and lower-cased, is
    [cancel], [exit] or [quit] gets the abort message and leaves the session
    in [START]; the gateway is not called and no handler of a state runs: a
    session the sweep has left in place keeps its draft, only its state
    changes. *)
Theorem abort_command_from_any_state (e : env) (user_input user_name : string)
    (w : world G) (s : session) :
  sessions w !! user_name = Some s ->
  state s <> START ->
  lower (strip user_input) ∈ ["cancel"; "exit"; "quit"] ->
  get_response e user_input user_name w
  = (inr abort_reply,
     World (alter (set_state START) user_name (entered e user_name (sessions w)))
       (clinic w))
  /\ (exists s',
        alter (set_state START) user_name (entered e user_name (sessions w)) !! user_name
        = Some s'
        /\ state s' = START)
  /\ (swept e (sessions w) !! user_name = Some s ->
      alter (set_state START) user_name (entered e user_name (sessions w)) !! user_name
      = Some (set_state START s)
      /\ data (set_state START s) = data s).
Proof.
  intros Hs Hstate Hcmd. split; [|split].
  - apply get_response_abort, Hcmd.
  - apply abort_state.
  - intros Hkept. split; [|reflexivity].
    rewrite lookup_alter_eq, (entered_survivor _ _ _ _ Hkept). reflexivity.
Qed.

(** C10.  When the session the call works on is in [START] (the user is new
    or was there already), an input that, trimmed and lower-cased, is
    [cancel], [exit] or [quit] is taken by the global commands: the reply is
    the abort message and the session stays as it is, in [START] and not in
    [CANCEL_START], although the intent classifier reads the bare word
    "cancel" as a cancel. *)
Theorem bare_cancel_at_start_is_the_abort_command (e : env)
    (user_input user_name : string) (w : world G) (s : session) :
  entered e user_name (sessions w) !! user_name = Some s ->
  state s = START ->
  lower (strip user_input) ∈ ["cancel"; "exit"; "quit"] ->
  get_response e user_input user_name w
  = (inr abort_reply,
     World (alter (set_state START) user_name (entered e user_name (sessions w)))
       (clinic w))
  /\ alter (set_state START) user_name (entered e user_name (sessions w)) !! user_name
     = Some s
  /\ state s <> CANCEL_START
  /\ _detect_intent "cancel" = cancel.
Proof.
  intros Hs Hstate Hcmd. split; [|split; [|split]].
  - apply get_response_abort, Hcmd.
  - rewrite lookup_alter_eq, Hs. cbn. f_equal.
    destruct s; cbn in *. subst. reflexivity.
  - rewrite Hstate. discriminate.
  - reflexivity.
Qed.

(** *** Lookup miss in the cancel flow *)

Lemma respond_routed (e : env) (session user_input : string) (st : ConversationState) :
  lower user_input ∉ ["cancel"; "exit"; "quit"] ->
  lower user_input <> "restart" ->
  respond e session st user_input
  = match st with
    | CANCEL_START => _handle_cancel_appointment_selection session user_input
    | CANCEL_CONFIRMATION => _handle_cancel_confirmation session user_input
    | RESCHEDULE_CONFIRMATION => _handle_reschedule_confirmation session user_input
    | DOCTOR_SELECTION => _handle_confirmation e session user_input
    | _ => respond e session st user_input
    end.
Proof.
  intros Hcmd Hrestart. unfold respond.
  destruct (decide _) as [Hin|_]; [contradiction|].
  destruct (String.eqb_spec (lower user_input) "restart") as [Heq|_]; [contradiction|].
  destruct st; reflexivity.
Qed.

Lemma cancel_selection_miss (session user_input : string) (w : world G) (g' : G) :
  get_patient_appointments (strip user_input) (clinic w) = (inr [], g') ->
  _handle_cancel_appointment_selection session user_input w
  = (inr (no_appointments_reply user_input), World (sessions w) g').
Proof.
  intros Hgw. unfold _handle_cancel_appointment_selection. run.
  rewrite Hgw. reflexivity.
Qed.

(** C3, amended.  In [CANCEL_START], when the gateway finds no appointment
    for the search key, the reply is the "No appointments found" message and
    the session is left as it is: it stays in [CANCEL_START], where the user
    can try another key, and reaches neither [CANCEL_CONFIRMATION] nor
    [START]. *)
Theorem cancel_lookup_miss_reprompts (e : env) (user_input user_name : string)
    (w : world G) (s : session) (g' : G) :
  entered e user_name (sessions w) !! user_name = Some s ->
  state s = CANCEL_START ->
  lower (strip user_input) ∉ ["cancel"; "exit"; "quit"] ->
  lower (strip user_input) <> "restart" ->
  get_patient_appointments (strip user_input) (clinic w) = (inr [], g') ->
  get_response e user_input user_name w
  = (inr (no_appointments_reply (strip user_input)),
     World (entered e user_name (sessions w)) g')
  /\ contains "No appointments found" (no_appointments_reply (strip user_input)) = true
  /\ state s <> CANCEL_CONFIRMATION
  /\ state s <> START.
Proof.
  intros Hs Hstate Hcmd Hrestart Hgw.
  rewrite (get_response_respond e user_input user_name w s Hs), Hstate.
  rewrite (respond_routed e user_name (strip user_input) CANCEL_START Hcmd Hrestart).
  split; [|split; [|split]].
  - apply cancel_selection_miss. rewrite strip_idemp. exact Hgw.
  - apply contains_append_l. reflexivity.
  - discriminate.
  - discriminate.
Qed.

(** *** Commits the gateway refuses *)

Lemma cancel_commit_refused (key user_input : string) (w : world G) (s : session)
    (n : Z) (appointment : Appointment.t) (g' : G) :
  sessions w !! key = Some s ->
  py_int (strip user_input) = Some n ->
  1 <= n ->
  default [] (Draft.available_appointments (data s)) !! Z.to_nat (n - 1)
  = Some appointment ->
  cancel_appointment (Appointment.id appointment) "Cancelled via chatbot" (clinic w)
  = (inr false, g') ->
  _handle_cancel_confirmation key user_input w
  = (inr cancel_failed_reply, World (sessions w) g').
Proof.
  intros Hs Hint Hn Hsel Hgw. unfold _handle_cancel_confirmation, int_of. run.
  rewrite Hint, Hs.
  pose proof (lookup_lt_Some _ _ _ Hsel) as Hlen.
  destruct (Z.ltb_spec (n - 1) 0); [lia|].
  destruct (Z.leb_spec (Z.of_nat (length (default [] (Draft.available_appointments (data s)))))
              (n - 1)); [lia|].
  cbn [orb]. rewrite Hsel, Hgw. reflexivity.
Qed.

Lemma reschedule_commit_refused (key : string) (w : world G) (s : session)
    (appointment : Appointment.t) (new_date new_time : string) (g' : G) :
  sessions w !! key = Some s ->
  Draft.selected_appointment (data s) = Some appointment ->
  Draft.new_date (data s) = Some new_date ->
  Draft.new_time (data s) = Some new_time ->
  reschedule_appointment (Appointment.id appointment) new_date new_time (clinic w)
  = (inr false, g') ->
  reschedule_commit key w = (inr reschedule_failed_reply, World (sessions w) g').
Proof.
  intros Hs Hsel Hdate Htime Hgw. unfold reschedule_commit, getitem. run.
  rewrite Hs, Hsel, Hdate, Htime, Hgw. reflexivity.
Qed.

Lemma booking_commit_cases (e : env) (key : string) (w : world G) (s : session) :
  sessions w !! key = Some s ->
  _book_appointment e key w
  = match new_Appointment e (Draft.patient_name (data s)) (Draft.phone (data s))
            (Draft.doctor_name (data s)) (Draft.date (data s)) (Draft.time (data s))
            (Draft.service_type (data s))
            ("Issue: " +:+ fmt (Draft.problem (data s))) with
    | inl err => (inr (booking_error_reply err), w)
    | inr appointment =>
        match book_appointment_validated (booking_request_of (data s)) (clinic w) with
        | (inl err, g') => (inr (booking_error_reply err), World (sessions w) g')
        | (inr (true, _), g') =>
            (inr (booking_success_reply appointment (data s)),
             World (alter (set_state BOOKING_COMPLETE) key (sessions w)) g')
        | (inr (false, message), g') =>
            (inr (booking_failed_reply message), World (sessions w) g')
        end
    end.
Proof.
  intros Hs. unfold _book_appointment. run. rewrite Hs.
  destruct (new_Appointment _ _ _ _ _ _ _ _) as [err|appointment].
  - destruct w; reflexivity.
  - destruct (book_appointment_validated _ _) as [[err|[[] message]] g']; reflexivity.
Qed.

(** *** Confirmation steps *)

Lemma cancel_confirmation_not_a_number (key user_input : string) (w : world G) :
  py_int (strip user_input) = None ->
  _handle_cancel_confirmation key user_input w = (inr not_a_number_reply, w).
Proof.
  intros Hint. unfold _handle_cancel_confirmation, int_of. run.
  rewrite Hint. reflexivity.
Qed.

Lemma negative_not_affirmative (answer : string) :
  answer ∈ ["no"; "n"; "cancel"; "edit"] -> answer ∉ affirmative.
Proof.
  intros Hneg.
  repeat (apply elem_of_cons in Hneg as [->|Hneg]; [compute_done|]).
  inversion Hneg.
Qed.

(** C1, amended.  The booking and the reschedule confirmation handlers
    commit on an answer that, trimmed and lower-cased, is yes, y, ok, correct
    or sure; they set the state to [START] on no, n or cancel, and the
    booking handler on edit too; on an answer outside both sets they ask
    again and change nothing.  The cancel flow has no yes/no step: its
    handler takes the number of an appointment, and on an answer that is not
    a number, yes and no included, it asks for a number and changes nothing,
    the gateway included.  In [RESCHEDULE_CONFIRMATION] and in
    [CANCEL_CONFIRMATION] the engine hands every input that is not a global
    command to these two handlers. *)
Theorem confirmation_answers (e : env) (key user_input : string) (w : world G) :
  (lower (strip user_input) ∈ affirmative ->
   _handle_confirmation e key user_input w = _book_appointment e key w
   /\ _handle_reschedule_confirmation key user_input w = reschedule_commit key w)
  /\ (lower (strip user_input) ∈ ["no"; "n"; "cancel"; "edit"] ->
      _handle_confirmation e key user_input w
      = (inr ("[CANCEL] Appointment cancelled." +:+ nl +:+ nl
              +:+ "Type anything to start over."),
         World (alter (set_state START) key (sessions w)) (clinic w)))
  /\ (lower (strip user_input) ∈ ["no"; "n"; "cancel"] ->
      _handle_reschedule_confirmation key user_input w
      = (inr ("[CANCEL] Rescheduling cancelled." +:+ nl +:+ nl
              +:+ "Type anything to start over."),
         World (alter (set_state START) key (sessions w)) (clinic w)))
  /\ (lower (strip user_input) ∉ affirmative ->
      lower (strip user_input) ∉ ["no"; "n"; "cancel"; "edit"] ->
      _handle_confirmation e key user_input w = (inr yes_or_no_reply, w)
      /\ _handle_reschedule_confirmation key user_input w = (inr yes_or_no_reply, w))
  /\ (lower (strip user_input) ∈ affirmative ++ ["no"; "n"; "cancel"; "edit"] ->
      _handle_cancel_confirmation key user_input w = (inr not_a_number_reply, w))
  /\ (py_int (strip user_input) = None ->
      _handle_cancel_confirmation key user_input w = (inr not_a_number_reply, w))
  /\ (forall s,
        entered e key (sessions w) !! key = Some s ->
        lower (strip user_input) ∉ ["cancel"; "exit"; "quit"] ->
        lower (strip user_input) <> "restart" ->
        (state s = RESCHEDULE_CONFIRMATION ->
         get_response e user_input key w
         = _handle_reschedule_confirmation key (strip user_input)
             (World (entered e key (sessions w)) (clinic w)))
        /\ (state s = CANCEL_CONFIRMATION ->
            get_response e user_input key w
            = _handle_cancel_confirmation key (strip user_input)
                (World (entered e key (sessions w)) (clinic w)))).
Proof.
  split; [|split; [|split; [|split; [|split; [|split]]]]];
    [| | | | | |
     intros s Hs Hcmd Hrestart;
     rewrite (get_response_respond e user_input key w s Hs);
     split; intros ->;
     rewrite (respond_routed e key (strip user_input) _ Hcmd Hrestart);
     reflexivity].
  - intros Haff. unfold _handle_confirmation, _handle_reschedule_confirmation.
    destruct (decide _) as [_|Hn]; [|contradiction]. split; reflexivity.
  - intros Hneg. unfold _handle_confirmation.
    destruct (decide _) as [Haff|_];
      [destruct (negative_not_affirmative _ Hneg Haff)|].
    destruct (decide _) as [_|Hn]; [|contradiction]. run. reflexivity.
  - intros Hneg. unfold _handle_reschedule_confirmation.
    assert (Hneg' : lower (strip user_input) ∈ ["no"; "n"; "cancel"; "edit"]).
    { repeat (apply elem_of_cons in Hneg as [->|Hneg]; [compute_done|]).
      inversion Hneg. }
    destruct (decide _) as [Haff|_];
      [destruct (negative_not_affirmative _ Hneg' Haff)|].
    destruct (decide _) as [_|Hn]; [|contradiction]. run. reflexivity.
  - intros Haff Hneg. unfold _handle_confirmation, _handle_reschedule_confirmation.
    destruct (decide _) as [?|_]; [contradiction|].
    destruct (decide _) as [?|_]; [contradiction|].
    split; [reflexivity|].
    destruct (decide _) as [Hin|_]; [|reflexivity].
    exfalso. apply Hneg.
    repeat (apply elem_of_cons in Hin as [->|Hin]; [compute_done|]).
    inversion Hin.
  - intros Hword. apply cancel_confirmation_not_a_number, yes_no_not_a_number, Hword.
  - apply cancel_confirmation_not_a_number.
Qed.

(** C4, amended.  When the gateway refuses a cancel, a reschedule or a
    booking commit (it returns false), the engine replies with an error
    message and leaves the session as it was, state included, so that the
    user can retry; only the gateway's own state may have changed. *)
Theorem refused_commit_keeps_the_session (e : env) (key : string) (w : world G)
    (s : session) :
  sessions w !! key = Some s ->
  (forall user_input n appointment g',
     py_int (strip user_input) = Some n ->
     1 <= n ->
     default [] (Draft.available_appointments (data s)) !! Z.to_nat (n - 1)
     = Some appointment ->
     cancel_appointment (Appointment.id appointment) "Cancelled via chatbot" (clinic w)
     = (inr false, g') ->
     _handle_cancel_confirmation key user_input w
     = (inr cancel_failed_reply, World (sessions w) g'))
  /\ (forall user_input appointment new_date new_time g',
       lower (strip user_input) ∈ affirmative ->
       Draft.selected_appointment (data s) = Some appointment ->
       Draft.new_date (data s) = Some new_date ->
       Draft.new_time (data s) = Some new_time ->
       reschedule_appointment (Appointment.id appointment) new_date new_time (clinic w)
       = (inr false, g') ->
       _handle_reschedule_confirmation key user_input w
       = (inr reschedule_failed_reply, World (sessions w) g'))
  /\ (forall appointment message g',
       new_Appointment e (Draft.patient_name (data s)) (Draft.phone (data s))
         (Draft.doctor_name (data s)) (Draft.date (data s)) (Draft.time (data s))
         (Draft.service_type (data s)) ("Issue: " +:+ fmt (Draft.problem (data s)))
       = inr appointment ->
       book_appointment_validated (booking_request_of (data s)) (clinic w)
       = (inr (false, message), g') ->
       _book_appointment e key w
       = (inr (booking_failed_reply message), World (sessions w) g')).
Proof.
  intros Hs. split; [|split].
  - intros user_input n appointment g'. apply cancel_commit_refused, Hs.
  - intros user_input appointment new_date new_time g' Haff Hsel Hdate Htime Hgw.
    unfold _handle_reschedule_confirmation.
    destruct (decide _) as [_|Hn]; [|contradiction].
    exact (reschedule_commit_refused key w s appointment new_date new_time g'
             Hs Hsel Hdate Htime Hgw).
  - intros appointment message g' Hbuilt Hgw.
    rewrite (booking_commit_cases e key w s Hs), Hbuilt, Hgw. reflexivity.
Qed.

(** *** The booking commit *)

Ltac occurs :=
  repeat first [ apply contains_prefix, prefix_append | apply contains_append ];
  try reflexivity.

Lemma success_reply_summary (appointment : Appointment.t) (data : Draft.t) :
  contains (Appointment.id appointment) (booking_success_reply appointment data) = true
  /\ contains (fmt (Draft.date data)) (booking_success_reply appointment data) = true
  /\ contains (fmt (Draft.time data)) (booking_success_reply appointment data) = true
  /\ contains (fmt (Draft.doctor_name data)) (booking_success_reply appointment data) = true
  /\ contains (fmt (Draft.service_type data)) (booking_success_reply appointment data) = true
  /\ contains (fmt (Draft.phone data)) (booking_success_reply appointment data) = true.
Proof. unfold booking_success_reply. repeat split; occurs. Qed.

(** C5.  The booking commit: when the gateway accepts, the state of the
    session becomes [BOOKING_COMPLETE] and the reply gives the appointment
    id, date, time, doctor, service and phone; when it refuses, the reply
    carries its message word for word and the session is unchanged; when
    building the appointment or calling the gateway raises, the exception is
    caught, the reply asks to try again later and the session, state and
    draft, is as it was. *)
Theorem booking_commit_outcomes (e : env) (key : string) (w : world G) (s : session) :
  sessions w !! key = Some s ->
  (forall appointment message g',
     new_Appointment e (Draft.patient_name (data s)) (Draft.phone (data s))
       (Draft.doctor_name (data s)) (Draft.date (data s)) (Draft.time (data s))
       (Draft.service_type (data s)) ("Issue: " +:+ fmt (Draft.problem (data s)))
     = inr appointment ->
     book_appointment_validated (booking_request_of (data s)) (clinic w)
     = (inr (true, message), g') ->
     _book_appointment e key w
     = (inr (booking_success_reply appointment (data s)),
        World (<[key := set_state BOOKING_COMPLETE s]> (sessions w)) g')
     /\ contains (Appointment.id appointment)
          (booking_success_reply appointment (data s)) = true
     /\ contains (fmt (Draft.date (data s))) (booking_success_reply appointment (data s))
        = true
     /\ contains (fmt (Draft.time (data s))) (booking_success_reply appointment (data s))
        = true
     /\ contains (fmt (Draft.doctor_name (data s)))
          (booking_success_reply appointment (data s)) = true
     /\ contains (fmt (Draft.service_type (data s)))
          (booking_success_reply appointment (data s)) = true
     /\ contains (fmt (Draft.phone (data s)))
          (booking_success_reply appointment (data s)) = true)
  /\ (forall appointment message g',
       new_Appointment e (Draft.patient_name (data s)) (Draft.phone (data s))
         (Draft.doctor_name (data s)) (Draft.date (data s)) (Draft.time (data s))
         (Draft.service_type (data s)) ("Issue: " +:+ fmt (Draft.problem (data s)))
       = inr appointment ->
       book_appointment_validated (booking_request_of (data s)) (clinic w)
       = (inr (false, message), g') ->
       _book_appointment e key w
       = (inr (booking_failed_reply message), World (sessions w) g')
       /\ contains message (booking_failed_reply message) = true)
  /\ (forall err,
       new_Appointment e (Draft.patient_name (data s)) (Draft.phone (data s))
         (Draft.doctor_name (data s)) (Draft.date (data s)) (Draft.time (data s))
         (Draft.service_type (data s)) ("Issue: " +:+ fmt (Draft.problem (data s)))
       = inl err ->
       _book_appointment e key w = (inr (booking_error_reply err), w))
  /\ (forall appointment err g',
       new_Appointment e (Draft.patient_name (data s)) (Draft.phone (data s))
         (Draft.doctor_name (data s)) (Draft.date (data s)) (Draft.time (data s))
         (Draft.service_type (data s)) ("Issue: " +:+ fmt (Draft.problem (data s)))
       = inr appointment ->
       book_appointment_validated (booking_request_of (data s)) (clinic w)
       = (inl err, g') ->
       _book_appointment e key w
       = (inr (booking_error_reply err), World (sessions w) g'))
  /\ (forall err, contains "Please try again later." (booking_error_reply err) = true).
Proof.
  intros Hs. rewrite (booking_commit_cases e key w s Hs).
  split; [|split; [|split; [|split]]].
  - intros appointment message g' -> ->.
    split; [|apply success_reply_summary].
    do 2 f_equal. apply map_eq. intros k.
    destruct (decide (key = k)) as [<-|Hne].
    + rewrite lookup_alter_eq, lookup_insert_eq, Hs. reflexivity.
    + rewrite lookup_alter_ne, lookup_insert_ne by exact Hne. reflexivity.
  - intros appointment message g' -> ->.
    split; [reflexivity|]. unfold booking_failed_reply. occurs.
  - intros err ->. reflexivity.
  - intros appointment err g' -> ->. reflexivity.
  - intros err. unfold booking_error_reply. occurs.
Qed.
(** *** The sweep *)

(** The sweep removes exactly the sessions that are more than
    [max_age_hours] hours old, and nothing else changes. *)
Lemma cleanup_removes_the_expired (e : env) (max_age_hours : Z) (w : world G) :
  exists m',
    _cleanup_old_sessions e max_age_hours w = (inr tt, World m' (clinic w))
    /\ forall k s,
         m' !! k = Some s <->
         sessions w !! k = Some s
         /\ now e - created_at s <= max_age_hours * MICROS_PER_HOUR.
Proof.
  eexists. split; [reflexivity|].
  intros k s. rewrite map_lookup_filter_Some. cbn [snd]. unfold expired.
  rewrite Z.ltb_ge. reflexivity.
Qed.

End EngineProperties.

(** ** Closed examples on the in-memory gateway *)

Section Examples.
Import MemoryClinic.

(** Alice, asked which appointment to cancel, types " Cancel ": the engine
    aborts, her session returns to [START] with its draft, and her
    appointment is untouched. *)
Lemma abort_command_witness :
  sessions asked_which_to_cancel !! "Alice" = Some (choosing "Alice")
  /\ state (choosing "Alice") <> START
  /\ lower (strip " Cancel ") ∈ ["cancel"; "exit"; "quit"]
  /\ fst (get_response at_10_05 " Cancel " "Alice" asked_which_to_cancel) = inr abort_reply
  /\ sessions (snd (get_response at_10_05 " Cancel " "Alice" asked_which_to_cancel))
     !! "Alice" = Some (set_state START (choosing "Alice"))
  /\ clinic (snd (get_response at_10_05 " Cancel " "Alice" asked_which_to_cancel))
     = clinic0.
Proof.
  assert (Hs : sessions asked_which_to_cancel !! "Alice" = Some (choosing "Alice"))
    by (vm_compute; reflexivity).
  assert (Hstate : state (choosing "Alice") <> START) by discriminate.
  assert (Hcmd : lower (strip " Cancel ") ∈ ["cancel"; "exit"; "quit"]) by compute_done.
  destruct (abort_command_from_any_state at_10_05 " Cancel " "Alice"
              asked_which_to_cancel (choosing "Alice") Hs Hstate Hcmd)
    as (Hrun & _ & Hkept).
  split; [exact Hs|]. split; [exact Hstate|]. split; [exact Hcmd|].
  rewrite Hrun. cbn [fst snd sessions clinic].
  split; [reflexivity|].
  split; [|reflexivity].
  apply Hkept. vm_compute. reflexivity.
Defined.

(** A new user's first message is the bare word "cancel". *)
Lemma bare_cancel_witness :
  entered at_10_00 "Alice" (sessions fresh) !! "Alice"
  = Some (_create_session (now at_10_00) "Alice")
  /\ lower (strip "cancel") ∈ ["cancel"; "exit"; "quit"]
  /\ fst (get_response at_10_00 "cancel" "Alice" fresh) = inr abort_reply
  /\ state <$> sessions (snd (get_response at_10_00 "cancel" "Alice" fresh)) !! "Alice"
     = Some START.
Proof.
  assert (Hs : entered at_10_00 "Alice" (sessions fresh) !! "Alice"
               = Some (_create_session (now at_10_00) "Alice"))
    by (vm_compute; reflexivity).
  assert (Hcmd : lower (strip "cancel") ∈ ["cancel"; "exit"; "quit"]) by compute_done.
  destruct (bare_cancel_at_start_is_the_abort_command at_10_00 "cancel" "Alice" fresh
              _ Hs eq_refl Hcmd) as (Hrun & Hkept & _).
  split; [exact Hs|]. split; [exact Hcmd|].
  rewrite Hrun. cbn [fst snd sessions clinic].
  split; [reflexivity|]. rewrite Hkept. reflexivity.
Defined.

(** C3, as stated, fails: Bob has no appointment and is in [CANCEL_START];
    the gateway finds nothing for "Bob", the reply is the "No appointments
    found" message, and his session is still in [CANCEL_START], not in
    [START]. *)
Lemma cancel_lookup_miss_stays_in_cancel_start :
  sessions bob_asked_to_cancel !! "Bob" = Some (searching "Bob")
  /\ state (searching "Bob") = CANCEL_START
  /\ get_patient_appointments (strip "Bob") (clinic bob_asked_to_cancel)
     = (inr [], clinic bob_asked_to_cancel)
  /\ get_response at_10_05 "Bob" "Bob" bob_asked_to_cancel
     = (inr (no_appointments_reply "Bob"), bob_asked_to_cancel)
  /\ state <$> sessions (snd (get_response at_10_05 "Bob" "Bob" bob_asked_to_cancel))
               !! "Bob"
     <> Some START.
Proof.
  repeat split;
    first [ compute_done | vm_compute; reflexivity | vm_compute; discriminate ].
Qed.

Lemma cancel_lookup_miss_witness :
  entered at_10_05 "Bob" (sessions bob_asked_to_cancel) !! "Bob" = Some (searching "Bob")
  /\ get_patient_appointments (strip "Bob") (clinic bob_asked_to_cancel)
     = (inr [], clinic bob_asked_to_cancel)
  /\ get_response at_10_05 "Bob" "Bob" bob_asked_to_cancel
     = (inr (no_appointments_reply (strip "Bob")),
        World (entered at_10_05 "Bob" (sessions bob_asked_to_cancel))
          (clinic bob_asked_to_cancel)).
Proof.
  assert (Hs : entered at_10_05 "Bob" (sessions bob_asked_to_cancel) !! "Bob"
               = Some (searching "Bob")) by (vm_compute; reflexivity).
  assert (Hgw : get_patient_appointments (strip "Bob") (clinic bob_asked_to_cancel)
                = (inr [], clinic bob_asked_to_cancel)) by (vm_compute; reflexivity).
  split; [exact Hs|]. split; [exact Hgw|].
  apply (cancel_lookup_miss_reprompts at_10_05 "Bob" "Bob" bob_asked_to_cancel
           (searching "Bob") _ Hs eq_refl); [compute_done | discriminate | exact Hgw].
Defined.

(** C1, as stated, fails: Alice is in [CANCEL_CONFIRMATION]; her "yes" does
    not cancel anything and her "no" does not take her back to [START]: both
    get the request for a number, and the session and the gateway stay as
    they were. *)
Lemma cancel_step_takes_no_yes_or_no :
  sessions asked_which_to_cancel !! "Alice" = Some (choosing "Alice")
  /\ state (choosing "Alice") = CANCEL_CONFIRMATION
  /\ lower (strip "yes") ∈ affirmative
  /\ get_response at_10_05 "yes" "Alice" asked_which_to_cancel
     = (inr not_a_number_reply, asked_which_to_cancel)
  /\ clinic asked_which_to_cancel = clinic0
  /\ lower (strip "no") ∈ ["no"; "n"; "cancel"; "edit"]
  /\ get_response at_10_05 "no" "Alice" asked_which_to_cancel
     = (inr not_a_number_reply, asked_which_to_cancel)
  /\ state <$> sessions (snd (get_response at_10_05 "no" "Alice" asked_which_to_cancel))
               !! "Alice"
     <> Some START.
Proof.
  repeat split;
    first [ compute_done | vm_compute; reflexivity | vm_compute; discriminate ].
Qed.

Lemma confirmation_answers_witness :
  lower (strip " YES ") ∈ affirmative
  /\ _handle_reschedule_confirmation "alice-phone" " YES " moved_after_cancel
     = reschedule_commit "alice-phone" moved_after_cancel
  /\ lower (strip "No") ∈ ["no"; "n"; "cancel"]
  /\ state <$> sessions (snd (_handle_reschedule_confirmation "alice-phone" "No"
                                moved_after_cancel)) !! "alice-phone"
     = Some START
  /\ lower (strip "yes") ∈ affirmative ++ ["no"; "n"; "cancel"; "edit"]
  /\ _handle_cancel_confirmation "Alice" "yes" asked_which_to_cancel
     = (inr not_a_number_reply, asked_which_to_cancel).
Proof.
  pose proof (confirmation_answers at_10_05 "alice-phone" " YES " moved_after_cancel)
    as (Hyes & _).
  pose proof (confirmation_answers at_10_05 "alice-phone" "No" moved_after_cancel)
    as (_ & _ & Hno & _).
  pose proof (confirmation_answers at_10_05 "Alice" "yes" asked_which_to_cancel)
    as (_ & _ & _ & _ & Hword & _).
  assert (H1 : lower (strip " YES ") ∈ affirmative) by compute_done.
  assert (H2 : lower (strip "No") ∈ ["no"; "n"; "cancel"]) by compute_done.
  assert (H3 : lower (strip "yes") ∈ affirmative ++ ["no"; "n"; "cancel"; "edit"])
    by compute_done.
  split; [exact H1|]. split; [exact (proj2 (Hyes H1))|]. split; [exact H2|].
  split; [rewrite (Hno H2); vm_compute; reflexivity|].
  split; [exact H3 | exact (Hword H3)].
Defined.

(** C4, as stated, fails: the gateway refuses the cancel (and the
    reschedule) of an appointment that was cancelled from another device
    meanwhile; the engine replies with the error message and the session
    stays in [CANCEL_CONFIRMATION] (in [RESCHEDULE_CONFIRMATION]), not in
    [START]. *)
Lemma refused_cancel_stays_in_confirmation :
  sessions cancelled_elsewhere !! "alice-phone" = Some (choosing "alice-phone")
  /\ state (choosing "alice-phone") = CANCEL_CONFIRMATION
  /\ cancel_appointment (Appointment.id alice_cleaning) "Cancelled via chatbot"
       (clinic cancelled_elsewhere)
     = (inr false, clinic cancelled_elsewhere)
  /\ get_response at_10_05 "1" "alice-phone" cancelled_elsewhere
     = (inr cancel_failed_reply, cancelled_elsewhere)
  /\ state <$> sessions (snd (get_response at_10_05 "1" "alice-phone" cancelled_elsewhere))
               !! "alice-phone"
     <> Some START
  /\ sessions moved_after_cancel !! "alice-phone" = Some (confirming_move "alice-phone")
  /\ reschedule_appointment (Appointment.id alice_cleaning) "2026-11-12" "15:00"
       (clinic moved_after_cancel)
     = (inr false, clinic moved_after_cancel)
  /\ get_response at_10_05 "yes" "alice-phone" moved_after_cancel
     = (inr reschedule_failed_reply, moved_after_cancel)
  /\ state <$> sessions (snd (get_response at_10_05 "yes" "alice-phone" moved_after_cancel))
               !! "alice-phone"
     <> Some START.
Proof.
  repeat split;
    first [ compute_done | vm_compute; reflexivity | vm_compute; discriminate ].
Qed.

Lemma refused_commit_witness :
  sessions cancelled_elsewhere !! "alice-phone" = Some (choosing "alice-phone")
  /\ _handle_cancel_confirmation "alice-phone" "1" cancelled_elsewhere
     = (inr cancel_failed_reply, cancelled_elsewhere)
  /\ sessions moved_after_cancel !! "alice-phone" = Some (confirming_move "alice-phone")
  /\ _handle_reschedule_confirmation "alice-phone" "yes" moved_after_cancel
     = (inr reschedule_failed_reply, moved_after_cancel)
  /\ _book_appointment at_10_05 "Alice" (ready "Jane Roe" clinic0)
     = (inr (booking_failed_reply "That time slot is already booked"),
        ready "Jane Roe" clinic0).
Proof.
  assert (H1 : sessions cancelled_elsewhere !! "alice-phone" = Some (choosing "alice-phone"))
    by (vm_compute; reflexivity).
  assert (H2 : sessions moved_after_cancel !! "alice-phone"
               = Some (confirming_move "alice-phone")) by (vm_compute; reflexivity).
  assert (H3 : sessions (ready "Jane Roe" clinic0) !! "Alice"
               = Some (Session DOCTOR_SELECTION "Alice" (full_draft "Jane Roe") [] 0
                         (now at_10_00))) by (vm_compute; reflexivity).
  pose proof (refused_commit_keeps_the_session at_10_05 _ _ _ H1) as (Hcancel & _).
  pose proof (refused_commit_keeps_the_session at_10_05 _ _ _ H2) as (_ & Hmove & _).
  pose proof (refused_commit_keeps_the_session at_10_05 _ _ _ H3) as (_ & _ & Hbook).
  split; [exact H1|].
  split.
  { apply (Hcancel "1" 1 alice_cleaning (clinic cancelled_elsewhere));
      [reflexivity | lia | reflexivity | vm_compute; reflexivity]. }
  split; [exact H2|].
  split.
  { apply (Hmove "yes" alice_cleaning "2026-11-12" "15:00" (clinic moved_after_cancel));
      [compute_done | reflexivity | reflexivity | reflexivity | vm_compute; reflexivity]. }
  eapply Hbook; vm_compute; reflexivity.
Defined.

(** The four outcomes of a booking commit: accepted, refused, an appointment
    that fails validation, a gateway that is down. *)
Lemma booking_commit_witness :
  sessions (ready "John Doe" clinic0) !! "Alice"
  = Some (Session DOCTOR_SELECTION "Alice" (full_draft "John Doe") [] 0 (now at_10_00))
  /\ fst (_book_appointment at_10_05 "Alice" (ready "John Doe" clinic0))
     = inr (booking_success_reply
              (Appointment.mk (uuid at_10_05) "Alice" "+1-555-0100" "John Doe" "2026-11-10"
                 "14:00" CLEANING SCHEDULED (Some "Issue: toothache"))
              (full_draft "John Doe"))
  /\ state <$> sessions (snd (_book_appointment at_10_05 "Alice" (ready "John Doe" clinic0)))
               !! "Alice"
     = Some BOOKING_COMPLETE
  /\ _book_appointment at_10_05 "Alice" (ready "Jane Roe" clinic0)
     = (inr (booking_failed_reply "That time slot is already booked"),
        ready "Jane Roe" clinic0)
  /\ _book_appointment at_10_05 "Alice" (ready "" clinic0)
     = (inr (booking_error_reply
               (ValueError "1 validation errors for Appointment: doctor_name")),
        ready "" clinic0)
  /\ _book_appointment at_10_05 "Alice" (ready "John Doe" (Db [] [] false))
     = (inr (booking_error_reply unreachable), ready "John Doe" (Db [] [] false)).
Proof.
  assert (Hs : forall doctor d,
             sessions (ready doctor d) !! "Alice"
             = Some (Session DOCTOR_SELECTION "Alice" (full_draft doctor) [] 0
                       (now at_10_00)))
    by (intros doctor d; apply lookup_singleton_eq).
  pose proof (booking_commit_outcomes at_10_05 _ _ _ (Hs "John Doe" clinic0))
    as (Haccepted & _).
  pose proof (booking_commit_outcomes at_10_05 _ _ _ (Hs "Jane Roe" clinic0))
    as (_ & Hrefused & _).
  pose proof (booking_commit_outcomes at_10_05 _ _ _ (Hs "" clinic0))
    as (_ & _ & Hinvalid & _).
  pose proof (booking_commit_outcomes at_10_05 _ _ _ (Hs "John Doe" (Db [] [] false)))
    as (_ & _ & _ & Hdown & _).
  split; [apply Hs|].
  edestruct Haccepted as (Hrun & _); [vm_compute; reflexivity..|].
  rewrite Hrun. cbn [fst snd sessions].
  split; [reflexivity|].
  split; [rewrite lookup_insert_eq; reflexivity|].
  split; [eapply Hrefused; vm_compute; reflexivity|].
  split; [apply Hinvalid; vm_compute; reflexivity|].
  eapply Hdown; vm_compute; reflexivity.
Defined.

(** C9.  The sweep is due when the number of sessions in the store is a
    multiple of ten, not every tenth call: of twenty-one calls in a row by
    one user only the first, on the empty store, finds it due, the tenth and
    the twentieth do not; and once ten users have a session it is due on
    every call, three in a row here. *)
Theorem sweep_follows_store_size_not_call_count :
  sweeps one_user_calls fresh = true :: repeat false 20
  /\ sweeps ten_user_calls fresh = [true] ++ repeat false 9 ++ [true; true; true].
Proof. split; vm_compute; reflexivity. Qed.
End Examples.

(** * Further properties of the engine *)

Ltac crunch :=
  repeat (cbn [fst snd sessions clinic]; case_match; simplify_eq);
  cbn [fst snd sessions clinic].

Ltac open_handlers :=
  unfold _handle_greeting, _handle_cancel_start, _handle_reschedule_start,
    _handle_view_start, _handle_intent_detection, _handle_intent_detection_response,
    _handle_problem_assessment, _handle_service_selection, _handle_date_selection,
    _handle_time_selection, _handle_phone_collection, _handle_doctor_selection,
    _handle_confirmation, _book_appointment, _handle_followup,
    _handle_cancel_appointment_selection, _handle_cancel_confirmation,
    _handle_reschedule_appointment_selection,
    _handle_reschedule_appointment_selection_response,
    _handle_reschedule_date_selection, _handle_reschedule_time_selection,
    _handle_reschedule_confirmation, reschedule_commit, _handle_view_appointments,
    _handle_view_followup.

(** Symbolic execution of a handler: every branch of it, each with the world
    it ends in. *)
Ltac exec := repeat (progress (open_handlers; run; crunch)).

Lemma alter_twice {A} (f g : A -> A) (k : string) (m : gmap string A) :
  alter f k (alter g k m) = alter (fun x => f (g x)) k m.
Proof.
  apply map_eq. intros i. destruct (decide (k = i)) as [<-|Hne].
  - rewrite !lookup_alter_eq. destruct (m !! k); reflexivity.
  - rewrite !lookup_alter_ne by exact Hne. reflexivity.
Qed.

(** ** Sessions are independent *)

Section Isolation.
Context {G : Type} `{!ClinicGateway G} `{!Platform}.

Lemma local_refl (key : string) (w : world G) : local_to key w w.
Proof. intros Hk. split; [exact Hk|]. split; [reflexivity|tauto]. Qed.

Lemma local_gateway (key : string) (w : world G) (g : G) :
  local_to key w (World (sessions w) g).
Proof. intros Hk. split; [exact Hk|]. split; [reflexivity|tauto]. Qed.

Lemma keyed_alter (f : session -> session) (key : string) (m : gmap string session) :
  (forall s, user_name (f s) = user_name s) -> keyed m -> keyed (alter f key m).
Proof.
  intros Hf Hk k s. destruct (decide (key = k)) as [<-|Hne].
  - rewrite lookup_alter_eq. destruct (m !! key) as [s0|] eqn:Hs0; [|discriminate].
    intros [= <-]. rewrite Hf. apply (Hk _ _ Hs0).
  - rewrite lookup_alter_ne by exact Hne. apply Hk.
Qed.

Lemma keyed_insert (key : string) (s : session) (m : gmap string session) :
  user_name s = key -> keyed m -> keyed (<[key := s]> m).
Proof.
  intros Hs Hk k s'. destruct (decide (key = k)) as [<-|Hne].
  - rewrite lookup_insert_eq. intros [= <-]. exact Hs.
  - rewrite lookup_insert_ne by exact Hne. apply Hk.
Qed.

Lemma only_at_alter (f : session -> session) (key : string) (m : gmap string session) :
  only_at key m (alter f key m).
Proof.
  split.
  - intros k Hne. apply lookup_alter_ne. congruence.
  - intros [s Hs]. rewrite lookup_alter_eq, Hs. eauto.
Qed.

Lemma only_at_trans (key : string) (m1 m2 m3 : gmap string session) :
  only_at key m1 m2 -> only_at key m2 m3 -> only_at key m1 m3.
Proof.
  intros [H1 H1'] [H2 H2']. split.
  - intros k Hne. rewrite H2, H1 by exact Hne. reflexivity.
  - tauto.
Qed.

Lemma local_alter (key : string) (f : session -> session) (w : world G) (g : G)
    (m : gmap string session) :
  (forall s, user_name (f s) = user_name s) ->
  local_to key w (World m g) -> local_to key w (World (alter f key m) g).
Proof.
  intros Hf Hl Hk. destruct (Hl Hk) as [Hk' Ho]. cbn [sessions] in *. split.
  - apply keyed_alter; assumption.
  - eapply only_at_trans; [exact Ho | apply only_at_alter].
Qed.

Lemma local_insert (key : string) (w : world G) (g : G) (m : gmap string session)
    (s : session) :
  user_name s = key ->
  local_to key w (World m g) -> local_to key w (World (<[key := s]> m) g).
Proof.
  intros Hs Hl Hk. destruct (Hl Hk) as [Hk' [Ho Ho']]. cbn [sessions] in *. split.
  - apply keyed_insert; assumption.
  - split.
    + intros k Hne. rewrite lookup_insert_ne by congruence. apply Ho, Hne.
    + intros _. rewrite lookup_insert_eq. eauto.
Qed.

(** [_handle_followup] stores the new session under the name the old one
    carries, which in a keyed store is its key. *)
Lemma local_followup (key : string) (w : world G) (s : session) (now : Z) :
  sessions w !! key = Some s ->
  local_to key w
    (World (<[user_name s := _create_session now (user_name s)]> (sessions w)) (clinic w)).
Proof.
  intros Hs Hk. rewrite (Hk _ _ Hs).
  apply (local_insert key w (clinic w) (sessions w)); [reflexivity| |exact Hk].
  destruct w; apply local_refl.
Qed.

Ltac local_solve :=
  repeat first
    [ apply local_alter; [reflexivity|]
    | apply local_insert; [reflexivity|]
    | apply local_refl
    | apply local_gateway
    | (apply local_followup; assumption) ].

Lemma respond_local (e : env) (key : string) (st : ConversationState) (inp : string)
    (w : world G) :
  local_to key w (snd (respond e key st inp w)).
Proof.
  unfold respond.
  destruct (decide _); [run; local_solve|].
  destruct (String.eqb _ _); [exec; local_solve|].
  destruct st; [destruct (_detect_intent inp)|..]; exec; local_solve.
Qed.

Lemma keyed_swept (e : env) (m : gmap string session) : keyed m -> keyed (swept e m).
Proof.
  intros Hk k s Hs. apply swept_lookup in Hs as [Hs _]. apply (Hk _ _ Hs).
Qed.

Lemma keyed_entered (e : env) (user_name : string) (m : gmap string session) :
  keyed m -> keyed (entered e user_name m).
Proof.
  intros Hk. unfold entered. destruct (swept e m !! user_name).
  - apply keyed_swept, Hk.
  - apply keyed_insert; [reflexivity | apply keyed_swept, Hk].
Qed.

Lemma entered_others (e : env) (user_name k : string) (m : gmap string session) :
  k <> user_name -> entered e user_name m !! k = swept e m !! k.
Proof.
  intros Hne. unfold entered. destruct (swept e m !! user_name); [reflexivity|].
  apply lookup_insert_ne. congruence.
Qed.

Lemma get_response_keyed (e : env) (user_input user_name : string) (w : world G) :
  keyed (sessions w) -> keyed (sessions (snd (get_response e user_input user_name w))).
Proof.
  intros Hk.
  destruct (entered_user e user_name (sessions w)) as [s0 Hs0].
  rewrite (get_response_respond e user_input user_name w s0 Hs0).
  apply (respond_local e user_name (state s0) (strip user_input)
           (World (entered e user_name (sessions w)) (clinic w))
           (keyed_entered e user_name _ Hk)).
Qed.

(** X1.  Sessions are independent: in a store where every session sits under
    its own user name (the empty store is one), a call by a user leaves the
    store so, leaves that user with a session, and changes no session of
    another user; another user's session is only ever removed, by the sweep
    when it is due and the session is more than an hour old. *)
Theorem call_touches_only_the_callers_session (e : env) (user_input user_name : string)
    (w : world G) :
  keyed (sessions w) ->
  keyed (sessions (snd (get_response e user_input user_name w)))
  /\ is_Some (sessions (snd (get_response e user_input user_name w)) !! user_name)
  /\ forall k s,
       k <> user_name ->
       (sessions (snd (get_response e user_input user_name w)) !! k = Some s <->
          sessions w !! k = Some s
          /\ (sweep_due (sessions w) = true -> expired (now e) 1 s = false)).
Proof.
  intros Hk.
  destruct (entered_user e user_name (sessions w)) as [s0 Hs0].
  rewrite (get_response_respond e user_input user_name w s0 Hs0).
  destruct (respond_local e user_name (state s0) (strip user_input)
              (World (entered e user_name (sessions w)) (clinic w))
              (keyed_entered e user_name _ Hk)) as [Hk' [Hothers Hsome]].
  cbn [sessions] in *.
  split; [exact Hk'|]. split; [apply Hsome; eauto|].
  intros k s Hne. rewrite (Hothers k Hne), (entered_others e user_name k _ Hne).
  apply swept_lookup.
Qed.
End Isolation.

(** From the empty store on, every session sits under its own user name. *)
Lemma run_calls_keyed {G} `{!ClinicGateway G} `{!Platform}
    (calls : list (env * string * string)) (w : world G) :
  keyed (sessions w) -> keyed (sessions (snd (run_calls calls w))).
Proof.
  revert w. induction calls as [|[[e inp] user] calls IH]; intros w Hk; [exact Hk|].
  cbn [run_calls].
  pose proof (get_response_keyed e inp user w Hk) as Hk'.
  destruct (get_response e inp user w) as [r w'].
  specialize (IH w' Hk'). destruct (run_calls calls w') as [rs w'']. exact IH.
Qed.

(** ** No booking is ever completed through [get_response] *)

Section Unbooked.
Context {G : Type} `{!ClinicGateway G} `{!Platform}.

(** Without a time, [Appointment(...)] fails validation. *)
Lemma new_Appointment_needs_time (e : env) (name : string)
    (phone doctor date service : option string) (notes : string) :
  new_Appointment e name phone doctor date None service notes
  = inl (ValueError (validation_message
                       (Appointment_errors e name phone doctor date None service notes))).
Proof.
  unfold new_Appointment.
  destruct (Appointment_errors _ _ _ _ _ _ _ _), phone, doctor, date; reflexivity.
Qed.

Lemma all_unbooked_alter (f : session -> session) (key : string)
    (m : gmap string session) :
  (forall s, m !! key = Some s -> unbooked (f s)) ->
  all_unbooked m -> all_unbooked (alter f key m).
Proof.
  intros Hf Hall k s. destruct (decide (key = k)) as [<-|Hne].
  - rewrite lookup_alter_eq. destruct (m !! key) as [s0|] eqn:Hs0; [|discriminate].
    intros [= <-]. apply Hf. reflexivity.
  - rewrite lookup_alter_ne by exact Hne. apply Hall.
Qed.

Lemma all_unbooked_insert (key : string) (x : session) (m : gmap string session) :
  unbooked x -> all_unbooked m -> all_unbooked (<[key := x]> m).
Proof.
  intros Hx Hall k s. destruct (decide (key = k)) as [<-|Hne].
  - rewrite lookup_insert_eq. intros [= <-]. exact Hx.
  - rewrite lookup_insert_ne by exact Hne. apply Hall.
Qed.

Ltac inv_solve :=
  rewrite ?alter_twice, ?alter_insert_eq;
  first
    [ assumption
    | apply all_unbooked_insert; [repeat split | assumption]
    | apply all_unbooked_alter; [|assumption];
      let s0 := fresh "s0" in
      let Hs0 := fresh "Hs0" in
      intros s0 Hs0;
      match goal with
      | Hall : all_unbooked ?m, Hl : ?m !! _ = Some s0 |- _ =>
          destruct (Hall _ _ Hl) as (? & ? & ? & ?)
      end;
      destruct s0 as [? ? [] ? ? ?]; cbn in *;
      repeat split; first [reflexivity | assumption] ].

Lemma respond_unbooked (e : env) (key : string) (s : session) (inp : string)
    (w : world G) :
  sessions w !! key = Some s ->
  all_unbooked (sessions w) ->
  all_unbooked (sessions (snd (respond e key (state s) inp w))).
Proof.
  intros Hs Hall. pose proof (Hall _ _ Hs) as (Hrest & Hsv & Htm & Hdr).
  unfold respond.
  destruct (decide _); [run; inv_solve|].
  destruct (String.eqb _ _); [exec; inv_solve|].
  destruct (state s) eqn:Hst; try discriminate Hrest;
    [destruct (_detect_intent inp)|..]; exec.
  all: try (rewrite Htm, new_Appointment_needs_time in *; discriminate).
  all: inv_solve.
Qed.

Lemma all_unbooked_entered (e : env) (user_name : string) (m : gmap string session) :
  all_unbooked m -> all_unbooked (entered e user_name m).
Proof.
  intros Hall.
  assert (Hswept : all_unbooked (swept e m)).
  { intros k s Hs. apply swept_lookup in Hs as [Hs _]. apply (Hall _ _ Hs). }
  unfold entered. destruct (swept e m !! user_name); [exact Hswept|].
  apply all_unbooked_insert; [repeat split | exact Hswept].
Qed.

Lemma get_response_unbooked (e : env) (user_input user_name : string) (w : world G) :
  all_unbooked (sessions w) ->
  all_unbooked (sessions (snd (get_response e user_input user_name w))).
Proof.
  intros Hall.
  destruct (entered_user e user_name (sessions w)) as [s0 Hs0].
  rewrite (get_response_respond e user_input user_name w s0 Hs0).
  apply (respond_unbooked e user_name s0 (strip user_input)
           (World (entered e user_name (sessions w)) (clinic w)) Hs0).
  apply all_unbooked_entered, Hall.
Qed.

Lemma run_calls_unbooked (calls : list (env * string * string)) (w : world G) :
  all_unbooked (sessions w) -> all_unbooked (sessions (snd (run_calls calls w))).
Proof.
  revert w. induction calls as [|[[e inp] user] calls IH]; intros w Hall; [exact Hall|].
  cbn [run_calls].
  pose proof (get_response_unbooked e inp user w Hall) as Hall'.
  destruct (get_response e inp user w) as [r w'].
  specialize (IH w' Hall'). destruct (run_calls calls w') as [rs w'']. exact IH.
Qed.

(** X2.  Through [get_response] no booking is ever completed: whatever the
    calls made to a new engine and whatever the gateway answers, no session
    reaches [BOOKING_COMPLETE] (or [CONFIRMATION]) and no draft ever holds a
    service, a time or a doctor.  The state a handler leaves is the state of
    the next prompt, but [get_response] reads it as the step already done, so
    the service, time and doctor handlers are never run. *)
Theorem booking_never_completes (calls : list (env * string * string)) (g : G)
    (k : string) (s : session) :
  sessions (snd (run_calls calls (World ∅ g))) !! k = Some s ->
  unbooked s
  /\ state s <> BOOKING_COMPLETE
  /\ state s <> CONFIRMATION.
Proof.
  intros Hs.
  assert (Hu : unbooked s).
  { apply (run_calls_unbooked calls (World ∅ g)) with (k := k); [|exact Hs].
    intros k' s' Hl. cbn in Hl. rewrite lookup_empty in Hl. discriminate. }
  split; [exact Hu|]. destruct Hu as (Hrest & _).
  split; intros Hst; rewrite Hst in Hrest; discriminate.
Qed.

(** X3.  In such a session the booking commit fails before the gateway is
    asked: a "yes" at the confirmation gets the "Error booking appointment"
    reply, whose validation error names the time, the service and the doctor,
    and the world is unchanged. *)
Theorem engine_commit_fails_validation (e : env) (key user_input : string)
    (w : world G) (s : session) :
  sessions w !! key = Some s ->
  unbooked s ->
  lower (strip user_input) ∈ affirmative ->
  exists errors,
    _handle_confirmation e key user_input w
    = (inr (booking_error_reply (ValueError (validation_message errors))), w)
    /\ "time" ∈ errors /\ "service_type" ∈ errors /\ "doctor_name" ∈ errors.
Proof.
  intros Hs (_ & Hsv & Htm & Hdr) Hyes.
  eexists. split; [|].
  - unfold _handle_confirmation. destruct (decide _) as [_|Hn]; [|contradiction].
    rewrite (booking_commit_cases e key w s Hs), Htm, new_Appointment_needs_time.
    reflexivity.
  - unfold Appointment_errors. rewrite Hsv, Hdr. cbn [field_ok].
    rewrite !elem_of_app. repeat split; eauto 10 using list_elem_of_here.
Qed.
End Unbooked.

(** ** Restart, selections and re-prompts *)

Section Flows.
Context {G : Type} `{!ClinicGateway G} `{!Platform}.

(** X4.  The input "restart", in any case and with blanks around it, in any
    state: the session of the user is replaced by a new one, with an empty
    draft and a new creation time, which is put in [GREETING]; the reply is
    the greeting and the gateway is not called. *)
Theorem restart_replaces_the_session (e : env) (user_input user_name : string)
    (w : world G) :
  lower (strip user_input) = "restart" ->
  get_response e user_input user_name w
  = (inr (_greet_user e user_name),
     World (<[user_name := set_state GREETING (_create_session (now e) user_name)]>
              (entered e user_name (sessions w)))
       (clinic w)).
Proof.
  intros Hcmd.
  destruct (entered_user e user_name (sessions w)) as [s Hs].
  rewrite (get_response_respond e user_input user_name w s Hs).
  unfold respond. rewrite Hcmd.
  destruct (decide _) as [Hin|_]; [exfalso; revert Hin; compute_done|].
  cbn [String.eqb Ascii.eqb Bool.eqb]. unfold _handle_greeting. run.
  rewrite alter_insert_eq, lookup_insert_eq. reflexivity.
Qed.

(** A number outside the list of appointments on offer. *)
Lemma cancel_selection_out_of_range (key user_input : string) (w : world G) (s : session)
    (n : Z) :
  sessions w !! key = Some s ->
  py_int (strip user_input) = Some n ->
  n < 1 \/ Z.of_nat (length (default [] (Draft.available_appointments (data s)))) < n ->
  _handle_cancel_confirmation key user_input w
  = (inr (invalid_selection_reply
            (length (default [] (Draft.available_appointments (data s))))), w).
Proof.
  intros Hs Hint Hrange. unfold _handle_cancel_confirmation, int_of. run.
  rewrite Hint, Hs.
  destruct (Z.ltb_spec (n - 1) 0); [reflexivity|].
  destruct (Z.leb_spec (Z.of_nat (length (default [] (Draft.available_appointments (data s)))))
              (n - 1)); [reflexivity|lia].
Qed.

Lemma reschedule_selection_out_of_range (key user_input : string) (w : world G)
    (s : session) (n : Z) :
  sessions w !! key = Some s ->
  py_int (strip user_input) = Some n ->
  n < 1 \/ Z.of_nat (length (default [] (Draft.available_appointments (data s)))) < n ->
  _handle_reschedule_appointment_selection_response key user_input w
  = (inr (invalid_selection_reply
            (length (default [] (Draft.available_appointments (data s))))), w).
Proof.
  intros Hs Hint Hrange. unfold _handle_reschedule_appointment_selection_response, int_of.
  run. rewrite Hint, Hs.
  destruct (Z.ltb_spec (n - 1) 0); [reflexivity|].
  destruct (Z.leb_spec (Z.of_nat (length (default [] (Draft.available_appointments (data s)))))
              (n - 1)); [reflexivity|lia].
Qed.


Lemma filter_mutable (appointments : list Appointment.t) (apt : Appointment.t) :
  apt ∈ List.filter mutable_status appointments ->
  apt ∈ appointments
  /\ (Appointment.status apt = SCHEDULED \/ Appointment.status apt = CONFIRMED).
Proof.
  rewrite list_elem_of_In, filter_In, <- list_elem_of_In. unfold mutable_status.
  intros [Hin Hst]. split; [exact Hin|].
  destruct (Appointment.status apt); try discriminate; auto.
Qed.

(** X6.  The appointments offered for cancelling or rescheduling are those
    the gateway returned whose status is Scheduled or Confirmed, in the
    gateway's order, and no other: when there is one at least it is this list
    that the session keeps and the state moves on; when the gateway returned
    appointments but none of them is open, nothing is offered and the session
    stays as it is. *)
Theorem only_open_appointments_are_offered (key user_input : string) (w : world G)
    (appointments : list Appointment.t) (g' : G) :
  get_patient_appointments (strip user_input) (clinic w) = (inr appointments, g') ->
  (forall apt,
     apt ∈ List.filter mutable_status appointments ->
     apt ∈ appointments
     /\ (Appointment.status apt = SCHEDULED \/ Appointment.status apt = CONFIRMED))
  /\ (List.filter mutable_status appointments <> [] ->
      snd (_handle_cancel_appointment_selection key user_input w)
      = World (alter (fun s => set_state CANCEL_CONFIRMATION
                                 (set_data (Draft.set_available_appointments
                                              (List.filter mutable_status appointments)) s))
                 key (sessions w)) g'
      /\ snd (_handle_reschedule_appointment_selection key user_input w)
         = World (alter (fun s => set_state RESCHEDULE_APPOINTMENT_SELECTION
                                    (set_data (Draft.set_available_appointments
                                                 (List.filter mutable_status appointments)) s))
                    key (sessions w)) g')
  /\ (List.filter mutable_status appointments = [] ->
      snd (_handle_cancel_appointment_selection key user_input w) = World (sessions w) g'
      /\ snd (_handle_reschedule_appointment_selection key user_input w)
         = World (sessions w) g').
Proof.
  intros Hgw. split; [apply filter_mutable|].
  unfold _handle_cancel_appointment_selection, _handle_reschedule_appointment_selection.
  run. rewrite Hgw. split.
  - intros Hne. destruct appointments as [|a l]; [contradiction|].
    destruct (List.filter mutable_status (a :: l)) as [|b l']; [contradiction|].
    cbn [snd]. rewrite !alter_twice. split; reflexivity.
  - intros Hnone. destruct appointments as [|a l]; [split; reflexivity|].
    rewrite Hnone. split; reflexivity.
Qed.

(** X7.  Cancelling by number: the number n of an appointment on offer makes
    the engine ask the gateway to cancel the n-th one, by its id and with the
    reason "Cancelled via chatbot"; when the gateway agrees the session goes
    to [START] and the reply names the date, time and doctor of that
    appointment.  The draft keeps the list it offered. *)
Theorem cancel_by_number (key user_input : string) (w : world G) (s : session)
    (n : Z) (appointment : Appointment.t) (g' : G) :
  sessions w !! key = Some s ->
  py_int (strip user_input) = Some n ->
  1 <= n ->
  default [] (Draft.available_appointments (data s)) !! Z.to_nat (n - 1)
  = Some appointment ->
  cancel_appointment (Appointment.id appointment) "Cancelled via chatbot" (clinic w)
  = (inr true, g') ->
  _handle_cancel_confirmation key user_input w
  = (inr ("[SUCCESS] Appointment cancelled successfully!" +:+ nl +:+ nl
          +:+ "Cancelled: " +:+ Appointment.date appointment +:+ " at "
          +:+ Appointment.time appointment +:+ " with Dr. "
          +:+ Appointment.doctor_name appointment +:+ nl +:+ nl
          +:+ "If you need to book a new appointment, just let me know!"),
     World (<[key := set_state START s]> (sessions w)) g').
Proof.
  intros Hs Hint Hn Hsel Hgw. unfold _handle_cancel_confirmation, int_of. run.
  rewrite Hint, Hs.
  pose proof (lookup_lt_Some _ _ _ Hsel) as Hlen.
  destruct (Z.ltb_spec (n - 1) 0); [lia|].
  destruct (Z.leb_spec (Z.of_nat (length (default [] (Draft.available_appointments (data s)))))
              (n - 1)); [lia|].
  cbn [orb]. rewrite Hsel, Hgw. cbn [sessions clinic]. do 2 f_equal.
  apply map_eq. intros k. destruct (decide (key = k)) as [<-|Hne].
  - rewrite lookup_alter_eq, lookup_insert_eq, Hs. reflexivity.
  - rewrite lookup_alter_ne, lookup_insert_ne by exact Hne. reflexivity.
Qed.

(** X8.  Rescheduling: the number n of an appointment on offer stores the
    n-th one as the selected appointment and moves to
    [RESCHEDULE_DATE_SELECTION]; at the confirmation, a "yes" asks the gateway
    to move that appointment, by its id, to the new date and time of the
    draft, and when the gateway agrees the session goes to [START]. *)
Theorem reschedule_selects_and_commits (key user_input : string) (w : world G)
    (s : session) :
  sessions w !! key = Some s ->
  (forall n appointment,
     py_int (strip user_input) = Some n ->
     1 <= n ->
     default [] (Draft.available_appointments (data s)) !! Z.to_nat (n - 1)
     = Some appointment ->
     snd (_handle_reschedule_appointment_selection_response key user_input w)
     = World (<[key := set_state RESCHEDULE_DATE_SELECTION
                         (set_data (Draft.set_selected_appointment appointment) s)]>
                (sessions w)) (clinic w))
  /\ (forall appointment new_date new_time g',
        lower (strip user_input) ∈ affirmative ->
        Draft.selected_appointment (data s) = Some appointment ->
        Draft.new_date (data s) = Some new_date ->
        Draft.new_time (data s) = Some new_time ->
        reschedule_appointment (Appointment.id appointment) new_date new_time (clinic w)
        = (inr true, g') ->
        snd (_handle_reschedule_confirmation key user_input w)
        = World (<[key := set_state START s]> (sessions w)) g').
Proof.
  intros Hs. split.
  - intros n appointment Hint Hn Hsel.
    unfold _handle_reschedule_appointment_selection_response, int_of. run.
    rewrite Hint, Hs.
    pose proof (lookup_lt_Some _ _ _ Hsel) as Hlen.
    destruct (Z.ltb_spec (n - 1) 0); [lia|].
    destruct (Z.leb_spec
                (Z.of_nat (length (default [] (Draft.available_appointments (data s)))))
                (n - 1)); [lia|].
    cbn [orb]. rewrite Hsel. cbn [snd sessions clinic]. f_equal. rewrite alter_twice.
    apply map_eq. intros k. destruct (decide (key = k)) as [<-|Hne].
    + rewrite lookup_alter_eq, lookup_insert_eq, Hs. reflexivity.
    + rewrite lookup_alter_ne, lookup_insert_ne by exact Hne. reflexivity.
  - intros appointment new_date new_time g' Hyes Hsel Hdate Htime Hgw.
    unfold _handle_reschedule_confirmation.
    destruct (decide _) as [_|Hn]; [|contradiction].
    unfold reschedule_commit, getitem. run.
    rewrite Hs, Hsel, Hdate, Htime, Hgw. cbn [snd sessions clinic]. f_equal.
    apply map_eq. intros k. destruct (decide (key = k)) as [<-|Hne].
    + rewrite lookup_alter_eq, lookup_insert_eq, Hs. reflexivity.
    + rewrite lookup_alter_ne, lookup_insert_ne by exact Hne. reflexivity.
Qed.

End Flows.

(** ** Validators and the appointment model *)

(** X10.  What the engine's validators accept, the validators of the
    [Appointment] model accept too: a phone number, date or time that passed
    its prompt is stored trimmed, and the trimmed text satisfies the length
    bounds of [patient_phone], [validate_date] and [validate_time]. *)
Theorem accepted_answers_pass_the_model (now : Z) (user_input : string) :
  (_is_valid_phone user_input = true -> len_between 7 20 (strip user_input) = true)
  /\ (_is_valid_date now user_input = inr (true, None) ->
      validate_date (date_of now) (strip user_input) = true)
  /\ (fst (_is_valid_time user_input) = true -> validate_time (strip user_input) = true).
Proof.
  split; [|split].
  - unfold _is_valid_phone, len_between.
    intros [[_ Hlo]%andb_true_iff Hhi]%andb_true_iff. rewrite Hlo, Hhi. reflexivity.
  - unfold _is_valid_date, validate_date.
    destruct (strptime_ymd (strip user_input)) as [[[y m] d]|]; [|discriminate].
    destruct (ymd2ord y m d <? date_of now); [discriminate|reflexivity].
  - unfold _is_valid_time, validate_time.
    destruct (strptime_hm (strip user_input)) as [[hour minute]|]; [|discriminate].
    destruct ((hour <? 8) || (20 <=? hour)); [discriminate|reflexivity].
Qed.

(** ** The time to live of a session *)

Section Expiry.
Context {G : Type} `{!ClinicGateway G} `{!Platform}.

(** X11.  A session is dropped only by a sweep: when the sweep is due and the
    session of the caller is more than an hour old, the call starts from a
    new session in [START], with an empty draft; when the sweep is not due
    the call goes on with the session it finds, however old it is; and a
    session that is exactly an hour old is kept. *)
Theorem expired_session_is_dropped_by_a_due_sweep (e : env)
    (user_input user_name : string) (w : world G) (s : session) :
  sessions w !! user_name = Some s ->
  (sweep_due (sessions w) = true ->
   MICROS_PER_HOUR < now e - created_at s ->
   get_response e user_input user_name w
   = respond e user_name START (strip user_input)
       (World (<[user_name := _create_session (now e) user_name]>
                 (swept e (sessions w))) (clinic w))
   /\ swept e (sessions w) !! user_name = None)
  /\ (sweep_due (sessions w) = false \/ now e - created_at s <= MICROS_PER_HOUR ->
      get_response e user_input user_name w
      = respond e user_name (state s) (strip user_input)
          (World (swept e (sessions w)) (clinic w))
      /\ swept e (sessions w) !! user_name = Some s).
Proof.
  intros Hs. split.
  - intros Hdue Hold.
    assert (Hgone : swept e (sessions w) !! user_name = None).
    { destruct (swept e (sessions w) !! user_name) as [s'|] eqn:Hl; [|reflexivity].
      apply swept_lookup in Hl as [Hl Hyoung]. rewrite Hs in Hl. injection Hl as <-.
      specialize (Hyoung Hdue). unfold expired in Hyoung. lia. }
    split; [|exact Hgone].
    rewrite (get_response_respond e user_input user_name w _
               (entered_newcomer e user_name _ Hgone)).
    unfold entered. rewrite Hgone. reflexivity.
  - intros Hkeep.
    assert (Hkept : swept e (sessions w) !! user_name = Some s).
    { apply swept_lookup. split; [exact Hs|]. intros Hdue. unfold expired.
      destruct Hkeep as [Hno|Hyoung]; [congruence|lia]. }
    split; [|exact Hkept].
    rewrite (get_response_respond e user_input user_name w _
               (entered_survivor e user_name _ _ Hkept)).
    unfold entered. rewrite Hkept. reflexivity.
Qed.
End Expiry.

(** ** Service and doctor *)

Section Choices.
Context {G : Type} `{!ClinicGateway G} `{!Platform}.

Lemma available_service_is_a_member (i : nat) (v : string) :
  available_services !! i = Some v -> exists member, v = ServiceType_value member.
Proof.
  unfold available_services. rewrite list_lookup_fmap.
  destruct (ServiceType_members !! i) as [member|]; [|discriminate].
  intros [= <-]. eauto.
Qed.


(** X13.  The doctor prompt: the word "any", in any case, stores the doctor
    "Any" without asking the gateway; any other input is looked up as it was
    typed, and when the gateway knows no such doctor the reply says so and
    the session is unchanged; a doctor the gateway finds is stored under the
    full name the gateway gives.  In the first and the last case the state
    moves to [CONFIRMATION]. *)
Theorem doctor_prompt_outcomes (key user_input : string) (w : world G) :
  (lower (strip user_input) = "any" ->
   snd (_handle_doctor_selection key user_input w)
   = World (alter (fun s => set_state CONFIRMATION (set_data (Draft.set_doctor_name "Any") s))
              key (sessions w)) (clinic w))
  /\ (forall g',
        lower (strip user_input) <> "any" ->
        get_doctor_by_name user_input (clinic w) = (inr None, g') ->
        _handle_doctor_selection key user_input w
        = (inr ("[ERROR] Doctor '" +:+ user_input +:+ "' not found. Please try:" +:+ nl
                +:+ "  - 'any' for automatic assignment" +:+ nl
                +:+ "  - Full doctor name (e.g., 'John Smith')"),
           World (sessions w) g'))
  /\ (forall doctor g',
        lower (strip user_input) <> "any" ->
        get_doctor_by_name user_input (clinic w) = (inr (Some doctor), g') ->
        snd (_handle_doctor_selection key user_input w)
        = World (alter (fun s => set_state CONFIRMATION
                                   (set_data (Draft.set_doctor_name (Doctor.full_name doctor)) s))
                   key (sessions w)) g').
Proof.
  unfold _handle_doctor_selection. split; [|split].
  - intros ->. cbn [String.eqb Ascii.eqb Bool.eqb]. run.
    destruct (alter _ key _ !! key); cbn [snd]; rewrite alter_twice; reflexivity.
  - intros g' Hne Hgw.
    destruct (String.eqb_spec (lower (strip user_input)) "any") as [Heq|_];
      [contradiction|].
    run. rewrite Hgw. reflexivity.
  - intros doctor g' Hne Hgw.
    destruct (String.eqb_spec (lower (strip user_input)) "any") as [Heq|_];
      [contradiction|].
    run. rewrite Hgw. cbn [sessions clinic].
    destruct (alter _ key _ !! key); cbn [snd]; rewrite alter_twice; reflexivity.
Qed.
End Choices.

(** ** Every call gets a reply *)

Section Replies.
Context {G : Type} `{!ClinicGateway G} `{!Platform}.
Variable healthy : G -> Prop.
Hypothesis Hgateway : dependable healthy.

Lemma datetime_keys_total (appointments : list Appointment.t) :
  Forall (fun apt => is_Some (Appointment.get_datetime apt)) appointments ->
  exists keyed, datetime_keys appointments = inr keyed.
Proof.
  induction 1 as [|apt l [k Hk] _ [ks IH]]; [eexists; reflexivity|].
  cbn [datetime_keys]. rewrite Hk, IH. eauto.
Qed.

Lemma valid_date_total (e : env) (user_input : string) :
  clock_in_range e -> exists r, _is_valid_date (now e) user_input = inr r.
Proof.
  unfold clock_in_range, _is_valid_date. intros Hclock.
  destruct (strptime_ymd _) as [[[y m] d]|]; [|eauto].
  destruct (_ <? _); [eauto|].
  destruct (Z.ltb_spec MAXORDINAL (date_of (now e) + 90)); [lia|].
  destruct (_ <? _); eauto.
Qed.

Lemma all_staged_alter (f : session -> session) (key : string)
    (m : gmap string session) :
  (forall s, m !! key = Some s -> staged (f s) = true) ->
  all_staged m -> all_staged (alter f key m).
Proof.
  intros Hf Hall k s. destruct (decide (key = k)) as [<-|Hne].
  - rewrite lookup_alter_eq. destruct (m !! key) as [s0|] eqn:Hs0; [|discriminate].
    intros [= <-]. apply Hf. reflexivity.
  - rewrite lookup_alter_ne by exact Hne. apply Hall.
Qed.

Lemma all_staged_insert (key : string) (x : session) (m : gmap string session) :
  staged x = true -> all_staged m -> all_staged (<[key := x]> m).
Proof.
  intros Hx Hall k s. destruct (decide (key = k)) as [<-|Hne].
  - rewrite lookup_insert_eq. intros [= <-]. exact Hx.
  - rewrite lookup_insert_ne by exact Hne. apply Hall.
Qed.

Ltac ask_gateway :=
  repeat match goal with
  | Hh : healthy ?g, H : get_patient_appointments ?q ?g = _ |- _ =>
      let Heq := fresh "Heq" in
      destruct (proj1 Hgateway q g Hh) as (? & ? & Heq & ? & ?);
      rewrite Heq in H; clear Heq; simplify_eq
  | Hh : healthy ?g, H : get_all_doctors ?g = _ |- _ =>
      let Heq := fresh "Heq" in
      destruct (proj1 (proj2 Hgateway) g Hh) as (? & ? & Heq & ?);
      rewrite Heq in H; clear Heq; simplify_eq
  | Hh : healthy ?g, H : cancel_appointment ?i ?r ?g = _ |- _ =>
      let Heq := fresh "Heq" in
      destruct (proj1 (proj2 (proj2 Hgateway)) i r g Hh) as (? & ? & Heq & ?);
      rewrite Heq in H; clear Heq; simplify_eq
  | Hh : healthy ?g, H : reschedule_appointment ?i ?d ?t ?g = _ |- _ =>
      let Heq := fresh "Heq" in
      destruct (proj2 (proj2 (proj2 Hgateway)) i d t g Hh) as (? & ? & Heq & ?);
      rewrite Heq in H; clear Heq; simplify_eq
  end.

Ltac staged_solve :=
  rewrite ?alter_twice, ?alter_insert_eq;
  first
    [ assumption
    | apply all_staged_insert; [reflexivity | assumption]
    | apply all_staged_alter; [|assumption];
      let s0 := fresh "s0" in
      let Hs0 := fresh "Hs0" in
      intros s0 Hs0; simplify_eq;
      match goal with
      | s1 : session |- _ => destruct s1 as [? ? [] ? ? ?]; cbn in *
      end;
      simplify_eq; cbn; first [reflexivity | assumption | auto with bool] ].

Ltac impossible :=
  exfalso;
  first
    [ match goal with
      | Hr : _ || _ = false, Hl : _ !! _ = None |- _ =>
          apply lookup_ge_None in Hl;
          apply orb_false_iff in Hr as [?%Z.ltb_ge ?%Z.leb_gt]; lia
      end
    | match goal with
      | Hk : datetime_keys ?l = inl _, Hf : Forall _ ?l |- _ =>
          destruct (datetime_keys_total l Hf); congruence
      end
    | match goal with
      | s1 : session |- _ => destruct s1 as [? ? [] ? ? ?]
      end;
      cbn in *; simplify_eq; cbn in *; congruence ].

Lemma respond_replies (e : env) (key : string) (s : session) (inp : string)
    (w : world G) :
  clock_in_range e ->
  sessions w !! key = Some s ->
  unbooked s ->
  all_staged (sessions w) ->
  healthy (clinic w) ->
  replied (fst (respond e key (state s) inp w))
  /\ healthy (clinic (snd (respond e key (state s) inp w)))
  /\ all_staged (sessions (snd (respond e key (state s) inp w))).
Proof.
  intros Hclock Hs (Hrest & Hsv & Htm & Hdr) Hall Hh.
  pose proof (Hall _ _ Hs) as Hst0. unfold staged in Hst0.
  destruct (valid_date_total e inp Hclock) as [checked Hdate].
  unfold respond.
  destruct (decide _); [|destruct (String.eqb _ _)]; [| |destruct (state s) eqn:Hst;
    try discriminate Hrest; [destruct (_detect_intent inp)|..] ].
  all: repeat (progress (open_handlers; unfold int_of, getitem; run;
                         rewrite ?lookup_alter_eq, ?lookup_insert_eq, ?Hs, ?Hdate, ?Htm,
                           ?new_Appointment_needs_time;
                         cbn [fmap option_fmap option_map fst snd sessions clinic];
                         try (case_match; simplify_eq))).
  all: ask_gateway.
  all: cbn [fst snd sessions clinic replied].
  all: try (split; [exact I|split; [assumption|staged_solve]]).
  all: impossible.
Qed.

Lemma all_staged_entered (e : env) (user_name : string) (m : gmap string session) :
  all_staged m -> all_staged (entered e user_name m).
Proof.
  intros Hall.
  assert (Hswept : all_staged (swept e m)).
  { intros k s Hs. apply swept_lookup in Hs as [Hs _]. apply (Hall _ _ Hs). }
  unfold entered. destruct (swept e m !! user_name); [exact Hswept|].
  apply all_staged_insert; [reflexivity | exact Hswept].
Qed.

Lemma get_response_replies (e : env) (user_input user_name : string) (w : world G) :
  clock_in_range e ->
  all_unbooked (sessions w) ->
  all_staged (sessions w) ->
  healthy (clinic w) ->
  replied (fst (get_response e user_input user_name w))
  /\ healthy (clinic (snd (get_response e user_input user_name w)))
  /\ all_staged (sessions (snd (get_response e user_input user_name w))).
Proof.
  intros Hclock Hunbooked Hstaged Hh.
  destruct (entered_user e user_name (sessions w)) as [s0 Hs0].
  rewrite (get_response_respond e user_input user_name w s0 Hs0).
  apply (respond_replies e user_name s0 (strip user_input)
           (World (entered e user_name (sessions w)) (clinic w)) Hclock Hs0).
  - apply (all_unbooked_entered e user_name _ Hunbooked _ _ Hs0).
  - apply all_staged_entered, Hstaged.
  - exact Hh.
Qed.

Lemma run_calls_replies (calls : list (env * string * string)) (w : world G) :
  Forall (fun c => clock_in_range (fst (fst c))) calls ->
  all_unbooked (sessions w) ->
  all_staged (sessions w) ->
  healthy (clinic w) ->
  Forall replied (fst (run_calls calls w)).
Proof.
  revert w. induction calls as [|[[e inp] user] calls IH];
    intros w Hclocks Hunbooked Hstaged Hh; [constructor|].
  apply Forall_cons in Hclocks as [Hclock Hclocks]. cbn [fst] in Hclock.
  cbn [run_calls].
  pose proof (get_response_replies e inp user w Hclock Hunbooked Hstaged Hh)
    as (Hr & Hh' & Hstaged').
  pose proof (get_response_unbooked e inp user w Hunbooked) as Hunbooked'.
  destruct (get_response e inp user w) as [r w'].
  specialize (IH w' Hclocks Hunbooked' Hstaged' Hh').
  destruct (run_calls calls w') as [rs w'']. constructor; assumption.
Qed.

End Replies.

(** ** The list of appointments in date order *)

Section Sorting.
Context {A : Type}.

Lemma insert_by_key_perm (x : Z * A) (l : list (Z * A)) : insert_by_key x l ≡ₚ x :: l.
Proof.
  induction l as [|y l IH]; [reflexivity|].
  cbn [insert_by_key]. destruct (fst x <=? fst y); [reflexivity|].
  rewrite IH. apply Permutation_swap.
Qed.

Lemma sort_by_key_perm (l : list (Z * A)) : sort_by_key l ≡ₚ l.
Proof.
  induction l as [|x l IH]; [reflexivity|].
  cbn [sort_by_key fold_right]. fold (sort_by_key l).
  rewrite insert_by_key_perm, IH. reflexivity.
Qed.

Lemma insert_by_key_sorted (x : Z * A) (l : list (Z * A)) :
  StronglySorted (fun a b => fst a <= fst b) l ->
  StronglySorted (fun a b => fst a <= fst b) (insert_by_key x l).
Proof.
  induction 1 as [|y l Hl IH Hy]; [repeat constructor|].
  cbn [insert_by_key]. destruct (Z.leb_spec (fst x) (fst y)) as [Hle|Hgt].
  - constructor; [constructor; assumption|].
    constructor; [exact Hle|].
    eapply Forall_impl; [exact Hy|]. cbn. intros z Hz. lia.
  - constructor; [exact IH|].
    rewrite insert_by_key_perm. constructor; [lia | exact Hy].
Qed.

Lemma sort_by_key_sorted (l : list (Z * A)) :
  StronglySorted (fun a b => fst a <= fst b) (sort_by_key l).
Proof.
  induction l as [|x l IH]; [constructor|].
  cbn [sort_by_key fold_right]. apply insert_by_key_sorted, IH.
Qed.

(** An element is put in front of the first one whose key is not smaller:
    it passes only elements of another key. *)
Lemma insert_by_key_stable (k : Z) (x : Z * A) (l : list (Z * A)) :
  filter (fun y => fst y = k) (insert_by_key x l) = filter (fun y => fst y = k) (x :: l).
Proof.
  induction l as [|y l IH]; [reflexivity|].
  cbn [insert_by_key]. destruct (Z.leb_spec (fst x) (fst y)) as [Hle|Hgt]; [reflexivity|].
  rewrite filter_cons, IH, !filter_cons.
  destruct (decide (fst y = k)), (decide (fst x = k)); try reflexivity. lia.
Qed.

Lemma sort_by_key_stable (k : Z) (l : list (Z * A)) :
  filter (fun y => fst y = k) (sort_by_key l) = filter (fun y => fst y = k) l.
Proof.
  induction l as [|x l IH]; [reflexivity|].
  cbn [sort_by_key fold_right]. fold (sort_by_key l).
  rewrite insert_by_key_stable, !filter_cons, IH. reflexivity.
Qed.
End Sorting.

Lemma datetime_keys_spec (appointments : list Appointment.t)
    (keyed : list (Z * Appointment.t)) :
  datetime_keys appointments = inr keyed ->
  map snd keyed = appointments
  /\ Forall (fun ka => Appointment.get_datetime (snd ka) = Some (fst ka)) keyed.
Proof.
  revert keyed. induction appointments as [|apt l IH]; intros keyed.
  - intros [= <-]. split; constructor.
  - cbn [datetime_keys]. destruct (Appointment.get_datetime apt) as [k|] eqn:Hk;
      [|discriminate].
    destruct (datetime_keys l) as [err|ks]; [discriminate|].
    intros [= <-]. destruct (IH ks eq_refl) as [Hmap Hkeys].
    split; [cbn; rewrite Hmap; reflexivity|]. constructor; assumption.
Qed.

Lemma filter_by_datetime (k : Z) (keyed : list (Z * Appointment.t)) :
  Forall (fun ka => Appointment.get_datetime (snd ka) = Some (fst ka)) keyed ->
  filter (fun apt => Appointment.get_datetime apt = Some k) (map snd keyed)
  = map snd (filter (fun ka => fst ka = k) keyed).
Proof.
  induction 1 as [|ka l Hka _ IH]; [reflexivity|].
  cbn [map]. rewrite !filter_cons, IH.
  destruct (decide (fst ka = k)) as [Heq|Hne];
    destruct (decide (Appointment.get_datetime (snd ka) = Some k)) as [Heq'|Hne'];
    try reflexivity; exfalso; rewrite Hka in *; congruence.
Qed.

Section Listing.
Context {G : Type} `{!ClinicGateway G} `{!Platform}.

(** X15.  The appointments of a patient are listed by date and time: the
    list shown is a rearrangement of the list the gateway returned, in
    ascending order of [get_datetime], and appointments of the same date and
    time keep the order the gateway gave them.  The session moves to
    [VIEW_RESULTS]. *)
Theorem appointments_are_listed_in_date_order (key user_input : string)
    (w : world G) (appointments : list Appointment.t) (g' : G)
    (keyed : list (Z * Appointment.t)) :
  get_patient_appointments (strip user_input) (clinic w) = (inr appointments, g') ->
  appointments <> [] ->
  datetime_keys appointments = inr keyed ->
  _handle_view_appointments key user_input w
  = (inr ("[APPOINTMENTS] Here are your appointments:" +:+ nl +:+ nl
          +:+ String.concat "" (map view_entry (map snd (sort_by_key keyed)))
          +:+ "Would you like to book a new appointment, cancel, or reschedule any of these? (book/cancel/reschedule/no)"),
     World (alter (set_state VIEW_RESULTS) key (sessions w)) g')
  /\ map snd (sort_by_key keyed) ≡ₚ appointments
  /\ StronglySorted
       (fun a b => exists ka kb,
          Appointment.get_datetime a = Some ka /\ Appointment.get_datetime b = Some kb
          /\ ka <= kb)
       (map snd (sort_by_key keyed))
  /\ forall k,
       filter (fun apt => Appointment.get_datetime apt = Some k) (map snd (sort_by_key keyed))
       = filter (fun apt => Appointment.get_datetime apt = Some k) appointments.
Proof.
  intros Hgw Hne Hkeys.
  destruct (datetime_keys_spec appointments keyed Hkeys) as [Hmap Hkeyed].
  assert (Hsorted_keys :
            Forall (fun ka => Appointment.get_datetime (snd ka) = Some (fst ka))
              (sort_by_key keyed)).
  { rewrite sort_by_key_perm. exact Hkeyed. }
  split; [|split; [|split]].
  - unfold _handle_view_appointments. run. rewrite Hgw.
    destruct appointments as [|apt l]; [contradiction|].
    cbn [sessions clinic]. rewrite Hkeys, map_map. reflexivity.
  - rewrite sort_by_key_perm, Hmap. reflexivity.
  - pose proof (sort_by_key_sorted keyed) as Hsorted.
    induction Hsorted as [|ka l Hl IH Hka]; [constructor|].
    apply Forall_cons in Hsorted_keys as [Hk Hks].
    cbn [map]. constructor; [apply IH, Hks|].
    apply Forall_map. rewrite Forall_forall in Hka, Hks. apply Forall_forall.
    intros kb Hin. exists (fst ka), (fst kb).
    split; [exact Hk|]. split; [apply Hks, Hin | apply Hka, Hin].
  - intros k. rewrite (filter_by_datetime k _ Hsorted_keys), sort_by_key_stable,
      <- (filter_by_datetime k _ Hkeyed), Hmap. reflexivity.
Qed.
End Listing.

(** ** The registry *)

Section ClinicServiceProperties.
Import ClinicService.

Lemma license_taken (doctor : Doctor) (c : t) :
  existsb (fun d => String.eqb (license_number d) (license_number doctor)) (_doctors c)
  = true
  <-> license_number doctor ∈ map license_number (_doctors c).
Proof.
  rewrite existsb_exists, list_elem_of_In, in_map_iff. split.
  - intros (d & Hin & Heq%String.eqb_eq). eauto.
  - intros (d & Heq & Hin). exists d. split; [exact Hin|]. apply String.eqb_eq, Heq.
Qed.

Lemma add_doctor_unique (doctor : Doctor) (c : t) :
  NoDup (map license_number (_doctors c)) ->
  NoDup (map license_number (_doctors (snd (add_doctor doctor c)))).
Proof.
  intros Hnd. unfold add_doctor.
  destruct (existsb _ _) eqn:Htaken; [exact Hnd|].
  cbn [snd _doctors]. rewrite map_app. apply NoDup_app. split; [exact Hnd|].
  split; [|apply NoDup_singleton].
  intros x Hx [<-|[]]%list_elem_of_In. apply license_taken in Hx. congruence.
Qed.

Lemma register_unique (c : t) (r : registration) :
  NoDup (map license_number (_doctors c)) ->
  NoDup (map license_number (_doctors (register c r))).
Proof.
  destruct r as [doctor|patient]; cbn [register].
  - apply add_doctor_unique.
  - unfold add_patient. destruct (existsb _ _); intros Hnd; exact Hnd.
Qed.

(** X16.  However doctors and patients are registered with a new service,
    no two registered doctors have the same license number; a doctor is
    refused exactly when the number is taken, and a refusal changes nothing;
    an accepted doctor goes to the end of the list. *)
Theorem license_numbers_stay_unique (rs : list registration) (doctor : Doctor) :
  let c := fold_left register rs init in
  NoDup (map license_number (_doctors c))
  /\ (fst (add_doctor doctor c) = false
      <-> license_number doctor ∈ map license_number (_doctors c))
  /\ (fst (add_doctor doctor c) = false -> snd (add_doctor doctor c) = c)
  /\ (fst (add_doctor doctor c) = true ->
      snd (add_doctor doctor c) = mk (_doctors c ++ [doctor]) (_patients c)).
Proof.
  intros c. split; [|split; [|split]].
  - subst c. assert (Hinit : NoDup (map license_number (_doctors init))) by constructor.
    revert Hinit. generalize init. induction rs as [|r rs IH]; intros c0 Hnd; [exact Hnd|].
    cbn [fold_left]. apply IH, register_unique, Hnd.
  - rewrite <- license_taken. unfold add_doctor.
    destruct (existsb _ _); cbn [fst]; split; congruence.
  - unfold add_doctor. destruct (existsb _ _); [reflexivity|discriminate].
  - unfold add_doctor. destruct (existsb _ _); [discriminate|reflexivity].
Qed.

Lemma lower_char_idemp (c : ascii) : lower_char (lower_char c) = lower_char c.
Proof. destruct c as [[] [] [] [] [] [] [] []]; reflexivity. Qed.

Lemma lower_idemp (s : string) : lower (lower s) = lower s.
Proof.
  induction s as [|c s IH]; [reflexivity|].
  rewrite !lower_cons, lower_char_idemp, IH. reflexivity.
Qed.

Lemma prefix_refl (s : string) : String.prefix s s = true.
Proof.
  induction s as [|c s IH]; [reflexivity|].
  simpl. destruct (ascii_dec c c); [exact IH | congruence].
Qed.

Lemma contains_refl (s : string) : contains s s = true.
Proof. apply contains_prefix, prefix_refl. Qed.

Lemma contains_empty (s : string) : contains "" s = true.
Proof. apply contains_prefix. destruct s; reflexivity. Qed.

(** X17.  A doctor who has just been registered is found by the license
    number, the first name or the last name, whatever the letter case of the
    search term, and by the empty term, which finds every doctor; the
    doctors the term found before are still found. *)
Theorem added_doctor_is_found (doctor : Doctor) (c : t) (term : string) :
  fst (add_doctor doctor c) = true ->
  lower term = lower (license_number doctor)
  \/ lower term = lower (first_name (doctor_person doctor))
  \/ lower term = lower (last_name (doctor_person doctor))
  \/ term = "" ->
  doctor ∈ find_doctor term (snd (add_doctor doctor c))
  /\ (forall d, d ∈ find_doctor term c -> d ∈ find_doctor term (snd (add_doctor doctor c)))
  /\ find_doctor "" (snd (add_doctor doctor c)) = _doctors c ++ [doctor].
Proof.
  unfold add_doctor. destruct (existsb _ _); [discriminate|]. intros _ Hterm.
  unfold find_doctor. cbn [snd _doctors]. split; [|split].
  - rewrite list_elem_of_In, filter_In. split; [apply in_or_app; right; left; reflexivity|].
    destruct Hterm as [->|[->|[->| ->]]];
      rewrite ?contains_refl, ?orb_true_r; try reflexivity.
    cbn [lower str_map]. rewrite contains_empty. reflexivity.
  - intros d. rewrite !list_elem_of_In, !filter_In. intros [Hin Hmatch].
    split; [apply in_or_app; left; exact Hin | exact Hmatch].
  - cbn [lower str_map]. apply forallb_filter_id, forallb_forall. intros d _.
    rewrite contains_empty. reflexivity.
Qed.

Lemma patient_known (patient : Patient) (c : t) :
  existsb (fun p => String.eqb (full_name (patient_person p))
                      (full_name (patient_person patient))
                    && (age p =? age patient))
    (_patients c) = true
  <-> exists p, p ∈ _patients c
                /\ full_name (patient_person p) = full_name (patient_person patient)
                /\ age p = age patient.
Proof.
  rewrite existsb_exists. split.
  - intros (p & Hin & [Hn%String.eqb_eq Ha%Z.eqb_eq]%andb_true_iff).
    exists p. rewrite list_elem_of_In. auto.
  - intros (p & Hin & Hn & Ha). exists p. rewrite <- list_elem_of_In.
    split; [exact Hin|]. apply andb_true_iff. split; [apply String.eqb_eq, Hn|].
    apply Z.eqb_eq, Ha.
Qed.

(** X18.  A patient is refused exactly when a registered patient has the
    same full name and the same age, whatever the rest of the record and
    however the full name splits into first and last name; a refusal changes
    nothing, an accepted patient goes to the end of the list, and the
    statistics count one patient more exactly when the patient is accepted,
    the number of doctors unchanged. *)
Theorem patients_are_told_apart_by_name_and_age (patient : Patient) (c : t) :
  (fst (add_patient patient c) = false
   <-> exists p, p ∈ _patients c
                 /\ full_name (patient_person p) = full_name (patient_person patient)
                 /\ age p = age patient)
  /\ snd (add_patient patient c)
     = (if fst (add_patient patient c)
        then mk (_doctors c) (_patients c ++ [patient]) else c)
  /\ get_clinic_stats (snd (add_patient patient c))
     = (fst (get_clinic_stats c),
        (snd (get_clinic_stats c) + (if fst (add_patient patient c) then 1 else 0))%nat).
Proof.
  rewrite <- patient_known. unfold add_patient, get_clinic_stats.
  destruct (existsb _ _); cbn [fst snd _doctors _patients].
  - split; [split; congruence|]. split; [reflexivity|].
    rewrite Nat.add_0_r. reflexivity.
  - split; [split; congruence|]. split; [reflexivity|].
    rewrite length_app. reflexivity.
Qed.
End ClinicServiceProperties.

(** ** The life of an appointment *)

Section AppointmentMethodsProperties.
Import AppointmentMethods.

Lemma status_eqb_eq (a b : AppointmentStatus) : status_eqb a b = true <-> a = b.
Proof. destruct a, b; cbn; split; congruence. Qed.

(** X19.  [COMPLETED] is final and [CANCELLED] is not.  A completed
    appointment is left as it is by [confirm], [cancel] and
    [mark_completed]; a second [cancel] keeps the first reason and [confirm]
    does not revive a cancelled appointment; but [mark_completed] turns any
    appointment that is not completed and whose time has passed into a
    completed one, a cancelled one too, which keeps its cancellation
    reason. *)
Theorem completed_is_final_cancelled_is_not (now : Z) (reason reason' : string) (a : t) :
  (status a = COMPLETED ->
   confirm a = a /\ cancel reason a = a /\ mark_completed now a = inr a)
  /\ cancel reason' (cancel reason a) = cancel reason a
  /\ confirm (cancel reason a) = cancel reason a
  /\ (forall t,
        status a <> COMPLETED ->
        get_datetime a = inr t ->
        t < now ->
        mark_completed now (cancel reason a) = inr (set_status COMPLETED (cancel reason a))
        /\ status (cancel reason a) = CANCELLED
        /\ cancellation_reason (set_status COMPLETED (cancel reason a))
           = cancellation_reason (cancel reason a)).
Proof.
  split; [|split; [|split]].
  - intros Hst. unfold confirm, cancel, mark_completed, is_overdue. rewrite Hst.
    repeat split.
  - unfold cancel. destruct a as [[i pn pp dn d tm sv [] nt] cr]; reflexivity.
  - unfold cancel, confirm. destruct a as [[i pn pp dn d tm sv [] nt] cr]; reflexivity.
  - intros t Hst Hdt Hpast.
    assert (Hcancelled : status (cancel reason a) = CANCELLED).
    { unfold cancel. destruct a as [[i pn pp dn d tm sv [] nt] cr]; try reflexivity.
      contradiction. }
    assert (Hsame : get_datetime (cancel reason a) = inr t).
    { rewrite <- Hdt. unfold cancel.
      destruct a as [[i pn pp dn d tm sv [] nt] cr]; reflexivity. }
    split; [|split; [exact Hcancelled|reflexivity]].
    unfold mark_completed, is_overdue. rewrite Hcancelled, Hsame. cbn [status_eqb].
    destruct (Z.ltb_spec t now); [reflexivity|lia].
Qed.

(** X20.  The reminder is for the appointments of the next 24 hours: an
    appointment is due for a reminder exactly when it starts after now and
    at most 24 hours from now; it is then upcoming, not overdue, and
    [mark_completed] leaves it as it is.  When the date or the time of the
    appointment does not read back, [remind_soon] and [is_upcoming] raise,
    and so does [mark_completed] unless the appointment is completed. *)
Theorem reminder_window (now : Z) (a : t) :
  (remind_soon now a = inr true
   <-> exists t, get_datetime a = inr t /\ now < t <= now + 24 * MICROS_PER_HOUR)
  /\ (remind_soon now a = inr true ->
      is_upcoming now a = inr true /\ is_overdue now a = inr false
      /\ mark_completed now a = inr a)
  /\ (forall err,
        get_datetime a = inl err ->
        remind_soon now a = inl err /\ is_upcoming now a = inl err
        /\ (status a <> COMPLETED -> mark_completed now a = inl err)
        /\ (status a = COMPLETED -> mark_completed now a = inr a)).
Proof.
  assert (Hwindow : remind_soon now a = inr true
                    <-> exists t, get_datetime a = inr t
                                  /\ now < t <= now + 24 * MICROS_PER_HOUR).
  { unfold remind_soon. destruct (get_datetime a) as [err|t].
    - split; [discriminate|]. intros (t & Ht & _). discriminate.
    - split.
      + intros [= [Hlo%Z.ltb_lt Hhi%Z.leb_le]%andb_true_iff]. exists t.
        split; [reflexivity|lia].
      + intros (t' & [= <-] & Hlo & Hhi). f_equal. apply andb_true_iff.
        split; [apply Z.ltb_lt | apply Z.leb_le]; lia. }
  split; [exact Hwindow|]. split.
  - intros (t & Ht & Hlo & Hhi)%Hwindow.
    unfold mark_completed, is_upcoming, is_overdue. rewrite Ht.
    destruct (Z.ltb_spec now t); [|lia]. destruct (Z.ltb_spec t now); [lia|].
    destruct (status_eqb (status a) COMPLETED); repeat split.
  - intros err Herr. unfold remind_soon, is_upcoming, mark_completed, is_overdue.
    rewrite Herr. repeat split.
    + intros Hst. destruct (status_eqb (status a) COMPLETED) eqn:Heq; [|reflexivity].
      apply status_eqb_eq in Heq. contradiction.
    + intros ->. reflexivity.
Qed.
End AppointmentMethodsProperties.

(** ** The further properties at work *)

Section MoreExamples.
Import MemoryClinic Samples.

Lemma conversations_are_keyed (turns : list (string * string)) :
  keyed (sessions (after turns)).
Proof.
  apply run_calls_keyed. intros k s Hl. cbn in Hl.
  rewrite lookup_empty in Hl. discriminate.
Qed.

(** The laptop chooses while the phone waits: the phone's session is as it
    was. *)
Lemma call_touches_only_the_callers_session_witness :
  keyed (sessions moved_after_cancel)
  /\ sessions (snd (get_response at_10_05 "hello" "alice-laptop" moved_after_cancel))
     !! "alice-phone"
     = Some (confirming_move "alice-phone").
Proof.
  pose proof (conversations_are_keyed
                [("reschedule my appointment", "alice-phone"); ("Alice", "alice-phone");
                 ("1", "alice-phone"); ("2026-11-12", "alice-phone");
                 ("15:00", "alice-phone");
                 ("cancel my appointment", "alice-laptop"); ("Alice", "alice-laptop");
                 ("1", "alice-laptop")]) as Hk.
  split; [exact Hk|].
  apply (call_touches_only_the_callers_session at_10_05 "hello" "alice-laptop"
           moved_after_cancel Hk).
  - discriminate.
  - split; [vm_compute; reflexivity|]. intros Hdue. vm_compute in Hdue. discriminate.
Defined.

Lemma booking_never_completes_witness :
  sessions booking_attempt !! "Alice" = Some about_to_confirm
  /\ unbooked about_to_confirm
  /\ state about_to_confirm <> BOOKING_COMPLETE
  /\ state about_to_confirm <> CONFIRMATION.
Proof.
  assert (Hs : sessions booking_attempt !! "Alice" = Some about_to_confirm)
    by (vm_compute; reflexivity).
  split; [exact Hs|].
  apply (booking_never_completes
           (script [("book an appointment", "Alice"); ("toothache", "Alice");
                    ("2026-11-10", "Alice"); ("+1-555-0100", "Alice")])
           clinic0 "Alice" about_to_confirm Hs).
Defined.

Lemma engine_commit_fails_validation_witness :
  sessions booking_attempt !! "Alice" = Some about_to_confirm
  /\ unbooked about_to_confirm
  /\ lower (strip "Yes") ∈ affirmative
  /\ exists errors,
       _handle_confirmation at_10_05 "Alice" "Yes" booking_attempt
       = (inr (booking_error_reply (ValueError (validation_message errors))),
          booking_attempt)
       /\ "time" ∈ errors /\ "service_type" ∈ errors /\ "doctor_name" ∈ errors.
Proof.
  assert (Hs : sessions booking_attempt !! "Alice" = Some about_to_confirm)
    by (vm_compute; reflexivity).
  assert (Hu : unbooked about_to_confirm) by (repeat split).
  assert (Hyes : lower (strip "Yes") ∈ affirmative) by compute_done.
  split; [exact Hs|]. split; [exact Hu|]. split; [exact Hyes|].
  apply (engine_commit_fails_validation at_10_05 "Alice" "Yes" booking_attempt
           about_to_confirm Hs Hu Hyes).
Defined.

Lemma restart_replaces_the_session_witness :
  lower (strip " ReStart ") = "restart"
  /\ get_response at_10_05 " ReStart " "Alice" asked_which_to_cancel
     = (inr (_greet_user at_10_05 "Alice"),
        World (<["Alice" := set_state GREETING (_create_session (now at_10_05) "Alice")]>
                 (entered at_10_05 "Alice" (sessions asked_which_to_cancel)))
          (clinic asked_which_to_cancel)).
Proof.
  assert (Hcmd : lower (strip " ReStart ") = "restart") by reflexivity.
  split; [exact Hcmd|].
  apply (restart_replaces_the_session at_10_05 " ReStart " "Alice" asked_which_to_cancel
           Hcmd).
Defined.


Lemma only_open_appointments_witness :
  get_patient_appointments (strip " Alice ") closed_books
  = (inr [MemoryClinic.with_status CANCELLED alice_cleaning], closed_books)
  /\ snd (_handle_cancel_appointment_selection "Alice" " Alice "
            (World (sessions bob_asked_to_cancel) closed_books))
     = World (sessions bob_asked_to_cancel) closed_books.
Proof.
  assert (Hgw : get_patient_appointments (strip " Alice ")
                  (clinic (World (sessions bob_asked_to_cancel) closed_books))
                = (inr [MemoryClinic.with_status CANCELLED alice_cleaning], closed_books))
    by reflexivity.
  split; [exact Hgw|].
  refine (proj1 (proj2 (proj2 (only_open_appointments_are_offered "Alice" " Alice "
                                 (World (sessions bob_asked_to_cancel) closed_books)
                                 _ _ Hgw)) _)).
  reflexivity.
Defined.

Lemma cancel_by_number_witness :
  sessions asked_which_to_cancel !! "Alice" = Some (choosing "Alice")
  /\ _handle_cancel_confirmation "Alice" " 1 " asked_which_to_cancel
     = (inr ("[SUCCESS] Appointment cancelled successfully!" +:+ nl +:+ nl
             +:+ "Cancelled: 2026-11-10 at 14:00 with Dr. Jane Roe" +:+ nl +:+ nl
             +:+ "If you need to book a new appointment, just let me know!"),
        World (<["Alice" := set_state START (choosing "Alice")]>
                 (sessions asked_which_to_cancel)) closed_books).
Proof.
  assert (Hs : sessions asked_which_to_cancel !! "Alice" = Some (choosing "Alice"))
    by (vm_compute; reflexivity).
  split; [exact Hs|].
  apply (cancel_by_number "Alice" " 1 " asked_which_to_cancel (choosing "Alice") 1
           alice_cleaning closed_books Hs); [reflexivity | lia | reflexivity |].
  vm_compute. reflexivity.
Defined.

Lemma reschedule_selects_and_commits_witness :
  sessions moving !! "alice-phone" = Some (confirming_move "alice-phone")
  /\ lower (strip "yes") ∈ affirmative
  /\ snd (_handle_reschedule_confirmation "alice-phone" "yes" moving)
     = World (<["alice-phone" := set_state START (confirming_move "alice-phone")]>
                (sessions moving))
         (Db [MemoryClinic.moved_to "2026-11-12" "15:00" alice_cleaning] [] true).
Proof.
  assert (Hs : sessions moving !! "alice-phone" = Some (confirming_move "alice-phone"))
    by apply lookup_singleton_eq.
  assert (Hyes : lower (strip "yes") ∈ affirmative) by compute_done.
  split; [exact Hs|]. split; [exact Hyes|].
  apply (proj2 (reschedule_selects_and_commits "alice-phone" "yes" moving
                  (confirming_move "alice-phone") Hs)
           alice_cleaning "2026-11-12" "15:00" _ Hyes); reflexivity.
Defined.


Lemma accepted_answers_witness :
  _is_valid_date (now at_10_00) " 2026-11-10 " = inr (true, None)
  /\ validate_date (date_of (now at_10_00)) "2026-11-10" = true.
Proof.
  assert (Hok : _is_valid_date (now at_10_00) " 2026-11-10 " = inr (true, None))
    by (vm_compute; reflexivity).
  split; [exact Hok|].
  apply (proj1 (proj2 (accepted_answers_pass_the_model (now at_10_00) " 2026-11-10 ")) Hok).
Defined.

(** A day later, Alice still chooses from the list she was shown: the store
    has one session, so the sweep is not due. *)
Lemma expired_session_witness :
  sessions asked_which_to_cancel !! "Alice" = Some (choosing "Alice")
  /\ sweep_due (sessions asked_which_to_cancel) = false
  /\ swept (Env (now at_10_00 + MICROS_PER_DAY) "c0ffee11") (sessions asked_which_to_cancel)
     !! "Alice" = Some (choosing "Alice").
Proof.
  assert (Hs : sessions asked_which_to_cancel !! "Alice" = Some (choosing "Alice"))
    by (vm_compute; reflexivity).
  assert (Hdue : sweep_due (sessions asked_which_to_cancel) = false)
    by (vm_compute; reflexivity).
  split; [exact Hs|]. split; [exact Hdue|].
  apply (proj2 (expired_session_is_dropped_by_a_due_sweep
                  (Env (now at_10_00 + MICROS_PER_DAY) "c0ffee11") "1" "Alice"
                  asked_which_to_cancel (choosing "Alice") Hs) (or_introl Hdue)).
Defined.

Lemma doctor_prompt_witness :
  lower (strip " ANY ") = "any"
  /\ snd (_handle_doctor_selection "Alice" " ANY " booking_attempt)
     = World (alter (fun s => set_state CONFIRMATION
                                (set_data (Draft.set_doctor_name "Any") s))
                "Alice" (sessions booking_attempt)) (clinic booking_attempt).
Proof.
  assert (Hany : lower (strip " ANY ") = "any") by reflexivity.
  split; [exact Hany|].
  apply (proj1 (doctor_prompt_outcomes "Alice" " ANY " booking_attempt) Hany).
Defined.

Lemma settled_is_dependable : dependable settled.
Proof.
  assert (Hkeep : forall id f (d : db), settled d -> change id f d = (false, d)).
  { intros id f d [_ Hclosed]. unfold change.
    destruct (existsb (open_with_id id) (appointments d)) eqn:Hopen; [|reflexivity].
    apply existsb_exists in Hopen as (a & Hin & Ha). rewrite Forall_forall in Hclosed.
    apply list_elem_of_In, Hclosed in Hin as [Hin _]. unfold open_with_id in Ha.
    rewrite Hin, andb_false_r in Ha. discriminate. }
  repeat split.
  - intros query d Hd. pose proof Hd as [Hon Hclosed].
    exists (List.filter (owned_by query) (appointments d)), d.
    cbn. unfold guarded. rewrite Hon. repeat split; try assumption.
    rewrite Forall_forall in Hclosed. apply Forall_forall.
    intros a [Hin _]%list_elem_of_In%filter_In. apply list_elem_of_In in Hin.
    apply (Hclosed a Hin).
  - intros d Hd. pose proof Hd as [Hon _]. exists (doctors d), d.
    cbn. unfold guarded. rewrite Hon. split; [reflexivity | exact Hd].
  - intros id reason d Hd. pose proof Hd as [Hon _]. exists false, d.
    cbn. unfold guarded. rewrite Hon, (Hkeep _ _ _ Hd). split; [reflexivity | exact Hd].
  - intros id new_date new_time d Hd. pose proof Hd as [Hon _]. exists false, d.
    cbn. unfold guarded. rewrite Hon, (Hkeep _ _ _ Hd). split; [reflexivity | exact Hd].
Qed.


Lemma appointments_are_listed_witness :
  get_patient_appointments (strip "Alice") two_visits
  = (inr [alice_cleaning; alice_checkup], two_visits)
  /\ map snd (sort_by_key [(1065500040, alice_cleaning); (1065492570, alice_checkup)])
     = [alice_checkup; alice_cleaning]
  /\ fst (_handle_view_appointments "Alice" "Alice" (World ∅ two_visits))
     = inr ("[APPOINTMENTS] Here are your appointments:" +:+ nl +:+ nl
            +:+ view_entry alice_checkup +:+ view_entry alice_cleaning
            +:+ "Would you like to book a new appointment, cancel, or reschedule any of these? (book/cancel/reschedule/no)").
Proof.
  assert (Hgw : get_patient_appointments (strip "Alice") (clinic (World ∅ two_visits))
                = (inr [alice_cleaning; alice_checkup], two_visits)) by reflexivity.
  assert (Hkeys : datetime_keys [alice_cleaning; alice_checkup]
                  = inr [(1065500040, alice_cleaning); (1065492570, alice_checkup)])
    by (vm_compute; reflexivity).
  split; [exact Hgw|]. split; [reflexivity|].
  rewrite (proj1 (appointments_are_listed_in_date_order "Alice" "Alice"
                    (World ∅ two_visits) _ two_visits _ Hgw ltac:(discriminate) Hkeys)).
  vm_compute. reflexivity.
Defined.

Lemma license_numbers_witness :
  fst (ClinicService.add_doctor dr_roe
         (fold_left ClinicService.register [ClinicService.NewDoctor dr_roe]
            ClinicService.init)) = false
  /\ snd (ClinicService.add_doctor dr_roe
            (fold_left ClinicService.register [ClinicService.NewDoctor dr_roe]
               ClinicService.init))
     = fold_left ClinicService.register [ClinicService.NewDoctor dr_roe]
         ClinicService.init.
Proof.
  assert (Hno : fst (ClinicService.add_doctor dr_roe
                       (fold_left ClinicService.register [ClinicService.NewDoctor dr_roe]
                          ClinicService.init)) = false) by reflexivity.
  split; [exact Hno|].
  apply (proj1 (proj2 (proj2 (license_numbers_stay_unique
                                [ClinicService.NewDoctor dr_roe] dr_roe))) Hno).
Defined.

Lemma added_doctor_witness :
  fst (ClinicService.add_doctor dr_roe ClinicService.init) = true
  /\ lower "ROE" = lower (ClinicService.last_name (ClinicService.doctor_person dr_roe))
  /\ dr_roe ∈ ClinicService.find_doctor "ROE"
               (snd (ClinicService.add_doctor dr_roe ClinicService.init)).
Proof.
  assert (Hyes : fst (ClinicService.add_doctor dr_roe ClinicService.init) = true)
    by reflexivity.
  assert (Hterm : lower "ROE"
                  = lower (ClinicService.last_name (ClinicService.doctor_person dr_roe)))
    by reflexivity.
  split; [exact Hyes|]. split; [exact Hterm|].
  refine (proj1 (added_doctor_is_found dr_roe ClinicService.init
                   "ROE" Hyes _)).
  right. right. left. exact Hterm.
Defined.

Lemma completed_is_final_witness :
  AppointmentMethods.status past_cleaning = COMPLETED
  /\ AppointmentMethods.cancel "no longer needed" past_cleaning = past_cleaning
  /\ AppointmentMethods.mark_completed (now at_10_00) past_cleaning = inr past_cleaning.
Proof.
  assert (Hst : AppointmentMethods.status past_cleaning = COMPLETED) by reflexivity.
  split; [exact Hst|].
  apply (proj1 (completed_is_final_cancelled_is_not
                  (now at_10_00) "no longer needed" "" past_cleaning) Hst).
Defined.

Lemma reminder_window_witness :
  AppointmentMethods.remind_soon ((739929 * 24 + 10) * MICROS_PER_HOUR)
    (AppointmentMethods.mk alice_cleaning None) = inr true
  /\ AppointmentMethods.is_upcoming ((739929 * 24 + 10) * MICROS_PER_HOUR)
       (AppointmentMethods.mk alice_cleaning None) = inr true
  /\ AppointmentMethods.is_overdue ((739929 * 24 + 10) * MICROS_PER_HOUR)
       (AppointmentMethods.mk alice_cleaning None) = inr false
  /\ AppointmentMethods.mark_completed ((739929 * 24 + 10) * MICROS_PER_HOUR)
       (AppointmentMethods.mk alice_cleaning None)
     = inr (AppointmentMethods.mk alice_cleaning None).
Proof.
  assert (Hsoon : AppointmentMethods.remind_soon ((739929 * 24 + 10) * MICROS_PER_HOUR)
                    (AppointmentMethods.mk alice_cleaning None) = inr true)
    by (vm_compute; reflexivity).
  split; [exact Hsoon|].
  apply (proj1 (proj2 (reminder_window
                         ((739929 * 24 + 10) * MICROS_PER_HOUR)
                         (AppointmentMethods.mk alice_cleaning None))) Hsoon).
Defined.
End MoreExamples.
